(** * Lifting diary: the workout data helpers of [src/lib/date-utils.ts]

    A shallow embedding of [formatDateWithOrdinal] and [getWorkoutsForDate]
    (with the schema of [src/db/schema.ts] and the date validation of the
    dashboard page and the calendar selector), followed by the properties
    the specification states about them.

    Conventions.
    - A JavaScript [number] holding a database integer is a [Z].
    - A [Date] is its time value: milliseconds since the epoch, or NaN
      ([JsDate]).  A timestamp of a table is the time value that the driver
      reads from it, a plain [Z]; the model compares and orders the rows by
      these, as the database does by what it holds, the two being the same
      from the year 100 on (see [readTimestamp]).
    - A nullable field is an [option].
    - A JavaScript [Map] keeps its keys in insertion order, and the output of
      the aggregation is read off that order, so a [Map<number, V>] is an
      association list with the operations of [JsMap].
    - Record fields carry a short prefix naming their record, as several
      records of the source share the field names [id], [name] and [sets]. *)

From Stdlib Require Import ZArith List String Ascii Bool Lia.
From Stdlib Require Import Permutation Sorted DecimalString.
Import ListNotations.

Local Open Scope string_scope.
Local Open Scope list_scope.
Local Open Scope Z_scope.

(** ** The schema ([src/db/schema.ts]) *)

(** [workouts] *)
Record WorkoutRow := {
  w_id : Z;
  w_userId : string;
  w_name : option string;
  w_startedAt : Z;
  w_completedAt : option Z;
  w_createdAt : Z
}.

(** [workout_exercises] *)
Record WorkoutExerciseRow := {
  we_id : Z;
  we_workoutId : Z;
  we_exerciseId : Z;
  we_order : Z;
  we_createdAt : Z
}.

(** [exercises] *)
Record ExerciseRow := {
  e_id : Z;
  e_userId : option string;
  e_name : string;
  e_description : option string;
  e_createdAt : Z;
  e_updatedAt : Z
}.

(** [sets]; [weight] is a [numeric] column, which the driver hands over as
    text. *)
Record SetRow := {
  s_id : Z;
  s_workoutExerciseId : Z;
  s_setNumber : Z;
  s_weight : option string;
  s_reps : option Z;
  s_durationSeconds : option Z;
  s_createdAt : Z
}.

(** One record of the joined selection
    [{ workout, workoutExercise, exercise, set }]. *)
Record Row := {
  workout : option WorkoutRow;
  workoutExercise : option WorkoutExerciseRow;
  exercise : option ExerciseRow;
  set : option SetRow
}.

(** ** The result types of [date-utils.ts] *)

Record WorkoutSet := {
  setNumber : Z;
  weight : option string;
  reps : option Z;
  durationSeconds : option Z
}.

Record WorkoutExercise := {
  name : string;
  sets : list WorkoutSet
}.

Record WorkoutWithExercises := {
  id : Z;
  wx_name : option string;
  startedAt : Z;
  completedAt : option Z;
  exercises : list WorkoutExercise
}.

(** ** Insertion-ordered maps *)

Module JsMap.
Section Ops.
Context {V : Type}.

Definition t := list (Z * V).

Definition empty : t := [].

Fixpoint get (m : t) (k : Z) : option V :=
  match m with
  | [] => None
  | (k', v) :: m' => if k' =? k then Some v else get m' k
  end.

Definition has (m : t) (k : Z) : bool :=
  match get m k with Some _ => true | None => false end.

(** [set] on a key already present replaces the value where it stands; a
    new key goes to the end. *)
Fixpoint set (m : t) (k : Z) (v : V) : t :=
  match m with
  | [] => [(k, v)]
  | (k', v') :: m' =>
      if k' =? k then (k', v) :: m' else (k', v') :: set m' k v
  end.

Definition keys (m : t) : list Z := map fst m.

Definition values (m : t) : list V := map snd m.
End Ops.
Arguments t V : clear implicits.
End JsMap.

(** ** [Array.prototype.sort] with a comparator

    The sort of the language is stable, so for a comparator that is
    consistent (here: the difference of two integer keys) its result is the
    one stable ordering of the array.  [sortBy] computes it by insertion from
    the right: an element goes in front of the first element that does not
    compare below it. *)

Section Sort.
Context {A : Type} (compareFn : A -> A -> Z).

Fixpoint insertSorted (x : A) (l : list A) : list A :=
  match l with
  | [] => [x]
  | y :: l' =>
      if compareFn x y <=? 0 then x :: y :: l' else y :: insertSorted x l'
  end.

Definition sortBy (l : list A) : list A := fold_right insertSorted [] l.
End Sort.

(** ** The aggregation of [getWorkoutsForDate] *)

(** The value type of [workout.exercises]. *)
Record ExerciseEntry := {
  x_name : string;
  x_order : Z;
  x_sets : list WorkoutSet
}.

Record WorkoutWithExerciseMap := {
  wm_id : Z;
  wm_name : option string;
  wm_startedAt : Z;
  wm_completedAt : option Z;
  wm_exercises : JsMap.t ExerciseEntry
}.

Definition newWorkoutEntry (w : WorkoutRow) : WorkoutWithExerciseMap :=
  {| wm_id := w_id w;
     wm_name := w_name w;
     wm_startedAt := w_startedAt w;
     wm_completedAt := w_completedAt w;
     wm_exercises := JsMap.empty |}.

Definition newExerciseEntry (e : ExerciseRow) (we : WorkoutExerciseRow)
  : ExerciseEntry :=
  {| x_name := e_name e; x_order := we_order we; x_sets := [] |}.

Definition newSet (s : SetRow) : WorkoutSet :=
  {| setNumber := s_setNumber s;
     weight := s_weight s;
     reps := s_reps s;
     durationSeconds := s_durationSeconds s |}.

(** [exercise.sets.push(...)] *)
Definition pushSet (x : ExerciseEntry) (s : WorkoutSet) : ExerciseEntry :=
  {| x_name := x_name x; x_order := x_order x; x_sets := x_sets x ++ [s] |}.

(** The workout object is shared with the map, so a write to its
    [exercises] shows in the map, at the place the workout already has. *)
Definition withExercises (wk : WorkoutWithExerciseMap)
  (xs : JsMap.t ExerciseEntry) : WorkoutWithExerciseMap :=
  {| wm_id := wm_id wk;
     wm_name := wm_name wk;
     wm_startedAt := wm_startedAt wk;
     wm_completedAt := wm_completedAt wk;
     wm_exercises := xs |}.

(** The part of the loop body under [if (row.exercise && row.workoutExercise)],
    on the exercises of the current workout. *)
Definition processExercise (xs : JsMap.t ExerciseEntry) (row : Row)
  : JsMap.t ExerciseEntry :=
  match exercise row, workoutExercise row with
  | Some e, Some we =>
      let exerciseId := e_id e in
      let xs1 :=
        if negb (JsMap.has xs exerciseId)
        then JsMap.set xs exerciseId (newExerciseEntry e we)
        else xs in
      match set row with
      | Some s =>
          match JsMap.get xs1 exerciseId with
          | Some x => JsMap.set xs1 exerciseId (pushSet x (newSet s))
          | None => xs1
          end
      | None => xs1
      end
  | _, _ => xs
  end.

(** One turn of [for (const row of workoutsData)]. *)
Definition processRow (workoutsMap : JsMap.t WorkoutWithExerciseMap)
  (row : Row) : JsMap.t WorkoutWithExerciseMap :=
  match workout row with
  | None => workoutsMap
  | Some w =>
      let workoutId := w_id w in
      let workoutsMap1 :=
        if negb (JsMap.has workoutsMap workoutId)
        then JsMap.set workoutsMap workoutId (newWorkoutEntry w)
        else workoutsMap in
      match JsMap.get workoutsMap1 workoutId with
      | None => workoutsMap1
      | Some wk =>
          JsMap.set workoutsMap1 workoutId
            (withExercises wk (processExercise (wm_exercises wk) row))
      end
  end.

Definition buildWorkoutsMap (workoutsData : list Row)
  : JsMap.t WorkoutWithExerciseMap :=
  fold_left processRow workoutsData JsMap.empty.

Definition compareOrder (a b : ExerciseEntry) : Z := x_order a - x_order b.

Definition compareSetNumber (a b : WorkoutSet) : Z :=
  setNumber a - setNumber b.

(** [Array.from(workout.exercises.values()).sort((a, b) => a.order - b.order)] *)
Definition sortedExercises (wk : WorkoutWithExerciseMap) : list ExerciseEntry :=
  sortBy compareOrder (JsMap.values (wm_exercises wk)).

(** [({ order, ...exercise }) => ({ ...exercise, sets: exercise.sets.sort(...) })] *)
Definition dropOrder (x : ExerciseEntry) : WorkoutExercise :=
  {| name := x_name x; sets := sortBy compareSetNumber (x_sets x) |}.

Definition toOutput (wk : WorkoutWithExerciseMap) : WorkoutWithExercises :=
  {| id := wm_id wk;
     wx_name := wm_name wk;
     startedAt := wm_startedAt wk;
     completedAt := wm_completedAt wk;
     exercises := map dropOrder (sortedExercises wk) |}.

(** Lines 109 to 164: from the joined rows to the nested result. *)
Definition aggregate (workoutsData : list Row) : list WorkoutWithExercises :=
  map toOutput (JsMap.values (buildWorkoutsMap workoutsData)).

(** ** Failure *)

Record Error := { errorName : string; message : string }.

Inductive Result (A : Type) : Type :=
| Ok (a : A)
| Throw (e : Error).
Arguments Ok {A} a.
Arguments Throw {A} e.

Definition bindResult {A B} (r : Result A) (k : A -> Result B) : Result B :=
  match r with
  | Ok a => k a
  | Throw e => Throw e
  end.

(** ** Dates

    A date carries its time value as the operations on it arrive at it;
    [TimeClip], which makes an invalid date of a time value beyond 8.64e15
    ms either side of the epoch, is applied where the program reads a date
    that it has computed, which is where the date is sent to the database
    ([toISOTime] below). *)

Inductive JsDate :=
| ValidDate (t : Z)
| InvalidDate.

Definition maxTime : Z := 8640000000000000.

Definition TimeClip (t : Z) : JsDate :=
  if Z.abs t <=? maxTime then ValidDate t else InvalidDate.

(** The local zone, [LocalTZA(t, isUTC)] of the language, in milliseconds:
    [zone t true] is the offset from UTC in force at the instant [t], and
    [zone t false] is the offset by which the local time [t] is read, which
    for a local time that a change of the clocks skips or repeats is the
    offset before the change.  A zone at a fixed offset is written as that
    offset. *)
Definition Zone : Type := Z -> bool -> Z.

Definition fixedZone (offset : Z) : Zone := fun _ _ => offset.

Coercion fixedZone : Z >-> Zone.

(** [date.getTime()]; [None] is NaN. *)
Definition getTime (date : JsDate) : option Z :=
  match date with
  | ValidDate t => Some t
  | InvalidDate => None
  end.

Definition isNaN (x : option Z) : bool :=
  match x with Some _ => false | None => true end.

Definition msPerDay : Z := 86400000.

Definition Day (t : Z) : Z := t / msPerDay.

Definition MakeTime (hour min sec ms : Z) : Z :=
  hour * 3600000 + min * 60000 + sec * 1000 + ms.

Definition MakeDate (day time : Z) : Z := day * msPerDay + time.

(** Days from the epoch to the civil date [y]-[m]-[d] ([m] from 1), and
    back: the proleptic Gregorian calendar counted in eras of 400 years that
    start on a first of March. *)
Definition daysFromCivil (y m d : Z) : Z :=
  let y' := if m <=? 2 then y - 1 else y in
  let era := y' / 400 in
  let yoe := y' - era * 400 in
  let mp := if m <=? 2 then m + 9 else m - 3 in
  let doy := (153 * mp + 2) / 5 + d - 1 in
  let doe := yoe * 365 + yoe / 4 - yoe / 100 + doy in
  era * 146097 + doe - 719468.

Definition civilFromDays (z : Z) : Z * Z * Z :=
  let z' := z + 719468 in
  let era := z' / 146097 in
  let doe := z' - era * 146097 in
  let yoe := (doe - doe / 1460 + doe / 36524 - doe / 146096) / 365 in
  let doy := doe - (365 * yoe + yoe / 4 - yoe / 100) in
  let mp := (5 * doy + 2) / 153 in
  let d := doy - (153 * mp + 2) / 5 + 1 in
  let m := if mp <? 10 then mp + 3 else mp - 9 in
  let y := yoe + era * 400 + (if m <=? 2 then 1 else 0) in
  (y, m, d).

(** [MakeDay(year, month, date)], [month] counted from 0. *)
Definition MakeDay (year month date : Z) : Z :=
  daysFromCivil (year + month / 12) (month mod 12 + 1) 1 + date - 1.

(** [check] on [n] consecutive day numbers from [z]. *)
Fixpoint everyDay (n : nat) (z : Z) (check : Z -> bool) : bool :=
  match n with
  | O => true
  | S n' => check z && everyDay n' (z + 1) check
  end.

Section LocalZone.
Variable localTZA : Zone.

Definition LocalTime (t : Z) : Z := t + localTZA t true.

Definition UTC (t : Z) : Z := t - localTZA t false.

(** [date.setHours(hour, min, sec, ms)]: the local day of the date with
    the time given, read as a local time; an invalid date stays invalid.
    The time value is kept as it is arrived at; see [TimeClip] above. *)
Definition setHours (date : JsDate) (hour min sec ms : Z) : JsDate :=
  match date with
  | InvalidDate => InvalidDate
  | ValidDate t =>
      ValidDate (UTC (MakeDate (Day (LocalTime t)) (MakeTime hour min sec ms)))
  end.

(** [new Date(year, monthIndex, day)]: local midnight; a year from 0 to 99
    counts from 1900. *)
Definition newDateYMD (year monthIndex day : Z) : JsDate :=
  let yr := if (0 <=? year) && (year <=? 99) then 1900 + year else year in
  ValidDate (UTC (MakeDate (MakeDay yr monthIndex day) 0)).

Definition getFullYear (t : Z) : Z :=
  let '(y, _, _) := civilFromDays (Day (LocalTime t)) in y.

(** [date.getMonth()], from 0. *)
Definition getMonth (t : Z) : Z :=
  let '(_, m, _) := civilFromDays (Day (LocalTime t)) in m - 1.

Definition getDate (t : Z) : Z :=
  let '(_, _, d) := civilFromDays (Day (LocalTime t)) in d.
End LocalZone.

(** [date.getUTCFullYear()] *)
Definition getUTCFullYear (t : Z) : Z :=
  let '(y, _, _) := civilFromDays (Day t) in y.

(** ** Numerals *)

(** [String(n)] for an integer. *)
Definition numberToString (n : Z) : string :=
  DecimalString.NilZero.string_of_int (Z.to_int n).

Definition digitValue (c : ascii) : option Z :=
  let n := Z.of_nat (nat_of_ascii c) in
  if (48 <=? n) && (n <=? 57) then Some (n - 48) else None.

Fixpoint parseDigits (s : string) (acc : option Z) : option Z :=
  match s with
  | EmptyString => acc
  | String c s' =>
      match digitValue c with
      | Some d =>
          parseDigits s'
            (Some (10 * (match acc with Some a => a | None => 0 end) + d))
      | None => acc
      end
  end.

(** [parseInt(s)] on an optional sign and decimal digits; [None] is NaN.
    White space and the [0x] prefix do not occur in what [format] returns
    for ['d'] and are not read here. *)
Definition parseInt (s : string) : option Z :=
  match s with
  | String "-" s' => option_map Z.opp (parseDigits s' None)
  | String "+" s' => parseDigits s' None
  | _ => parseDigits s None
  end.

(** ** [format] of date-fns, on the three patterns the program uses *)

Inductive Pattern := Pd | PMMM | Pyyyy.

Definition monthAbbreviation (month : Z) : string :=
  match month with
  | 0 => "Jan" | 1 => "Feb" | 2 => "Mar" | 3 => "Apr"
  | 4 => "May" | 5 => "Jun" | 6 => "Jul" | 7 => "Aug"
  | 8 => "Sep" | 9 => "Oct" | 10 => "Nov" | _ => "Dec"
  end.

Fixpoint zeros (n : nat) : string :=
  match n with
  | O => ""
  | S n' => String "0" (zeros n')
  end.

Definition addLeadingZeros (number : Z) (targetLength : nat) : string :=
  let sign := if number <? 0 then "-" else "" in
  let output := numberToString (Z.abs number) in
  (sign ++ zeros (targetLength - String.length output) ++ output)%string.

Definition invalidTimeValue : Error :=
  {| errorName := "RangeError"; message := "Invalid time value" |}.

Definition format (localTZA : Zone) (date : JsDate) (pattern : Pattern)
  : Result string :=
  match date with
  | InvalidDate => Throw invalidTimeValue
  | ValidDate t =>
      match pattern with
      | Pd => Ok (numberToString (getDate localTZA t))
      | PMMM => Ok (monthAbbreviation (getMonth localTZA t))
      | Pyyyy =>
          let signedYear := getFullYear localTZA t in
          let year := if signedYear >? 0 then signedYear else 1 - signedYear in
          Ok (addLeadingZeros year 4)
      end
  end.

(** ** [formatDateWithOrdinal] *)

(** The inner [suffix]; with [num] NaN both comparisons fail and
    [num % 10] matches no case. *)
Definition suffix (day : string) : string :=
  match parseInt day with
  | None => "th"
  | Some num =>
      if (num >? 3) && (num <? 21) then "th"
      else match Z.rem num 10 with
           | 1 => "st"
           | 2 => "nd"
           | 3 => "rd"
           | _ => "th"
           end
  end.

Definition formatDateWithOrdinal (localTZA : Zone) (date : JsDate)
  : Result string :=
  bindResult (format localTZA date Pd) (fun day =>
  bindResult (format localTZA date PMMM) (fun month =>
  bindResult (format localTZA date Pyyyy) (fun year =>
  Ok (day ++ suffix day ++ " " ++ month ++ " " ++ year)%string))).

(** The suffix rule as the specification words it, on [d % 100] first. *)
Definition ordinalSuffixMod100 (d : Z) : string :=
  if (11 <=? Z.rem d 100) && (Z.rem d 100 <=? 13) then "th"
  else match Z.rem d 10 with
       | 1 => "st"
       | 2 => "nd"
       | 3 => "rd"
       | _ => "th"
       end.

(** ** The database and the session

    [getWorkoutsForDate] reads the session through [auth()] and the database
    through one selection.  A [World] holds both, with the list of the
    selections issued so far. *)

Record Database := {
  tbl_workouts : list WorkoutRow;
  tbl_workoutExercises : list WorkoutExerciseRow;
  tbl_exercises : list ExerciseRow;
  tbl_sets : list SetRow
}.

(** The parameters bound in the selection of [getWorkoutsForDate]. *)
Record Selection := {
  sel_userId : string;
  sel_startOfDay : Z;
  sel_endOfDay : Z
}.

Record World := {
  session : option string;
  database : Database;
  issued : list Selection
}.

Definition M (A : Type) : Type := World -> Result A * World.

Definition ret {A} (a : A) : M A := fun w => (Ok a, w).

Definition throw {A} (e : Error) : M A := fun w => (Throw e, w).

Definition bind {A B} (m : M A) (k : A -> M B) : M B :=
  fun w =>
    match m w with
    | (Ok a, w') => k a w'
    | (Throw e, w') => (Throw e, w')
    end.

Notation "x <- m ;; k" := (bind m (fun x => k))
  (at level 61, m at next level, right associativity).

(** [const { userId } = await auth()] *)
Definition auth : M (option string) := fun w => (Ok (session w), w).

(** [!userId]: [null] and the empty string are falsy. *)
Definition notUserId (userId : option string) : bool :=
  match userId with
  | None => true
  | Some s => String.eqb s ""
  end.

(** [left.leftJoin(table, on)]: every left record once per matching record
    of [table], and once with an absent right side when none matches. *)
Definition leftJoin {B} (left : list Row) (table : list B)
  (on : Row -> B -> bool) (withRight : Row -> option B -> Row) : list Row :=
  flat_map
    (fun r =>
       match filter (on r) table with
       | [] => [withRight r None]
       | matches => map (fun b => withRight r (Some b)) matches
       end)
    left.

Definition fromWorkouts (db : Database) : list Row :=
  map (fun w => {| workout := Some w; workoutExercise := None;
                   exercise := None; set := None |})
      (tbl_workouts db).

(** [eq(workoutExercises.workoutId, workouts.id)] *)
Definition onWorkoutExercise (r : Row) (we : WorkoutExerciseRow) : bool :=
  match workout r with
  | Some w => we_workoutId we =? w_id w
  | None => false
  end.

(** [eq(exercises.id, workoutExercises.exerciseId)] *)
Definition onExercise (r : Row) (e : ExerciseRow) : bool :=
  match workoutExercise r with
  | Some we => e_id e =? we_exerciseId we
  | None => false
  end.

(** [eq(sets.workoutExerciseId, workoutExercises.id)] *)
Definition onSet (r : Row) (s : SetRow) : bool :=
  match workoutExercise r with
  | Some we => s_workoutExerciseId s =? we_id we
  | None => false
  end.

Definition joined (db : Database) : list Row :=
  leftJoin
    (leftJoin
       (leftJoin (fromWorkouts db) (tbl_workoutExercises db) onWorkoutExercise
          (fun r we => {| workout := workout r; workoutExercise := we;
                          exercise := exercise r; set := set r |}))
       (tbl_exercises db) onExercise
       (fun r e => {| workout := workout r;
                      workoutExercise := workoutExercise r;
                      exercise := e; set := set r |}))
    (tbl_sets db) onSet
    (fun r s => {| workout := workout r;
                   workoutExercise := workoutExercise r;
                   exercise := exercise r; set := s |}).

(** [and(eq(workouts.userId, userId), gte(workouts.startedAt, startOfDay),
         lt(workouts.startedAt, endOfDay))] *)
Definition whereClause (q : Selection) (r : Row) : bool :=
  match workout r with
  | Some w =>
      String.eqb (w_userId w) (sel_userId q)
      && (sel_startOfDay q <=? w_startedAt w)
      && (w_startedAt w <? sel_endOfDay q)
  | None => false
  end.

(** [desc(workouts.startedAt)].  The database leaves the order of rows with
    equal keys open; here they keep the order of the join. *)
Definition compareStartedAtDesc (a b : Row) : Z :=
  match workout a, workout b with
  | Some wa, Some wb => w_startedAt wb - w_startedAt wa
  | _, _ => 0
  end.

Definition runSelection (db : Database) (q : Selection) : list Row :=
  sortBy compareStartedAtDesc (filter (whereClause q) (joined db)).

(** A date is sent as [value.toISOString()], which fails on an invalid date
    before anything reaches the database. *)
Definition toISOTime (date : JsDate) : Result Z :=
  match date with
  | ValidDate t =>
      match TimeClip t with
      | ValidDate t' => Ok t'
      | InvalidDate => Throw invalidTimeValue
      end
  | InvalidDate => Throw invalidTimeValue
  end.

(** The database reads the text of a timestamp when its year has four
    digits and is not 0000; [toISOString] writes other years with a sign and
    six digits, or as 0000, and the database refuses those. *)
Definition timestampAccepted (t : Z) : bool :=
  (1 <=? getUTCFullYear t) && (getUTCFullYear t <=? 9999).

(** The error of a statement that the database refuses.  Its message goes
    on with the text of the statement and its parameters, which are left
    out here. *)
Definition failedQuery : Error :=
  {| errorName := "Error"; message := "Failed query" |}.

(** The selection is issued once both bounds are written; the database
    answers it with the rows, or refuses a bound. *)
Definition selectWorkoutsData (userId : string) (startOfDay endOfDay : JsDate)
  : M (list Row) :=
  fun w =>
    match toISOTime startOfDay, toISOTime endOfDay with
    | Ok s, Ok e =>
        let q := {| sel_userId := userId; sel_startOfDay := s;
                    sel_endOfDay := e |} in
        let w' := {| session := session w; database := database w;
                     issued := issued w ++ [q] |} in
        if timestampAccepted s && timestampAccepted e
        then (Ok (runSelection (database w) q), w')
        else (Throw failedQuery, w')
    | Throw e, _ => (Throw e, w)
    | _, Throw e => (Throw e, w)
    end.

(** ** [getWorkoutsForDate] *)

Definition unauthorized : Error :=
  {| errorName := "Error"; message := "Unauthorized" |}.

(** Lines 59 to 64: [startOfDay] and [endOfDay] of the selected date. *)
Definition dayBounds (localTZA : Zone) (date : JsDate) : JsDate * JsDate :=
  let startOfDay := setHours localTZA date 0 0 0 0 in
  let endOfDay := setHours localTZA date 23 59 59 999 in
  (startOfDay, endOfDay).

Definition getWorkoutsForDate (localTZA : Zone) (date : JsDate)
  : M (list WorkoutWithExercises) :=
  userId <- auth ;;
  if notUserId userId then throw unauthorized
  else
    let uid := match userId with Some s => s | None => "" end in
    let '(startOfDay, endOfDay) := dayBounds localTZA date in
    workoutsData <- selectWorkoutsData uid startOfDay endOfDay ;;
    ret (aggregate workoutsData).

(** ** The callers' date validation *)

(** Dashboard page: [if (isNaN(date.getTime())) { date = new Date() }],
    with [now] the time value of [new Date()]. *)
Definition validateDate (now : Z) (date : JsDate) : JsDate :=
  if isNaN (getTime date) then ValidDate now else date.

(** Calendar selector, the initial [selectedDate]; [parseDate] stands for
    [new Date(dateParam)] on a string. *)
Definition initialSelectedDate (parseDate : string -> JsDate) (now : Z)
  (dateParam : option string) : JsDate :=
  match dateParam with
  | Some s =>
      if String.eqb s "" then ValidDate now
      else
        let date := parseDate s in
        if isNaN (getTime date) then ValidDate now else date
  | None => ValidDate now
  end.

(** The day after, for a zone at a fixed offset. *)
Definition addDays (t : Z) (amount : Z) : Z := t + amount * msPerDay.

(** The clocks of the zone around local day [day]: the local times at which
    the day starts and at which it ends are read by offsets less than a day
    apart, and the offset by which the next midnight is read is not greater
    than the one of the last millisecond of the day, that is, the clocks are
    not put forward onto that midnight.  It holds of every day of a zone at a
    fixed offset, and of the days on which the clocks change during the
    day. *)
Definition clocksInOrder (zone : Zone) (day : Z) : Prop :=
  let first := MakeDate day (MakeTime 0 0 0 0) in
  let last := MakeDate day (MakeTime 23 59 59 999) in
  let next := MakeDate (day + 1) (MakeTime 0 0 0 0) in
  zone last false - zone first false < msPerDay - 1 /\
  zone next false <= zone last false.

(** ** Reading the rows by workout and by exercise

    What the rows say about one workout, or about one exercise of one
    workout, independently of the loop; the loop is compared with these
    below. *)

Definition inWorkout (wid : Z) (r : Row) : bool :=
  match workout r with
  | Some w => w_id w =? wid
  | None => false
  end.

(** The workout ids of the rows, one per row that has a workout. *)
Definition workoutIds (rows : list Row) : list Z :=
  flat_map (fun r => match workout r with Some w => [w_id w] | None => [] end)
    rows.

(** The workout records the rows carry for [wid], in row order. *)
Definition workoutRecords (wid : Z) (rows : list Row) : list WorkoutRow :=
  flat_map
    (fun r =>
       match workout r with
       | Some w => if w_id w =? wid then [w] else []
       | None => []
       end)
    rows.

(** The exercise and join record of a row, when both are there. *)
Definition rowExercise (r : Row) : option (ExerciseRow * WorkoutExerciseRow) :=
  match exercise r, workoutExercise r with
  | Some e, Some we => Some (e, we)
  | _, _ => None
  end.

Definition inExercise (wid eid : Z) (r : Row) : bool :=
  inWorkout wid r &&
  match rowExercise r with
  | Some (e, _) => e_id e =? eid
  | None => false
  end.

Definition exerciseIds (wid : Z) (rows : list Row) : list Z :=
  flat_map
    (fun r =>
       match rowExercise r with
       | Some (e, _) => [e_id e]
       | None => []
       end)
    (filter (inWorkout wid) rows).

Definition exerciseRecords (wid eid : Z) (rows : list Row)
  : list (ExerciseRow * WorkoutExerciseRow) :=
  flat_map
    (fun r => match rowExercise r with Some p => [p] | None => [] end)
    (filter (inExercise wid eid) rows).

Definition rowSets (r : Row) : list WorkoutSet :=
  match set r with
  | Some s => [newSet s]
  | None => []
  end.

(** The sets the rows carry for exercise [eid] of workout [wid], in row
    order. *)
Definition setsOf (wid eid : Z) (rows : list Row) : list WorkoutSet :=
  flat_map rowSets (filter (inExercise wid eid) rows).

(** The distinct elements of a list, each at its first occurrence. *)
Definition firstSeen (l : list Z) : list Z :=
  fold_left
    (fun acc k => if existsb (Z.eqb k) acc then acc else (acc ++ [k])%list)
    l [].

(** What the loop has built for the exercises of workout [wid] after [rows]:
    one entry per exercise id, in order of first occurrence; each with the
    name and order of the first row that has it, and with the sets of all
    its rows. *)
Definition exercisesBuilt (wid : Z) (rows : list Row)
  (xs : JsMap.t ExerciseEntry) : Prop :=
  JsMap.keys xs = firstSeen (exerciseIds wid rows) /\
  forall eid x, JsMap.get xs eid = Some x ->
    exists e we,
      hd_error (exerciseRecords wid eid rows) = Some (e, we) /\
      x_name x = e_name e /\
      x_order x = we_order we /\
      x_sets x = setsOf wid eid rows.

(** The same for the workouts: one entry per workout id, in order of first
    occurrence, with the fields of the first row that has it. *)
Definition workoutsBuilt (rows : list Row)
  (st : JsMap.t WorkoutWithExerciseMap) : Prop :=
  JsMap.keys st = firstSeen (workoutIds rows) /\
  forall wid wk, JsMap.get st wid = Some wk ->
    (exists w,
       hd_error (workoutRecords wid rows) = Some w /\
       wm_id wk = wid /\
       wm_name wk = w_name w /\
       wm_startedAt wk = w_startedAt w /\
       wm_completedAt wk = w_completedAt w) /\
    exercisesBuilt wid rows (wm_exercises wk).

(** ** Rows that leave nothing to the order of arrival

    Two rows agree when, as far as they speak of the same workout, they
    give it the same fields; as far as they speak of the same exercise of
    it, the same name and order, and equal sets under equal set numbers;
    and when they give different exercises of one workout different
    orders. *)

Definition optionEqb {A} (eqb : A -> A -> bool) (a b : option A) : bool :=
  match a, b with
  | Some x, Some y => eqb x y
  | None, None => true
  | _, _ => false
  end.

Definition sameSet (a b : WorkoutSet) : bool :=
  (setNumber a =? setNumber b)
  && optionEqb String.eqb (weight a) (weight b)
  && optionEqb Z.eqb (reps a) (reps b)
  && optionEqb Z.eqb (durationSeconds a) (durationSeconds b).

Definition setsAgree (r1 r2 : Row) : bool :=
  match set r1, set r2 with
  | Some s1, Some s2 =>
      if s_setNumber s1 =? s_setNumber s2
      then sameSet (newSet s1) (newSet s2)
      else true
  | _, _ => true
  end.

Definition exercisesAgree (r1 r2 : Row) : bool :=
  match rowExercise r1, rowExercise r2 with
  | Some (e1, we1), Some (e2, we2) =>
      if e_id e1 =? e_id e2
      then String.eqb (e_name e1) (e_name e2)
           && (we_order we1 =? we_order we2)
           && setsAgree r1 r2
      else negb (we_order we1 =? we_order we2)
  | _, _ => true
  end.

Definition rowsAgree (r1 r2 : Row) : bool :=
  match workout r1, workout r2 with
  | Some w1, Some w2 =>
      if w_id w1 =? w_id w2
      then optionEqb String.eqb (w_name w1) (w_name w2)
           && (w_startedAt w1 =? w_startedAt w2)
           && optionEqb Z.eqb (w_completedAt w1) (w_completedAt w2)
           && exercisesAgree r1 r2
      else true
  | _, _ => true
  end.

Definition unambiguous (rows : list Row) : bool :=
  forallb (fun r1 => forallb (rowsAgree r1) rows) rows.

(** Less is asked of rows that only have to name the same things: two rows
    are consistent when, as far as they speak of the same workout, they
    give it the same fields, and as far as they speak of the same exercise
    of it, the same name.  The rows of a join over primary keys are. *)

Definition namesAgree (r1 r2 : Row) : bool :=
  match rowExercise r1, rowExercise r2 with
  | Some (e1, _), Some (e2, _) =>
      if e_id e1 =? e_id e2 then String.eqb (e_name e1) (e_name e2) else true
  | _, _ => true
  end.

Definition rowsConsistent (r1 r2 : Row) : bool :=
  match workout r1, workout r2 with
  | Some w1, Some w2 =>
      if w_id w1 =? w_id w2
      then optionEqb String.eqb (w_name w1) (w_name w2)
           && (w_startedAt w1 =? w_startedAt w2)
           && optionEqb Z.eqb (w_completedAt w1) (w_completedAt w2)
           && namesAgree r1 r2
      else true
  | _, _ => true
  end.

Definition consistent (rows : list Row) : bool :=
  forallb (fun r1 => forallb (rowsConsistent r1) rows) rows.

(** The same content, whatever the order: two lists are the same up to
    order under [R] when the second can be rearranged so that its elements
    stand in [R] to those of the first, place by place.  Two exercises of
    the output have the same content when they have the same name and the
    same sets up to order; two workouts, when they have the same fields and
    the same exercises up to order. *)

Definition upToOrder {A} (R : A -> A -> Prop) (l l' : list A) : Prop :=
  exists l0, Permutation l' l0 /\ Forall2 R l l0.

Definition sameExercise (a b : WorkoutExercise) : Prop :=
  name a = name b /\ Permutation (sets a) (sets b).

Definition sameWorkout (o o' : WorkoutWithExercises) : Prop :=
  id o = id o' /\ wx_name o = wx_name o' /\ startedAt o = startedAt o' /\
  completedAt o = completedAt o' /\
  upToOrder sameExercise (exercises o) (exercises o').

Definition sameContent (l l' : list WorkoutWithExercises) : Prop :=
  upToOrder sameWorkout l l'.

(** The output for workout [wid], if there is one. *)
Definition outputOf (wid : Z) (l : list WorkoutWithExercises)
  : option WorkoutWithExercises :=
  find (fun o => id o =? wid) l.

(** [dropOrder] in two steps: the sets sorted, then the order dropped. *)
Definition sortSets (x : ExerciseEntry) : ExerciseEntry :=
  {| x_name := x_name x;
     x_order := x_order x;
     x_sets := sortBy compareSetNumber (x_sets x) |}.

Definition withoutOrder (x : ExerciseEntry) : WorkoutExercise :=
  {| name := x_name x; sets := x_sets x |}.

(** ** Sample data *)

Module Sample.

Definition legDay : WorkoutRow :=
  {| w_id := 1; w_userId := "user_1"; w_name := Some "Leg Day";
     w_startedAt := 1756684800000; w_completedAt := None;
     w_createdAt := 1756684800000 |}.

(** The same user's workout at the first instant of the next day (UTC). *)
Definition nextDay : WorkoutRow :=
  {| w_id := 2; w_userId := "user_1"; w_name := None;
     w_startedAt := 1756771200000; w_completedAt := None;
     w_createdAt := 1756771200000 |}.

Definition exerciseOf (i : Z) (n : string) : ExerciseRow :=
  {| e_id := i; e_userId := None; e_name := n; e_description := None;
     e_createdAt := 0; e_updatedAt := 0 |}.

Definition linkOf (i e o : Z) : WorkoutExerciseRow :=
  {| we_id := i; we_workoutId := 1; we_exerciseId := e; we_order := o;
     we_createdAt := 0 |}.

Definition setOf (i we n : Z) : SetRow :=
  {| s_id := i; s_workoutExerciseId := we; s_setNumber := n;
     s_weight := Some "225"; s_reps := Some 5; s_durationSeconds := None;
     s_createdAt := 0 |}.

Definition squat := exerciseOf 100 "Squat".
Definition bench := exerciseOf 200 "Bench Press".

Definition rowOf (e : ExerciseRow) (we : WorkoutExerciseRow)
  (s : option SetRow) : Row :=
  {| workout := Some legDay; workoutExercise := Some we; exercise := Some e;
     set := s |}.

Definition firstRow : Row :=
  rowOf squat (linkOf 10 100 0) (Some (setOf 1 10 1)).

(** The scenario of the specification: two rows, one per set of the squat. *)
Definition squatRows : list Row :=
  [firstRow; rowOf squat (linkOf 10 100 0) (Some (setOf 2 10 2))].

(** Two exercises of one workout under the same order. *)
Definition tiedRows : list Row :=
  [rowOf squat (linkOf 10 100 0) None; rowOf bench (linkOf 11 200 0) None].

(** The squat linked twice into the workout, around the bench press. *)
Definition twiceRows : list Row :=
  [rowOf squat (linkOf 10 100 0) None;
   rowOf bench (linkOf 11 200 1) None;
   rowOf squat (linkOf 12 100 2) None].

(** Two sets of the squat under the same set number. *)
Definition tiedSetRows : list Row :=
  [rowOf squat (linkOf 10 100 0) (Some (setOf 1 10 1));
   rowOf squat (linkOf 10 100 0)
     (Some {| s_id := 2; s_workoutExerciseId := 10; s_setNumber := 1;
              s_weight := Some "135"; s_reps := Some 8;
              s_durationSeconds := None; s_createdAt := 0 |})].

(** Squat before bench press, a set each. *)
Definition plainRows : list Row :=
  [rowOf squat (linkOf 10 100 0) (Some (setOf 1 10 1));
   rowOf bench (linkOf 11 200 1) (Some (setOf 2 11 1))].

(** A row without a workout, a workout without exercises, and an exercise
    without sets. *)
Definition orphanRow : Row :=
  {| workout := None; workoutExercise := None; exercise := None;
     set := Some (setOf 9 9 9) |}.

Definition restDay : WorkoutRow :=
  {| w_id := 3; w_userId := "user_1"; w_name := None;
     w_startedAt := 1756684800000; w_completedAt := None;
     w_createdAt := 0 |}.

Definition restRow : Row :=
  {| workout := Some restDay; workoutExercise := None; exercise := None;
     set := None |}.

Definition bareRow : Row := rowOf squat (linkOf 10 100 0) None.

Definition partialRows : list Row := [restRow; orphanRow; bareRow].

(** A later row of the squat under another name and order. *)
Definition renamedRow : Row :=
  rowOf (exerciseOf 100 "Front Squat") (linkOf 12 100 7)
    (Some (setOf 2 12 2)).

Definition renamedRows : list Row := [firstRow; renamedRow].

(** A later row that gives the workout another name. *)
Definition relabeledRows : list Row :=
  [bareRow;
   {| workout := Some {| w_id := 1; w_userId := "user_1";
                         w_name := Some "Push Day";
                         w_startedAt := 1756684800000; w_completedAt := None;
                         w_createdAt := 1756684800000 |};
      workoutExercise := Some (linkOf 10 100 0); exercise := Some squat;
      set := None |}].

Definition firstSet : WorkoutSet :=
  {| setNumber := 1; weight := Some "225"; reps := Some 5;
     durationSeconds := None |}.

Definition squatEntry : ExerciseEntry :=
  {| x_name := "Squat"; x_order := 0; x_sets := [firstSet] |}.

Definition legDayEntry : WorkoutWithExerciseMap :=
  {| wm_id := 1; wm_name := Some "Leg Day"; wm_startedAt := 1756684800000;
     wm_completedAt := None; wm_exercises := [(100, squatEntry)] |}.

Definition diary : Database :=
  {| tbl_workouts := [legDay; nextDay];
     tbl_workoutExercises := [linkOf 10 100 0];
     tbl_exercises := [squat];
     tbl_sets := [setOf 1 10 1; setOf 2 10 2] |}.

Definition signedIn : World :=
  {| session := Some "user_1"; database := diary; issued := [] |}.

Definition signedOut : World :=
  {| session := None; database := diary; issued := [] |}.

End Sample.

(** ** Sample zones *)

Module SampleZone.

Definition at_ (i : Z) (t : Z) : WorkoutRow :=
  {| w_id := i; w_userId := "user_1"; w_name := None; w_startedAt := t;
     w_completedAt := None; w_createdAt := t |}.

Definition worldOf (ws : list WorkoutRow) : World :=
  {| session := Some "user_1";
     database := {| tbl_workouts := ws; tbl_workoutExercises := [];
                    tbl_exercises := []; tbl_sets := [] |};
     issued := [] |}.




(** Clocks that go an hour forward at 01:00 UTC of the 31st of March 2024,
    from two hours behind UTC to one, as those of Nuuk do: local time goes
    from 23:00 of the 30th straight to midnight. *)
Definition northern : Zone :=
  fun t isUTC =>
    if isUTC
    then if t <? 1711846800000 then -7200000 else -3600000
    else if t <? 1711846800000 - 3600000 then -7200000 else -3600000.

(** 14:00 UTC of the 30th and of the 31st. *)
Definition thirtieth : Z := 1711807200000.
Definition thirtyFirst : Z := 1711893600000.

(** Workouts at the local midnights of the 30th and of the 31st. *)
Definition northernWorld : World :=
  worldOf [at_ 1 1711764000000; at_ 2 1711846800000].




End SampleZone.

(** * The forms, the actions and the other queries

    What follows models the rest of [date-utils.ts] ([getAllWorkouts],
    [getWorkout], [createWorkout], [updateWorkout]), the server actions of
    [dashboard/workout/actions.ts], the two workout forms, and the date that
    travels from the calendar selector to the dashboard page. *)

(** ** Hours and minutes *)

Definition msPerHour : Z := 3600000.
Definition msPerMinute : Z := 60000.

Definition HourFromTime (t : Z) : Z := (t / msPerHour) mod 24.
Definition MinFromTime (t : Z) : Z := (t / msPerMinute) mod 60.

Definition getHours (localTZA : Zone) (t : Z) : Z :=
  HourFromTime (LocalTime localTZA t).
Definition getMinutes (localTZA : Zone) (t : Z) : Z :=
  MinFromTime (LocalTime localTZA t).

(** [format(date, "yyyy-MM-dd'T'HH:mm")] of date-fns on a valid date: the
    value of a [datetime-local] input. *)
Definition formatDateTimeLocal (localTZA : Zone) (t : Z) : string :=
  let signedYear := getFullYear localTZA t in
  let year := if signedYear >? 0 then signedYear else 1 - signedYear in
  (addLeadingZeros year 4 ++ "-"
   ++ addLeadingZeros (getMonth localTZA t + 1) 2 ++ "-"
   ++ addLeadingZeros (getDate localTZA t) 2 ++ "T"
   ++ addLeadingZeros (getHours localTZA t) 2 ++ ":"
   ++ addLeadingZeros (getMinutes localTZA t) 2)%string.

(** ** [new Date(string)]

    The language fixes the reading of the date-time format; of its forms the
    program produces [YYYY-MM-DDTHH:mm], which is read as local time, and
    [YYYY-MM-DD], which is read as UTC.  A string that is not a valid
    instance of these two (another form of the format, fields out of range,
    anything else) is left to [otherForms]. *)

Definition twoDigits (a b : ascii) : option Z :=
  match digitValue a, digitValue b with
  | Some x, Some y => Some (10 * x + y)
  | _, _ => None
  end.

Definition fourDigits (a b c d : ascii) : option Z :=
  match twoDigits a b, twoDigits c d with
  | Some x, Some y => Some (100 * x + y)
  | _, _ => None
  end.

Definition daysInMonth (year month : Z) : Z :=
  MakeDay year month 1 - MakeDay year (month - 1) 1.

(** The fields of a string of the shape [dddd-dd-ddTdd:dd]. *)
Definition readDateTimeLocal (s : string) : option (Z * Z * Z * Z * Z) :=
  match s with
  | String y1 (String y2 (String y3 (String y4 (String "-"
    (String m1 (String m2 (String "-"
    (String d1 (String d2 (String "T"
    (String h1 (String h2 (String ":"
    (String n1 (String n2 EmptyString))))))))))))))) =>
      match fourDigits y1 y2 y3 y4, twoDigits m1 m2, twoDigits d1 d2,
            twoDigits h1 h2, twoDigits n1 n2 with
      | Some y, Some m, Some d, Some h, Some n => Some (y, m, d, h, n)
      | _, _, _, _, _ => None
      end
  | _ => None
  end.

(** The three numbers of a string of the shape [dddd-dd-dd]: what the
    dashboard page takes from its [date] parameter with
    [/^\d{4}-\d{2}-\d{2}$/.test(dateParam)] and
    [dateParam.split("-").map(Number)], and the fields of the date-only
    form of the date-time format. *)
Definition readDateParam (s : string) : option (Z * Z * Z) :=
  match s with
  | String y1 (String y2 (String y3 (String y4 (String "-"
    (String m1 (String m2 (String "-"
    (String d1 (String d2 EmptyString))))))))) =>
      match fourDigits y1 y2 y3 y4, twoDigits m1 m2, twoDigits d1 d2 with
      | Some y, Some m, Some d => Some (y, m, d)
      | _, _, _ => None
      end
  | _ => None
  end.

Definition newDateFromString (otherForms : string -> JsDate)
  (localTZA : Zone) (s : string) : JsDate :=
  match readDateTimeLocal s with
  | Some (y, m, d, h, n) =>
      if (1 <=? m) && (m <=? 12) && (1 <=? d) && (d <=? daysInMonth y m)
         && (h <=? 23) && (n <=? 59)
      then ValidDate (UTC localTZA (MakeDate (MakeDay y (m - 1) d)
                                      (MakeTime h n 0 0)))
      else otherForms s
  | None =>
      match readDateParam s with
      | Some (y, m, d) =>
          if (1 <=? m) && (m <=? 12) && (1 <=? d) && (d <=? daysInMonth y m)
          then ValidDate (MakeDate (MakeDay y (m - 1) d) 0)
          else otherForms s
      | None => otherForms s
      end
  end.

(** ** From the calendar selector to the dashboard page *)

(** [String(n).padStart(2, "0")] *)
Definition padStart2 (n : Z) : string :=
  let s := numberToString n in
  (zeros (2 - String.length s) ++ s)%string.

(** [handleDateSelect]: the [date] parameter put into the URL. *)
Definition dateString (localTZA : Zone) (t : Z) : string :=
  let year := getFullYear localTZA t in
  let month := padStart2 (getMonth localTZA t + 1) in
  let day := padStart2 (getDate localTZA t) in
  (numberToString year ++ "-" ++ month ++ "-" ++ day)%string.

(** The date of the dashboard page, from the [date] parameter of the URL. *)
Definition pageDate (localTZA : Zone) (now : Z) (dateParam : option string)
  : JsDate :=
  let date :=
    match dateParam with
    | Some s =>
        match readDateParam s with
        | Some (year, month, day) => newDateYMD localTZA year (month - 1) day
        | None => ValidDate now
        end
    | None => ValidDate now
    end in
  validateDate now date.

(** ** The store

    The session, the tables, the sequence behind [workouts.id] (a [serial]
    column) and the paths handed to [revalidatePath]. *)

Record Store := {
  st_session : option string;
  st_tables : Database;
  st_workoutsSeq : Z;
  st_revalidated : list string
}.

Definition Action (A : Type) : Type := Store -> Result A * Store.

Definition retA {A} (a : A) : Action A := fun st => (Ok a, st).

Definition throwA {A} (e : Error) : Action A := fun st => (Throw e, st).

Definition bindA {A B} (m : Action A) (k : A -> Action B) : Action B :=
  fun st =>
    match m st with
    | (Ok a, st') => k a st'
    | (Throw e, st') => (Throw e, st')
    end.

(** [try { m } catch (error) { handler(error) }] *)
Definition catchA {A} (m : Action A) (handler : Error -> Action A) : Action A :=
  fun st =>
    match m st with
    | (Ok a, st') => (Ok a, st')
    | (Throw e, st') => handler e st'
    end.

Notation "x <~ m ;; k" := (bindA m (fun x => k))
  (at level 61, m at next level, right associativity).

Definition authA : Action (option string) := fun st => (Ok (st_session st), st).

(** The user id behind the guard [if (!userId) throw new Error("Unauthorized")]. *)
Definition requireUser : Action string :=
  userId <~ authA ;;
  if notUserId userId then throwA unauthorized
  else retA (match userId with Some s => s | None => "" end).

Definition withWorkouts (st : Store) (ws : list WorkoutRow) : Store :=
  {| st_session := st_session st;
     st_tables := {| tbl_workouts := ws;
                     tbl_workoutExercises := tbl_workoutExercises (st_tables st);
                     tbl_exercises := tbl_exercises (st_tables st);
                     tbl_sets := tbl_sets (st_tables st) |};
     st_workoutsSeq := st_workoutsSeq st;
     st_revalidated := st_revalidated st |}.

(** [revalidatePath(path)] *)
Definition revalidatePath (path : string) : Action unit :=
  fun st =>
    (Ok tt,
     {| st_session := st_session st;
        st_tables := st_tables st;
        st_workoutsSeq := st_workoutsSeq st;
        st_revalidated := st_revalidated st ++ [path] |}).

(** ** [getAllWorkouts] and [getWorkout] *)

Definition ownedBy (uid : string) (w : WorkoutRow) : bool :=
  String.eqb (w_userId w) uid.

Definition compareWorkoutDesc (a b : WorkoutRow) : Z :=
  w_startedAt b - w_startedAt a.

Definition getAllWorkouts : Action (list WorkoutRow) :=
  uid <~ requireUser ;;
  fun st =>
    (Ok (sortBy compareWorkoutDesc
           (filter (ownedBy uid) (tbl_workouts (st_tables st)))),
     st).

(** [and(eq(workouts.id, workoutId), eq(workouts.userId, userId))] *)
Definition isWorkoutOf (workoutId : Z) (uid : string) (w : WorkoutRow) : bool :=
  (w_id w =? workoutId) && ownedBy uid w.

(** The range of an [integer] column. *)
Definition int4 (n : Z) : bool :=
  (-2147483648 <=? n) && (n <=? 2147483647).

(** [const [workout] = await db.select()...limit(1); return workout]:
    [None] is [undefined].  The id is compared with an [integer] column,
    and the database refuses one that is out of its range. *)
Definition getWorkout (workoutId : Z) : Action (option WorkoutRow) :=
  uid <~ requireUser ;;
  if int4 workoutId
  then fun st =>
         (Ok (hd_error (filter (isWorkoutOf workoutId uid)
                          (tbl_workouts (st_tables st)))),
          st)
  else throwA failedQuery.

(** ** [createWorkout] *)

Record CreateWorkoutData := {
  cw_name : option string;
  cw_startedAt : option JsDate
}.

(** [data.name || null] *)
Definition nameOrNull (name : option string) : option string :=
  match name with
  | Some EmptyString => None
  | Some s => Some s
  | None => None
  end.

Definition doubleQuote : string := String (ascii_of_nat 34) EmptyString.

(** What the database answers to a second row under one [workouts.id]. *)
Definition duplicateKey : Error :=
  {| errorName := "NeonDbError";
     message := ("duplicate key value violates unique constraint "
                 ++ doubleQuote ++ "workouts_pkey" ++ doubleQuote)%string |}.

(** ** Timestamps written and read back

    The driver hands a [timestamp] back as the text [YYYY-MM-DD hh:mm:ss],
    which is read with [new Date(text + "+0000")].  That text is not in the
    date-time format of the language, so its reading is the engine's own: it
    is the time the text names when the year is 100 or later, and a year
    below 100 is taken for a year of two digits; what comes of such a year
    is left to [legacyTimestamp]. *)

Section Timestamps.
Variable legacyTimestamp : Z -> Z.

Definition readTimestamp (t : Z) : Z :=
  if getUTCFullYear t <? 100 then legacyTimestamp t else t.

(** [db.insert(workouts).values(...).returning()]: a start that the
    database cannot read is refused before a row is made.  Otherwise the
    row gets the next value of the sequence as its id and the time of the
    database, [dbNow], as [createdAt]; the sequence moves on also when the
    row is refused for its id. *)
Definition insertWorkout (dbNow : Z) (name : option string) (startedAt : JsDate)
  (uid : string) : Action WorkoutRow :=
  fun st =>
    match toISOTime startedAt with
    | Throw e => (Throw e, st)
    | Ok t =>
        if timestampAccepted t then
          let newId := st_workoutsSeq st + 1 in
          let st1 := {| st_session := st_session st;
                        st_tables := st_tables st;
                        st_workoutsSeq := newId;
                        st_revalidated := st_revalidated st |} in
          let row := {| w_id := newId; w_userId := uid; w_name := name;
                        w_startedAt := readTimestamp t; w_completedAt := None;
                        w_createdAt := dbNow |} in
          if existsb (fun w => w_id w =? newId) (tbl_workouts (st_tables st))
          then (Throw duplicateKey, st1)
          else (Ok row, withWorkouts st1 (tbl_workouts (st_tables st) ++ [row]))
        else (Throw failedQuery, st)
    end.

(** [now] is the time value of [new Date()]. *)
Definition createWorkout (now dbNow : Z) (data : CreateWorkoutData)
  : Action WorkoutRow :=
  uid <~ requireUser ;;
  insertWorkout dbNow
    (nameOrNull (cw_name data))
    (match cw_startedAt data with Some d => d | None => ValidDate now end)
    uid.

(** ** [updateWorkout] *)

(** [undefined] is the outer [None], [null] the inner one. *)
Record UpdateWorkoutData := {
  uw_name : option (option string);
  uw_startedAt : option JsDate;
  uw_completedAt : option (option JsDate)
}.

(** The values of [.set(data)] as they are sent. *)
Record UpdateValues := {
  uv_name : option (option string);
  uv_startedAt : option Z;
  uv_completedAt : option (option Z)
}.

Definition noValuesToSet : Error :=
  {| errorName := "Error"; message := "No values to set" |}.

Definition workoutNotFound : Error :=
  {| errorName := "Error"; message := "Workout not found" |}.

(** [.set(data)]: keys that are [undefined] are left out; with none left
    nothing can be set; a date is sent through [toISOString]. *)
Definition updateValues (data : UpdateWorkoutData) : Result UpdateValues :=
  match uw_name data, uw_startedAt data, uw_completedAt data with
  | None, None, None => Throw noValuesToSet
  | _, _, _ =>
      bindResult
        (match uw_startedAt data with
         | Some d => bindResult (toISOTime d) (fun t => Ok (Some t))
         | None => Ok None
         end)
        (fun startedAt =>
      bindResult
        (match uw_completedAt data with
         | Some (Some d) => bindResult (toISOTime d) (fun t => Ok (Some (Some t)))
         | Some None => Ok (Some None)
         | None => Ok None
         end)
        (fun completedAt =>
      Ok {| uv_name := uw_name data;
            uv_startedAt := startedAt;
            uv_completedAt := completedAt |}))
  end.

(** The timestamps among the values are such as the database reads. *)
Definition valuesAccepted (v : UpdateValues) : bool :=
  match uv_startedAt v with Some t => timestampAccepted t | None => true end
  && match uv_completedAt v with
     | Some (Some t) => timestampAccepted t
     | _ => true
     end.

(** The row with the values put in, as [.returning()] reads it back. *)
Definition applyUpdate (v : UpdateValues) (w : WorkoutRow) : WorkoutRow :=
  {| w_id := w_id w;
     w_userId := w_userId w;
     w_name := match uv_name v with Some n => n | None => w_name w end;
     w_startedAt :=
       match uv_startedAt v with
       | Some t => readTimestamp t
       | None => w_startedAt w
       end;
     w_completedAt :=
       match uv_completedAt v with
       | Some c => option_map readTimestamp c
       | None => w_completedAt w
       end;
     w_createdAt := w_createdAt w |}.

Definition updateWorkout (workoutId : Z) (data : UpdateWorkoutData)
  : Action WorkoutRow :=
  uid <~ requireUser ;;
  fun st =>
    match updateValues data with
    | Throw e => (Throw e, st)
    | Ok v =>
        if valuesAccepted v then
          let ws := tbl_workouts (st_tables st) in
          let st' :=
            withWorkouts st
              (map (fun w => if isWorkoutOf workoutId uid w
                             then applyUpdate v w else w) ws) in
          match map (applyUpdate v) (filter (isWorkoutOf workoutId uid) ws) with
          | updated :: _ => (Ok updated, st')
          | [] => (Throw workoutNotFound, st')
          end
        else (Throw failedQuery, st)
    end.
End Timestamps.

(** ** The server actions ([dashboard/workout/actions.ts])

    The input has the type of its schema, which the schema accepts as it
    is; the branch for a schema error is therefore not taken and the
    [issues] it would return are left out of the result. *)

Inductive ActionResult :=
| ActionSuccess (workout : WorkoutRow)
| ActionFailure (error : string).

Record CreateWorkoutInput := {
  ci_name : option string;
  ci_startedAt : option string
}.

Record UpdateWorkoutInput := {
  ui_id : Z;
  ui_name : option (option string);
  ui_startedAt : option string;
  ui_completedAt : option (option string)
}.

Section Actions.
Variable legacyTimestamp : Z -> Z.
Variable otherForms : string -> JsDate.
Variable localTZA : Zone.

Definition createWorkoutAction (now dbNow : Z) (input : CreateWorkoutInput)
  : Action ActionResult :=
  catchA
    (let startedAt :=
       match ci_startedAt input with
       | Some EmptyString => ValidDate now
       | Some s => newDateFromString otherForms localTZA s
       | None => ValidDate now
       end in
     workout <~ createWorkout legacyTimestamp now dbNow
                  {| cw_name := ci_name input; cw_startedAt := Some startedAt |} ;;
     _ <~ revalidatePath "/dashboard" ;;
     retA (ActionSuccess workout))
    (fun error => retA (ActionFailure (message error))).

Definition updateWorkoutAction (input : UpdateWorkoutInput)
  : Action ActionResult :=
  catchA
    (let updateData :=
       {| uw_name := ui_name input;
          uw_startedAt :=
            match ui_startedAt input with
            | Some EmptyString => None
            | Some s => Some (newDateFromString otherForms localTZA s)
            | None => None
            end;
          uw_completedAt :=
            match ui_completedAt input with
            | Some (Some EmptyString) => Some None
            | Some (Some s) => Some (Some (newDateFromString otherForms localTZA s))
            | Some None => Some None
            | None => None
            end |} in
     workout <~ updateWorkout legacyTimestamp (ui_id input) updateData ;;
     _ <~ revalidatePath "/dashboard" ;;
     _ <~ revalidatePath ("/dashboard/workout/" ++ numberToString (ui_id input)) ;;
     retA (ActionSuccess workout))
    (fun error => retA (ActionFailure (message error))).

(** ** The forms

    The forms are client components: their state is made in the browser,
    with the zone of the browser, and what they submit is read by the
    actions on the server, with the zone of the server. *)

(** The state of [EditWorkoutForm]. *)
Record EditFormState := {
  ef_name : string;
  ef_startedAt : string;
  ef_completedAt : string
}.

Definition stringOrNull (s : string) : option string :=
  match s with
  | EmptyString => None
  | _ => Some s
  end.

(** [handleSubmit] of [EditWorkoutForm], up to the result of the action. *)
Definition submitEditForm (workout : WorkoutRow) (state : EditFormState)
  : Action ActionResult :=
  updateWorkoutAction
    {| ui_id := w_id workout;
       ui_name := Some (stringOrNull (ef_name state));
       ui_startedAt := Some (ef_startedAt state);
       ui_completedAt := Some (stringOrNull (ef_completedAt state)) |}.

(** The state of [CreateWorkoutForm] and its [handleSubmit]. *)
Record CreateFormState := {
  cf_name : string;
  cf_startedAt : string
}.

Definition submitCreateForm (now dbNow : Z) (state : CreateFormState)
  : Action ActionResult :=
  createWorkoutAction now dbNow
    {| ci_name := stringOrNull (cf_name state);
       ci_startedAt := Some (cf_startedAt state) |}.
End Actions.

Section Forms.
Variable browserTZA : Zone.

(** The initial state of [EditWorkoutForm], from the workout the page
    loaded. *)
Definition editFormInitial (workout : WorkoutRow) : EditFormState :=
  {| ef_name := match w_name workout with
                | Some EmptyString => ""
                | Some s => s
                | None => ""
                end;
     ef_startedAt := formatDateTimeLocal browserTZA (w_startedAt workout);
     ef_completedAt :=
       match w_completedAt workout with
       | Some c => formatDateTimeLocal browserTZA c
       | None => ""
       end |}.

(** The initial state of [CreateWorkoutForm], [now] being the time at which
    the form opens. *)
Definition createFormInitial (now : Z) : CreateFormState :=
  {| cf_name := ""; cf_startedAt := formatDateTimeLocal browserTZA now |}.
End Forms.

(** The minute a time value lies in, for a zone at a fixed offset. *)
Definition startOfMinute (localTZA t : Z) : Z :=
  t - (t + localTZA) mod msPerMinute.

(** The time that a server at the offset [serverTZA] reads from the minute
    of [t] as a browser at the offset [browserTZA] writes it: the start of
    that minute, moved by the difference of the two offsets. *)
Definition rereadMinute (browserTZA serverTZA t : Z) : Z :=
  startOfMinute browserTZA t + (browserTZA - serverTZA).

(** The sequence has passed every id of the table: what holds when ids
    only come from the sequence. *)
Definition sequenceAhead (st : Store) : Prop :=
  forall w, In w (tbl_workouts (st_tables st)) -> w_id w <= st_workoutsSeq st.

(** A numeral of two, or four, digits that reads back as the number. *)
Definition twoDigitShape (render : Z -> string) (n : Z) : bool :=
  match render n with
  | String a (String b EmptyString) =>
      match twoDigits a b with
      | Some v => v =? n
      | None => false
      end
  | _ => false
  end.

Definition fourDigitShape (render : Z -> string) (n : Z) : bool :=
  match render n with
  | String a (String b (String c (String d EmptyString))) =>
      match fourDigits a b c d with
      | Some v => v =? n
      | None => false
      end
  | _ => false
  end.


(** ** A sample store *)

Module SampleStore.

Definition othersWorkout : WorkoutRow :=
  {| w_id := 3; w_userId := "user_2"; w_name := Some "Run";
     w_startedAt := 1756690000000; w_completedAt := Some 1756693600000;
     w_createdAt := 1756690000000 |}.

(** A workout with an empty name, started at 10:00:30.5 UTC and completed
    at 11:01:30. *)
Definition morning : WorkoutRow :=
  {| w_id := 4; w_userId := "user_1"; w_name := Some "";
     w_startedAt := 1756720830500; w_completedAt := Some 1756724490000;
     w_createdAt := 1756720830500 |}.

Definition tables : Database :=
  {| tbl_workouts := [Sample.legDay; Sample.nextDay; othersWorkout; morning];
     tbl_workoutExercises := [Sample.linkOf 10 100 0];
     tbl_exercises := [Sample.squat];
     tbl_sets := [Sample.setOf 1 10 1; Sample.setOf 2 10 2] |}.

Definition signedIn : Store :=
  {| st_session := Some "user_1"; st_tables := tables;
     st_workoutsSeq := 4; st_revalidated := [] |}.

Definition signedOut : Store :=
  {| st_session := None; st_tables := tables;
     st_workoutsSeq := 4; st_revalidated := [] |}.

(** The same tables with the sequence one behind the last id. *)
Definition behind : Store :=
  {| st_session := Some "user_1"; st_tables := tables;
     st_workoutsSeq := 3; st_revalidated := [] |}.

Definition rename : UpdateWorkoutData :=
  {| uw_name := Some (Some "Legs"); uw_startedAt := None;
     uw_completedAt := Some None |}.

Definition noForms (s : string) : JsDate := InvalidDate.

(** An engine that takes a year of two digits for one some 1900 years
    later. *)
Definition legacy (t : Z) : Z := t + 59958144000000.

(** The first moment of the year 50, UTC. *)
Definition yearFifty : Z := MakeDate (MakeDay 50 0 1) 0.

(** A new start, with a completion in the year 50. *)
Definition restart : UpdateWorkoutData :=
  {| uw_name := None; uw_startedAt := Some (ValidDate 1756720830500);
     uw_completedAt := Some (Some (ValidDate yearFifty)) |}.


(** The selection of the first of September 2025, UTC. *)
Definition thatDay : Selection :=
  {| sel_userId := "user_1"; sel_startOfDay := 1756684800000;
     sel_endOfDay := 1756771199999 |}.

End SampleStore.

(** * Properties *)

(** ** Insertion-ordered maps *)

Section JsMapFacts.
Context {V : Type}.
Implicit Types (m : JsMap.t V) (k : Z) (v : V).

Lemma get_set_same m k v : JsMap.get (JsMap.set m k v) k = Some v.
Proof.
  induction m as [|[k' v'] m IH]; simpl.
  - now rewrite Z.eqb_refl.
  - destruct (k' =? k) eqn:E; simpl; rewrite E; auto.
Qed.

Lemma get_set_other m k k' v :
  k <> k' -> JsMap.get (JsMap.set m k v) k' = JsMap.get m k'.
Proof.
  intros Hne. induction m as [|[k0 v0] m IH]; simpl.
  - destruct (k =? k') eqn:E; auto. apply Z.eqb_eq in E. contradiction.
  - destruct (k0 =? k) eqn:E; simpl.
    + apply Z.eqb_eq in E. subst k0.
      destruct (k =? k') eqn:E'; auto.
      apply Z.eqb_eq in E'. contradiction.
    + now rewrite IH.
Qed.

Lemma has_keys m k : JsMap.has m k = existsb (Z.eqb k) (JsMap.keys m).
Proof.
  unfold JsMap.has. induction m as [|[k' v'] m IH]; simpl; auto.
  rewrite (Z.eqb_sym k k'). destruct (k' =? k); auto.
Qed.

Lemma get_None_keys m k : JsMap.get m k = None <-> ~ In k (JsMap.keys m).
Proof.
  induction m as [|[k' v'] m IH]; simpl.
  - tauto.
  - destruct (k' =? k) eqn:E.
    + apply Z.eqb_eq in E. split; [discriminate | intros H; exfalso; auto].
    + apply Z.eqb_neq in E. rewrite IH. tauto.
Qed.

Lemma get_Some_keys m k v : JsMap.get m k = Some v -> In k (JsMap.keys m).
Proof.
  intros H. destruct (in_dec Z.eq_dec k (JsMap.keys m)) as [|Hn]; auto.
  apply get_None_keys in Hn. congruence.
Qed.

Lemma get_Some_values m k v : JsMap.get m k = Some v -> In v (JsMap.values m).
Proof.
  induction m as [|[k' v'] m IH]; simpl; [discriminate|].
  destruct (k' =? k); intros H; [left; congruence | right; auto].
Qed.

Lemma keys_set m k v :
  JsMap.keys (JsMap.set m k v) =
  if JsMap.has m k then JsMap.keys m else JsMap.keys m ++ [k].
Proof.
  unfold JsMap.has. induction m as [|[k' v'] m IH]; simpl; auto.
  destruct (k' =? k) eqn:E; simpl; auto.
  rewrite IH. destruct (JsMap.get m k); auto.
Qed.

(** With distinct keys, every value is reached through its key. *)
Lemma values_get m :
  NoDup (JsMap.keys m) ->
  forall v, In v (JsMap.values m) ->
  exists k, In k (JsMap.keys m) /\ JsMap.get m k = Some v.
Proof.
  induction m as [|[k' v'] m IH]; simpl; intros Hnd v Hin; [tauto|].
  inversion Hnd as [|? ? Hni Hnd']; subst.
  destruct Hin as [->|Hin].
  - exists k'. rewrite Z.eqb_refl. auto.
  - destruct (IH Hnd' v Hin) as [k [Hk Hg]].
    exists k. split; auto.
    destruct (k' =? k) eqn:E; auto.
    apply Z.eqb_eq in E. subst. contradiction.
Qed.

(** The values, read through the keys. *)
Lemma values_by_keys {B} m (f : V -> B) (d : B) :
  NoDup (JsMap.keys m) ->
  map f (JsMap.values m) =
  map (fun k => match JsMap.get m k with Some v => f v | None => d end)
      (JsMap.keys m).
Proof.
  induction m as [|[k' v'] m IH]; simpl; intros Hnd; auto.
  inversion Hnd as [|? ? Hni Hnd']; subst.
  rewrite Z.eqb_refl. f_equal.
  rewrite (IH Hnd'). apply map_ext_in. intros k Hk.
  destruct (k' =? k) eqn:E; auto.
  apply Z.eqb_eq in E. subst. contradiction.
Qed.
End JsMapFacts.

(** ** First occurrences *)

Lemma firstSeen_snoc l k :
  firstSeen (l ++ [k]) =
  if existsb (Z.eqb k) (firstSeen l) then firstSeen l else firstSeen l ++ [k].
Proof. unfold firstSeen. now rewrite fold_left_app. Qed.

Lemma existsb_eqb_In k l : existsb (Z.eqb k) l = true <-> In k l.
Proof.
  rewrite existsb_exists. split.
  - intros [x [Hx E]]. apply Z.eqb_eq in E. now subst.
  - intros H. exists k. split; auto. apply Z.eqb_refl.
Qed.

Lemma firstSeen_In l k : In k (firstSeen l) <-> In k l.
Proof.
  induction l as [|x l IH] using rev_ind.
  - simpl. tauto.
  - rewrite firstSeen_snoc, in_app_iff. simpl.
    destruct (existsb (Z.eqb x) (firstSeen l)) eqn:E.
    + apply existsb_eqb_In in E. rewrite IH.
      split; [tauto|]. intros [H|[->|[]]]; auto. now apply IH.
    + rewrite in_app_iff, IH. simpl. tauto.
Qed.

Lemma firstSeen_NoDup l : NoDup (firstSeen l).
Proof.
  induction l as [|x l IH] using rev_ind.
  - constructor.
  - rewrite firstSeen_snoc.
    destruct (existsb (Z.eqb x) (firstSeen l)) eqn:E; auto.
    apply NoDup_app; auto.
    + repeat constructor. simpl. tauto.
    + intros y Hy [->|[]].
      apply existsb_eqb_In in Hy. congruence.
Qed.

Lemma firstSeen_Permutation l l' :
  Permutation l l' -> Permutation (firstSeen l) (firstSeen l').
Proof.
  intros HP. apply NoDup_Permutation; auto using firstSeen_NoDup.
  intros k. rewrite !firstSeen_In.
  split; apply Permutation_in; auto using Permutation_sym.
Qed.


(** ** One turn of the loop *)

Lemma processExercise_none xs r :
  rowExercise r = None -> processExercise xs r = xs.
Proof.
  unfold rowExercise, processExercise.
  destruct (exercise r), (workoutExercise r); auto; discriminate.
Qed.

Lemma processExercise_some xs r e we :
  rowExercise r = Some (e, we) ->
  let x0 := match JsMap.get xs (e_id e) with
            | Some x => x
            | None => newExerciseEntry e we
            end in
  JsMap.keys (processExercise xs r) =
    (if JsMap.has xs (e_id e) then JsMap.keys xs
     else JsMap.keys xs ++ [e_id e]) /\
  JsMap.get (processExercise xs r) (e_id e) =
    Some (match set r with
          | Some s => pushSet x0 (newSet s)
          | None => x0
          end) /\
  (forall k, k <> e_id e ->
     JsMap.get (processExercise xs r) k = JsMap.get xs k).
Proof.
  unfold rowExercise, processExercise.
  destruct (exercise r) as [e'|]; [|discriminate].
  destruct (workoutExercise r) as [we'|]; [|discriminate].
  intros [= -> ->]. simpl.
  unfold JsMap.has.
  destruct (JsMap.get xs (e_id e)) as [x|] eqn:G; simpl.
  - destruct (set r) as [s|].
    + rewrite G, keys_set, get_set_same. unfold JsMap.has. rewrite G.
      repeat split; auto. intros k Hk. now apply get_set_other.
    + repeat split; auto.
  - destruct (set r) as [s|].
    + rewrite get_set_same, !keys_set, get_set_same.
      unfold JsMap.has. rewrite get_set_same, G.
      repeat split; auto.
      intros k Hk. now rewrite !get_set_other.
    + rewrite keys_set, get_set_same. unfold JsMap.has. rewrite G.
      repeat split; auto. intros k Hk. now apply get_set_other.
Qed.

Lemma processRow_none st r : workout r = None -> processRow st r = st.
Proof. unfold processRow. now intros ->. Qed.

Lemma processRow_some st r w :
  workout r = Some w ->
  let wk0 := match JsMap.get st (w_id w) with
             | Some wk => wk
             | None => newWorkoutEntry w
             end in
  JsMap.keys (processRow st r) =
    (if JsMap.has st (w_id w) then JsMap.keys st
     else JsMap.keys st ++ [w_id w]) /\
  JsMap.get (processRow st r) (w_id w) =
    Some (withExercises wk0 (processExercise (wm_exercises wk0) r)) /\
  (forall k, k <> w_id w -> JsMap.get (processRow st r) k = JsMap.get st k).
Proof.
  unfold processRow. intros ->. simpl. unfold JsMap.has.
  destruct (JsMap.get st (w_id w)) as [wk|] eqn:G; simpl.
  - rewrite G, keys_set, get_set_same. unfold JsMap.has. rewrite G.
    repeat split; auto. intros k Hk. now apply get_set_other.
  - rewrite get_set_same, !keys_set, get_set_same.
    unfold JsMap.has. rewrite get_set_same, G.
    repeat split; auto. intros k Hk. now rewrite !get_set_other.
Qed.

Lemma buildWorkoutsMap_snoc rows r :
  buildWorkoutsMap (rows ++ [r]) = processRow (buildWorkoutsMap rows) r.
Proof. unfold buildWorkoutsMap. now rewrite fold_left_app. Qed.

(** ** The rows of a workout and of an exercise, one row later *)

Lemma workoutIds_snoc rows r :
  workoutIds (rows ++ [r]) =
  workoutIds rows ++ match workout r with Some w => [w_id w] | None => [] end.
Proof. unfold workoutIds. rewrite flat_map_app. simpl. now rewrite app_nil_r. Qed.

Lemma workoutRecords_snoc wid rows r :
  workoutRecords wid (rows ++ [r]) =
  workoutRecords wid rows ++
  match workout r with
  | Some w => if w_id w =? wid then [w] else []
  | None => []
  end.
Proof.
  unfold workoutRecords. rewrite flat_map_app. simpl. now rewrite app_nil_r.
Qed.

Lemma exerciseIds_snoc wid rows r :
  exerciseIds wid (rows ++ [r]) =
  exerciseIds wid rows ++
  if inWorkout wid r
  then match rowExercise r with Some (e, _) => [e_id e] | None => [] end
  else [].
Proof.
  unfold exerciseIds. rewrite filter_app, flat_map_app. simpl.
  destruct (inWorkout wid r); simpl; now rewrite ?app_nil_r.
Qed.

Lemma exerciseRecords_snoc wid eid rows r :
  exerciseRecords wid eid (rows ++ [r]) =
  exerciseRecords wid eid rows ++
  if inExercise wid eid r
  then match rowExercise r with Some p => [p] | None => [] end
  else [].
Proof.
  unfold exerciseRecords. rewrite filter_app, flat_map_app. simpl.
  destruct (inExercise wid eid r); simpl; now rewrite ?app_nil_r.
Qed.

Lemma setsOf_snoc wid eid rows r :
  setsOf wid eid (rows ++ [r]) =
  setsOf wid eid rows ++ if inExercise wid eid r then rowSets r else [].
Proof.
  unfold setsOf. rewrite filter_app, flat_map_app. simpl.
  destruct (inExercise wid eid r); simpl; now rewrite ?app_nil_r.
Qed.

Lemma inWorkout_workoutIds wid r rows :
  In r rows -> inWorkout wid r = true -> In wid (workoutIds rows).
Proof.
  unfold inWorkout, workoutIds. intros Hin H.
  apply in_flat_map. exists r. split; auto.
  destruct (workout r) as [w|]; [|discriminate].
  apply Z.eqb_eq in H. subst. now left.
Qed.

Lemma inExercise_exerciseIds wid eid r rows :
  In r rows -> inExercise wid eid r = true -> In eid (exerciseIds wid rows).
Proof.
  unfold inExercise, exerciseIds. intros Hin H.
  apply andb_true_iff in H. destruct H as [Hw He].
  apply in_flat_map. exists r. split.
  - apply filter_In. auto.
  - destruct (rowExercise r) as [[e we]|]; [|discriminate].
    apply Z.eqb_eq in He. subst. now left.
Qed.

Lemma filter_nil_notin {A} (f : A -> bool) (l : list A) :
  (forall x, In x l -> f x = false) -> filter f l = [].
Proof.
  induction l as [|a l IH]; simpl; intros H; auto.
  rewrite (H a) by auto. apply IH. auto.
Qed.

Lemma no_rows_of_unseen_workout wid rows :
  ~ In wid (workoutIds rows) -> filter (inWorkout wid) rows = [].
Proof.
  intros Hn. apply filter_nil_notin. intros r Hr.
  destruct (inWorkout wid r) eqn:E; auto.
  exfalso. eauto using inWorkout_workoutIds.
Qed.

Lemma no_rows_of_unseen_exercise wid eid rows :
  ~ In eid (exerciseIds wid rows) -> filter (inExercise wid eid) rows = [].
Proof.
  intros Hn. apply filter_nil_notin. intros r Hr.
  destruct (inExercise wid eid r) eqn:E; auto.
  exfalso. eauto using inExercise_exerciseIds.
Qed.

Lemma workoutRecords_unseen wid rows :
  ~ In wid (workoutIds rows) -> workoutRecords wid rows = [].
Proof.
  unfold workoutIds, workoutRecords.
  induction rows as [|r rows IH]; simpl; auto.
  rewrite in_app_iff. intros Hn.
  rewrite IH by tauto.
  destruct (workout r) as [w|]; auto.
  destruct (w_id w =? wid) eqn:E; auto.
  apply Z.eqb_eq in E. exfalso. apply Hn. left. now left.
Qed.

Lemma inExercise_rowExercise wid eid r :
  inExercise wid eid r = true ->
  inWorkout wid r = true /\
  exists e we, rowExercise r = Some (e, we) /\ e_id e = eid.
Proof.
  unfold inExercise. intros H. apply andb_true_iff in H.
  destruct H as [Hw He]. split; auto.
  destruct (rowExercise r) as [[e we]|]; [|discriminate].
  apply Z.eqb_eq in He. eauto.
Qed.

(** ** What the loop has built *)

Lemma hd_error_app {A} (l l' : list A) (a : A) :
  hd_error l = Some a -> hd_error (l ++ l') = Some a.
Proof. destruct l; simpl; [discriminate | auto]. Qed.

Lemma exercisesBuilt_unseen wid rows :
  ~ In wid (workoutIds rows) -> exercisesBuilt wid rows JsMap.empty.
Proof.
  intros Hn. split.
  - unfold exerciseIds. now rewrite no_rows_of_unseen_workout.
  - simpl. discriminate.
Qed.

Lemma exercisesBuilt_skip wid rows xs r :
  inWorkout wid r = false ->
  exercisesBuilt wid rows xs -> exercisesBuilt wid (rows ++ [r]) xs.
Proof.
  intros Hw [Hk Hg]. split.
  - now rewrite exerciseIds_snoc, Hw, app_nil_r.
  - intros eid x G. destruct (Hg eid x G) as (e & we & H1 & H2 & H3 & H4).
    exists e, we.
    rewrite exerciseRecords_snoc, setsOf_snoc.
    unfold inExercise. rewrite Hw. simpl. now rewrite !app_nil_r.
Qed.

Lemma exercisesBuilt_step wid rows xs r :
  inWorkout wid r = true ->
  exercisesBuilt wid rows xs ->
  exercisesBuilt wid (rows ++ [r]) (processExercise xs r).
Proof.
  intros Hw [Hk Hg].
  destruct (rowExercise r) as [[e we]|] eqn:Hr.
  2:{ rewrite processExercise_none by auto. split.
      - now rewrite exerciseIds_snoc, Hw, Hr, app_nil_r.
      - intros eid x G. destruct (Hg eid x G) as (e & we & H1 & H2 & H3 & H4).
        exists e, we.
        rewrite exerciseRecords_snoc, setsOf_snoc.
        unfold inExercise. rewrite Hw, Hr. simpl. now rewrite !app_nil_r. }
  destruct (processExercise_some xs r e we Hr) as (Pk & Ps & Po).
  split.
  - rewrite Pk, exerciseIds_snoc, Hw, Hr, firstSeen_snoc, has_keys, Hk.
    reflexivity.
  - intros eid x G.
    rewrite exerciseRecords_snoc, setsOf_snoc.
    destruct (Z.eq_dec eid (e_id e)) as [->|Hne].
    + assert (Hin : inExercise wid (e_id e) r = true).
      { unfold inExercise. now rewrite Hw, Hr, Z.eqb_refl. }
      rewrite Hin, Hr. rewrite Ps in G. injection G as <-.
      destruct (JsMap.get xs (e_id e)) as [x0|] eqn:G0.
      * destruct (Hg _ _ G0) as (e0 & we0 & H1 & H2 & H3 & H4).
        exists e0, we0. split; [now apply hd_error_app|].
        unfold rowSets.
        destruct (set r); simpl; rewrite ?app_nil_r; auto.
        now rewrite H4.
      * apply get_None_keys in G0. rewrite Hk, firstSeen_In in G0.
        exists e, we.
        unfold exerciseRecords, setsOf.
        rewrite (no_rows_of_unseen_exercise _ _ _ G0). simpl.
        unfold rowSets. destruct (set r); simpl; auto.
    + rewrite Po in G by auto.
      destruct (Hg eid x G) as (e0 & we0 & H1 & H2 & H3 & H4).
      exists e0, we0.
      assert (Hin : inExercise wid eid r = false).
      { unfold inExercise. rewrite Hw, Hr. simpl.
        apply Z.eqb_neq. congruence. }
      rewrite Hin, !app_nil_r. auto.
Qed.

Lemma withExercises_same wk : withExercises wk (wm_exercises wk) = wk.
Proof. now destruct wk. Qed.

Lemma workoutsBuilt_step rows st r :
  workoutsBuilt rows st -> workoutsBuilt (rows ++ [r]) (processRow st r).
Proof.
  intros [Hk Hg].
  destruct (workout r) as [w|] eqn:Hr.
  2:{ rewrite processRow_none by auto. split.
      - now rewrite workoutIds_snoc, Hr, app_nil_r.
      - intros wid wk G. destruct (Hg wid wk G) as [(w & H1 & H2) HX].
        split.
        + exists w. rewrite workoutRecords_snoc, Hr, app_nil_r. auto.
        + apply exercisesBuilt_skip; auto. unfold inWorkout. now rewrite Hr. }
  destruct (processRow_some st r w Hr) as (Pk & Ps & Po).
  split.
  - rewrite Pk, workoutIds_snoc, Hr, firstSeen_snoc, has_keys, Hk.
    reflexivity.
  - intros wid wk G.
    rewrite workoutRecords_snoc, Hr.
    destruct (Z.eq_dec wid (w_id w)) as [->|Hne].
    + assert (Hin : inWorkout (w_id w) r = true).
      { unfold inWorkout. now rewrite Hr, Z.eqb_refl. }
      rewrite Z.eqb_refl. rewrite Ps in G. injection G as <-.
      destruct (JsMap.get st (w_id w)) as [wk0|] eqn:G0.
      * destruct (Hg _ _ G0) as [(w0 & H1 & H2) HX]. split.
        -- exists w0. split; [now apply hd_error_app | exact H2].
        -- simpl. now apply exercisesBuilt_step.
      * apply get_None_keys in G0. rewrite Hk, firstSeen_In in G0. split.
        -- exists w. rewrite workoutRecords_unseen by auto. simpl. auto.
        -- simpl. apply exercisesBuilt_step; auto.
           now apply exercisesBuilt_unseen.
    + rewrite Po in G by auto.
      destruct (Hg wid wk G) as [(w0 & H1 & H2) HX].
      assert (Hin : inWorkout wid r = false).
      { unfold inWorkout. rewrite Hr. apply Z.eqb_neq. congruence. }
      split.
      * exists w0. apply Z.eqb_neq in Hne. rewrite Z.eqb_sym in Hne.
        rewrite Hne, app_nil_r. auto.
      * now apply exercisesBuilt_skip.
Qed.

Lemma buildWorkoutsMap_built rows : workoutsBuilt rows (buildWorkoutsMap rows).
Proof.
  induction rows as [|r rows IH] using rev_ind.
  - split; [reflexivity | simpl; discriminate].
  - rewrite buildWorkoutsMap_snoc. now apply workoutsBuilt_step.
Qed.

Lemma buildWorkoutsMap_keys rows :
  JsMap.keys (buildWorkoutsMap rows) = firstSeen (workoutIds rows).
Proof. apply buildWorkoutsMap_built. Qed.

Lemma buildWorkoutsMap_NoDup rows : NoDup (JsMap.keys (buildWorkoutsMap rows)).
Proof. rewrite buildWorkoutsMap_keys. apply firstSeen_NoDup. Qed.

(** Every workout entry stands in the map under its own id. *)
Lemma buildWorkoutsMap_value rows wk :
  In wk (JsMap.values (buildWorkoutsMap rows)) ->
  JsMap.get (buildWorkoutsMap rows) (wm_id wk) = Some wk.
Proof.
  intros Hin.
  destruct (values_get _ (buildWorkoutsMap_NoDup rows) wk Hin) as (k & _ & G).
  destruct (buildWorkoutsMap_built rows) as [_ Hg].
  destruct (Hg k wk G) as [(w & _ & Hid & _) _]. now rewrite Hid.
Qed.

Lemma aggregate_ids rows : map id (aggregate rows) = firstSeen (workoutIds rows).
Proof.
  unfold aggregate. rewrite map_map.
  rewrite (values_by_keys _ (fun wk => id (toOutput wk)) 0)
    by apply buildWorkoutsMap_NoDup.
  rewrite <- buildWorkoutsMap_keys.
  rewrite <- (map_id (JsMap.keys (buildWorkoutsMap rows))) at 2.
  apply map_ext_in. intros k Hk.
  destruct (JsMap.get (buildWorkoutsMap rows) k) as [wk|] eqn:G.
  - destruct (buildWorkoutsMap_built rows) as [_ Hg].
    destruct (Hg k wk G) as [(w & _ & Hid & _) _]. exact Hid.
  - apply get_None_keys in G. contradiction.
Qed.

(** ** Sorting *)

Section SortFacts.
Context {A : Type} (compareFn : A -> A -> Z) (key : A -> Z).
Hypothesis compare_key : forall a b, compareFn a b = key a - key b.

Local Abbreviation le := (fun a b : A => key a <= key b).

Lemma insertSorted_Permutation x l :
  Permutation (insertSorted compareFn x l) (x :: l).
Proof.
  induction l as [|y l IH]; simpl; auto.
  destruct (compareFn x y <=? 0); auto.
  rewrite IH. apply perm_swap.
Qed.

Lemma sortBy_Permutation l : Permutation (sortBy compareFn l) l.
Proof.
  induction l as [|x l IH]; simpl; auto.
  rewrite insertSorted_Permutation. now constructor.
Qed.

Lemma insertSorted_sorted x l :
  StronglySorted le l -> StronglySorted le (insertSorted compareFn x l).
Proof.
  induction 1 as [|y l Hs IH Hy]; simpl.
  - repeat constructor.
  - rewrite compare_key. destruct (key x - key y <=? 0) eqn:E.
    + apply Z.leb_le in E. constructor.
      * now constructor.
      * constructor; [lia|].
        eapply Forall_impl; [|exact Hy]. simpl. intros; lia.
    + apply Z.leb_gt in E. constructor; auto.
      eapply Permutation_Forall.
      * symmetry. apply insertSorted_Permutation.
      * constructor; [lia | exact Hy].
Qed.

Lemma sortBy_sorted l : StronglySorted le (sortBy compareFn l).
Proof.
  induction l as [|x l IH]; simpl; [constructor|].
  now apply insertSorted_sorted.
Qed.

(** Two sorted arrangements of the same elements agree when equal keys
    mean equal elements. *)
Lemma sorted_Permutation_eq l1 l2 :
  StronglySorted le l1 -> StronglySorted le l2 -> Permutation l1 l2 ->
  (forall a b, In a l1 -> In b l1 -> key a = key b -> a = b) ->
  l1 = l2.
Proof.
  intros H1. revert l2.
  induction H1 as [|a l1 Hs1 IH Ha]; intros l2 H2 HP Hinj.
  - apply Permutation_nil in HP. now subst.
  - destruct l2 as [|b l2].
    { apply Permutation_sym, Permutation_nil in HP. discriminate. }
    inversion H2 as [|? ? Hs2 Hb]; subst.
    assert (Hab : a = b).
    { assert (Ia : In a (b :: l2))
        by (eapply Permutation_in; [exact HP | now left]).
      assert (Ib : In b (a :: l1))
        by (eapply Permutation_in; [symmetry; exact HP | now left]).
      destruct Ia as [->|Ia]; auto.
      destruct Ib as [->|Ib]; auto.
      apply Hinj; [now left | now right |].
      rewrite Forall_forall in Ha, Hb.
      specialize (Ha _ Ib). specialize (Hb _ Ia). simpl in *. lia. }
    subst b. f_equal.
    apply IH; auto.
    + eapply Permutation_cons_inv. exact HP.
    + intros x y Hx Hy. apply Hinj; now right.
Qed.

Lemma sortBy_Permutation_eq l l' :
  Permutation l l' ->
  (forall a b, In a l -> In b l -> key a = key b -> a = b) ->
  sortBy compareFn l = sortBy compareFn l'.
Proof.
  intros HP Hinj. apply sorted_Permutation_eq; auto using sortBy_sorted.
  - rewrite !sortBy_Permutation. exact HP.
  - intros a b Ia Ib.
    apply Hinj; eapply Permutation_in; try apply sortBy_Permutation; auto.
Qed.
End SortFacts.

(** Sorting commutes with a change of the elements that keeps the
    comparisons. *)
Lemma sortBy_map {A B} (c : A -> A -> Z) (c' : B -> B -> Z) (f : A -> B) l :
  (forall a b, c' (f a) (f b) = c a b) ->
  sortBy c' (map f l) = map f (sortBy c l).
Proof.
  intros Hc. induction l as [|x l IH]; simpl; auto.
  rewrite IH. generalize (sortBy c l) as s.
  induction s as [|y s IHs]; simpl; auto.
  rewrite Hc. destruct (c x y <=? 0); simpl; auto. now rewrite IHs.
Qed.

(** ** The grouping invariant *)

Lemma length_sortBy {A} (c : A -> A -> Z) l : List.length (sortBy c l) = List.length l.
Proof. apply Permutation_length, sortBy_Permutation. Qed.

(** C1. Grouping completeness and absence of duplicates.  The workout ids
    of the output are exactly the workout ids carried by the rows, each
    once.  The output exercises no longer carry their id; they are the
    entries of the workout's exercise map, whose keys are exactly the
    exercise ids of the rows of that workout, each once, and the output
    list has one exercise per key. *)
Theorem grouping_invariant (rows : list Row) :
  (forall wid, In wid (map id (aggregate rows)) <-> In wid (workoutIds rows)) /\
  NoDup (map id (aggregate rows)) /\
  Forall
    (fun wk =>
       NoDup (JsMap.keys (wm_exercises wk)) /\
       (forall eid, In eid (JsMap.keys (wm_exercises wk)) <->
                    In eid (exerciseIds (wm_id wk) rows)) /\
       List.length (exercises (toOutput wk)) =
       List.length (JsMap.keys (wm_exercises wk)))
    (JsMap.values (buildWorkoutsMap rows)).
Proof.
  rewrite aggregate_ids. split; [|split].
  - intros wid. apply firstSeen_In.
  - apply firstSeen_NoDup.
  - apply Forall_forall. intros wk Hin.
    apply buildWorkoutsMap_value in Hin.
    destruct (buildWorkoutsMap_built rows) as [_ Hg].
    destruct (Hg _ _ Hin) as [_ [Hk _]].
    rewrite Hk. split; [|split].
    + apply firstSeen_NoDup.
    + intros eid. apply firstSeen_In.
    + simpl. unfold sortedExercises.
      rewrite length_map, length_sortBy.
      unfold JsMap.values. rewrite length_map.
      rewrite <- Hk. unfold JsMap.keys. now rewrite length_map.
Qed.

(** ** Sort correctness *)

(** C2. In every workout the output exercises are the entries of the
    workout's exercise map arranged in non-decreasing [order], with the
    [order] field dropped; and in every output exercise the sets are in
    non-decreasing [setNumber]. *)
Theorem sort_correctness (rows : list Row) :
  Forall
    (fun wk =>
       StronglySorted (fun a b => x_order a <= x_order b) (sortedExercises wk) /\
       Permutation (sortedExercises wk) (JsMap.values (wm_exercises wk)) /\
       exercises (toOutput wk) = map dropOrder (sortedExercises wk))
    (JsMap.values (buildWorkoutsMap rows)) /\
  Forall
    (fun o =>
       Forall
         (fun x => StronglySorted (fun a b => setNumber a <= setNumber b) (sets x))
         (exercises o))
    (aggregate rows).
Proof.
  split.
  - apply Forall_forall. intros wk _. unfold sortedExercises.
    split; [|split]; auto.
    + now apply sortBy_sorted.
    + apply sortBy_Permutation.
  - unfold aggregate. apply Forall_map, Forall_forall. intros wk _.
    simpl. apply Forall_map, Forall_forall. intros x _. simpl.
    now apply sortBy_sorted.
Qed.

(** ** Later rows of an exercise *)

Lemma workoutIds_app rows1 rows2 :
  workoutIds (rows1 ++ rows2) = workoutIds rows1 ++ workoutIds rows2.
Proof. apply flat_map_app. Qed.

Lemma exerciseIds_app wid rows1 rows2 :
  exerciseIds wid (rows1 ++ rows2) =
  exerciseIds wid rows1 ++ exerciseIds wid rows2.
Proof. unfold exerciseIds. now rewrite filter_app, flat_map_app. Qed.

Lemma exerciseRecords_app wid eid rows1 rows2 :
  exerciseRecords wid eid (rows1 ++ rows2) =
  exerciseRecords wid eid rows1 ++ exerciseRecords wid eid rows2.
Proof. unfold exerciseRecords. now rewrite filter_app, flat_map_app. Qed.

Lemma setsOf_app wid eid rows1 rows2 :
  setsOf wid eid (rows1 ++ rows2) =
  setsOf wid eid rows1 ++ setsOf wid eid rows2.
Proof. unfold setsOf. now rewrite filter_app, flat_map_app. Qed.

Lemma get_of_key {V} (m : JsMap.t V) k :
  In k (JsMap.keys m) -> exists v, JsMap.get m k = Some v.
Proof.
  intros Hin. destruct (JsMap.get m k) as [v|] eqn:G; eauto.
  apply get_None_keys in G. contradiction.
Qed.

(** C5. An exercise entry has the name and order of the first row that
    carries its exercise id in its workout; the rows that follow keep both
    and only extend the entry's sets, by their own sets for that exercise,
    in row order. *)
Theorem later_rows_only_append_sets
  (rows1 rows2 : list Row) (wid eid : Z)
  (wk : WorkoutWithExerciseMap) (x : ExerciseEntry)
  (Hwk : JsMap.get (buildWorkoutsMap rows1) wid = Some wk)
  (Hx : JsMap.get (wm_exercises wk) eid = Some x) :
  (exists e we,
     hd_error (exerciseRecords wid eid rows1) = Some (e, we) /\
     x_name x = e_name e /\ x_order x = we_order we) /\
  exists wk' x',
    JsMap.get (buildWorkoutsMap (rows1 ++ rows2)) wid = Some wk' /\
    JsMap.get (wm_exercises wk') eid = Some x' /\
    x_name x' = x_name x /\
    x_order x' = x_order x /\
    x_sets x' = x_sets x ++ setsOf wid eid rows2.
Proof.
  destruct (buildWorkoutsMap_built rows1) as [Hk1 Hg1].
  destruct (Hg1 _ _ Hwk) as [_ [Hxk1 Hxg1]].
  destruct (Hxg1 _ _ Hx) as (e & we & Hhd & Hn & Ho & Hs).
  split; [now exists e, we|].
  destruct (buildWorkoutsMap_built (rows1 ++ rows2)) as [Hk2 Hg2].
  destruct (get_of_key (buildWorkoutsMap (rows1 ++ rows2)) wid) as [wk' Hwk'].
  { rewrite Hk2, firstSeen_In, workoutIds_app, in_app_iff. left.
    apply firstSeen_In. rewrite <- Hk1. eapply get_Some_keys; eauto. }
  destruct (Hg2 _ _ Hwk') as [_ [Hxk2 Hxg2]].
  destruct (get_of_key (wm_exercises wk') eid) as [x' Hx'].
  { rewrite Hxk2, firstSeen_In, exerciseIds_app, in_app_iff. left.
    apply firstSeen_In. rewrite <- Hxk1. eapply get_Some_keys; eauto. }
  destruct (Hxg2 _ _ Hx') as (e' & we' & Hhd' & Hn' & Ho' & Hs').
  rewrite exerciseRecords_app in Hhd'.
  rewrite (hd_error_app _ _ _ Hhd) in Hhd'. injection Hhd' as <- <-.
  exists wk', x'. rewrite Hs', setsOf_app, Hs. repeat split; congruence.
Qed.

(** ** Partial rows *)

Lemma flat_map_nil {A B} (f : A -> list B) (l : list A) :
  (forall a, In a l -> f a = []) -> flat_map f l = [].
Proof.
  induction l as [|a l IH]; simpl; intros H; auto.
  rewrite (H a) by auto. simpl. apply IH. auto.
Qed.

Lemma aggregate_skips_row_without_workout rows1 r rows2 :
  workout r = None -> aggregate (rows1 ++ r :: rows2) = aggregate (rows1 ++ rows2).
Proof.
  intros Hr. unfold aggregate, buildWorkoutsMap.
  rewrite !fold_left_app. simpl. now rewrite processRow_none.
Qed.

(** A year of four digits lies well within the range of [Date]. *)
Lemma year_of_era z :
  let '(y, _, _) := civilFromDays z in
  400 * ((z + 719468) / 146097) <= y <= 400 * ((z + 719468) / 146097) + 401.
Proof.
  unfold civilFromDays. cbv zeta.
  set (z' := z + 719468). set (era := z' / 146097).
  set (doe := z' - era * 146097).
  assert (Hdoe : 0 <= doe < 146097).
  { unfold doe, era. pose proof (Z.mod_pos_bound z' 146097 ltac:(lia)).
    rewrite Z.mod_eq in H by lia. lia. }
  set (n := doe - doe / 1460 + doe / 36524 - doe / 146096).
  assert (Hn : 0 <= n <= 146100).
  { unfold n.
    pose proof (Z.div_pos doe 36524 ltac:(lia) ltac:(lia)).
    pose proof (Z.div_pos doe 1460 ltac:(lia) ltac:(lia)).
    pose proof (Z.div_pos doe 146096 ltac:(lia) ltac:(lia)).
    assert (doe / 36524 <= 4)
      by (apply Z.lt_succ_r, Z.div_lt_upper_bound; lia).
    assert (doe / 146096 <= doe / 36524)
      by (apply Z.div_le_compat_l; lia).
    assert (doe / 1460 <= doe)
      by (apply Z.div_le_upper_bound; lia).
    lia. }
  assert (Hyoe : 0 <= n / 365 <= 400).
  { split; [apply Z.div_pos; lia|].
    apply Z.lt_succ_r, Z.div_lt_upper_bound; lia. }
  destruct (_ <=? 2); lia.
Qed.

Lemma timestampAccepted_year t :
  timestampAccepted t = true <-> 1 <= getUTCFullYear t <= 9999.
Proof.
  unfold timestampAccepted. rewrite andb_true_iff, !Z.leb_le. tauto.
Qed.

Lemma timestampAccepted_TimeClip t :
  timestampAccepted t = true -> TimeClip t = ValidDate t.
Proof.
  rewrite timestampAccepted_year. unfold getUTCFullYear, TimeClip.
  pose proof (year_of_era (Day t)) as Hy.
  destruct (civilFromDays (Day t)) as [[y m] d]. intros H.
  set (era := (Day t + 719468) / 146097) in Hy.
  assert (He : -2 < era < 25) by lia.
  assert (Hd : -2 * 146097 < Day t + 719468 < 25 * 146097).
  { unfold era in He.
    pose proof (Z.mul_div_le (Day t + 719468) 146097 ltac:(lia)).
    pose proof (Z.mul_succ_div_gt (Day t + 719468) 146097 ltac:(lia)).
    lia. }
  assert (Ht : -2000000 * msPerDay < t < 4000000 * msPerDay).
  { unfold Day in Hd.
    pose proof (Z.mul_div_le t msPerDay ltac:(unfold msPerDay; lia)).
    pose proof (Z.mul_succ_div_gt t msPerDay ltac:(unfold msPerDay; lia)).
    unfold msPerDay in *. lia. }
  replace (Z.abs t <=? maxTime) with true; auto.
  symmetry. apply Z.leb_le. unfold msPerDay, maxTime in *. lia.
Qed.

Lemma toISOTime_accepted t :
  timestampAccepted t = true -> toISOTime (ValidDate t) = Ok t.
Proof.
  intros H. unfold toISOTime. now rewrite timestampAccepted_TimeClip.
Qed.

Lemma getWorkoutsForDate_authenticated (localTZA : Zone) t w uid s e :
  session w = Some uid -> uid <> "" ->
  dayBounds localTZA (ValidDate t) = (ValidDate s, ValidDate e) ->
  timestampAccepted s = true -> timestampAccepted e = true ->
  let q := {| sel_userId := uid; sel_startOfDay := s; sel_endOfDay := e |} in
  getWorkoutsForDate localTZA (ValidDate t) w =
  (Ok (aggregate (runSelection (database w) q)),
   {| session := session w; database := database w;
      issued := issued w ++ [q] |}).
Proof.
  destruct w as [ses db qs]. simpl. intros -> Hne Hb Hs He.
  assert (Hu : notUserId (Some uid) = false)
    by (simpl; destruct (String.eqb_spec uid ""); [contradiction | reflexivity]).
  unfold getWorkoutsForDate, bind, auth. cbn [session]. rewrite Hu, Hb.
  unfold selectWorkoutsData.
  rewrite (toISOTime_accepted _ Hs), (toISOTime_accepted _ He).
  cbv zeta. rewrite Hs, He. reflexivity.
Qed.

(** Signed in, the call fails only where the selection does, and returns
    the aggregate of whatever rows the selection gives. *)
Lemma getWorkoutsForDate_selection (localTZA : Zone) date w uid :
  session w = Some uid -> uid <> "" ->
  fst (getWorkoutsForDate localTZA date w) =
  bindResult
    (fst (selectWorkoutsData uid (fst (dayBounds localTZA date))
            (snd (dayBounds localTZA date)) w))
    (fun rows => Ok (aggregate rows)).
Proof.
  destruct w as [ses db qs]. simpl. intros -> Hne.
  assert (Hu : notUserId (Some uid) = false)
    by (simpl; destruct (String.eqb_spec uid ""); [contradiction | reflexivity]).
  unfold getWorkoutsForDate, bind, auth, dayBounds. cbn [session fst snd].
  rewrite Hu.
  destruct (selectWorkoutsData uid _ _ _) as [[rows|err] w']; reflexivity.
Qed.

(** C4. The aggregation is defined on every row sequence and adds no
    failure of its own: with a signed-in user the call returns the aggregate
    of whatever rows the selection gives, and fails only where the selection
    itself fails; for a date whose two bounds the database reads, the
    selection gives its rows.  A row without a workout changes nothing; a
    workout none of whose rows has both an exercise and a join record gets
    an empty exercise list; an exercise none of whose rows has a set gets an
    empty set list. *)
Theorem partial_rows_tolerated (rows : list Row) :
  (forall (localTZA : Zone) date w uid,
     session w = Some uid -> uid <> "" ->
     fst (getWorkoutsForDate localTZA date w) =
     bindResult
       (fst (selectWorkoutsData uid (fst (dayBounds localTZA date))
               (snd (dayBounds localTZA date)) w))
       (fun rows => Ok (aggregate rows))) /\
  (forall (localTZA : Zone) t w uid s e,
     session w = Some uid -> uid <> "" ->
     dayBounds localTZA (ValidDate t) = (ValidDate s, ValidDate e) ->
     timestampAccepted s = true -> timestampAccepted e = true ->
     fst (getWorkoutsForDate localTZA (ValidDate t) w) =
     Ok (aggregate
           (runSelection (database w)
              {| sel_userId := uid; sel_startOfDay := s;
                 sel_endOfDay := e |}))) /\
  (forall rows1 r rows2,
     rows = rows1 ++ r :: rows2 -> workout r = None ->
     aggregate rows = aggregate (rows1 ++ rows2)) /\
  (forall wid wk,
     JsMap.get (buildWorkoutsMap rows) wid = Some wk ->
     (forall r, In r rows -> inWorkout wid r = true ->
                exercise r = None \/ workoutExercise r = None) ->
     In (toOutput wk) (aggregate rows) /\ exercises (toOutput wk) = []) /\
  (forall wid wk eid x,
     JsMap.get (buildWorkoutsMap rows) wid = Some wk ->
     JsMap.get (wm_exercises wk) eid = Some x ->
     (forall r, In r rows -> inExercise wid eid r = true -> set r = None) ->
     In (dropOrder x) (exercises (toOutput wk)) /\ sets (dropOrder x) = []).
Proof.
  split; [|split; [|split; [|split]]].
  - intros localTZA date w uid Hs Hne.
    now apply getWorkoutsForDate_selection.
  - intros localTZA t w uid s e Hs Hne Hb Hs1 He1.
    now rewrite (getWorkoutsForDate_authenticated _ _ _ _ _ _ Hs Hne Hb Hs1 He1).
  - intros rows1 r rows2 -> Hr.
    now apply aggregate_skips_row_without_workout.
  - intros wid wk Hwk Hrows. split.
    { unfold aggregate. apply in_map. eapply get_Some_values; eauto. }
    destruct (buildWorkoutsMap_built rows) as [_ Hg].
    destruct (Hg _ _ Hwk) as [_ [Hk _]].
    assert (E : exerciseIds wid rows = []).
    { unfold exerciseIds. apply flat_map_nil. intros r Hr.
      apply filter_In in Hr. destruct Hr as [Hr Hw].
      unfold rowExercise.
      destruct (Hrows r Hr Hw) as [-> | ->]; auto.
      now destruct (exercise r). }
    rewrite E in Hk. simpl. unfold sortedExercises.
    destruct (wm_exercises wk); [reflexivity | discriminate].
  - intros wid wk eid x Hwk Hx Hrows.
    destruct (buildWorkoutsMap_built rows) as [_ Hg].
    destruct (Hg _ _ Hwk) as [_ [_ Hxg]].
    destruct (Hxg _ _ Hx) as (e & we & _ & _ & _ & Hs).
    split.
    + simpl. apply in_map. unfold sortedExercises.
      eapply Permutation_in; [symmetry; apply sortBy_Permutation|].
      eapply get_Some_values; eauto.
    + simpl. rewrite Hs. unfold setsOf. rewrite flat_map_nil; auto.
      intros r Hr. apply filter_In in Hr. destruct Hr as [Hr Hi].
      unfold rowSets. now rewrite (Hrows r Hr Hi).
Qed.

(** ** The guard on the session *)

Lemma getWorkoutsForDate_not_signed_in localTZA date w :
  notUserId (session w) = true ->
  getWorkoutsForDate localTZA date w = (Throw unauthorized, w).
Proof.
  intros H. unfold getWorkoutsForDate, bind, auth. simpl. now rewrite H.
Qed.

(** C10. Without a user id in the session the call throws
    [Error("Unauthorized")] and leaves the world as it was: no selection has
    been issued and no result is produced. *)
Theorem unauthorized_before_any_query
  (localTZA : Z) (date : JsDate) (w : World)
  (Hnone : session w = None) :
  getWorkoutsForDate localTZA date w =
    (Throw {| errorName := "Error"; message := "Unauthorized" |}, w) /\
  issued (snd (getWorkoutsForDate localTZA date w)) = issued w.
Proof.
  rewrite getWorkoutsForDate_not_signed_in by now rewrite Hnone.
  split; reflexivity.
Qed.

(** ** Invalid dates *)


(** ** The calendar *)

(** Known day numbers: the epoch, the first day of 2000 and of September
    2025 (946684800 s and 1756684800 s after the epoch). *)
Example calendar_anchors :
  MakeDay 1970 0 1 = 0 /\
  MakeDay 2000 0 1 * 86400 = 946684800 /\
  MakeDay 2025 8 1 * 86400 = 1756684800 /\
  civilFromDays 20332 = (2025, 9, 1) /\
  MakeDay 2024 11 32 = MakeDay 2025 0 1 /\
  MakeDay 2024 14 1 = MakeDay 2025 2 1.
Proof. repeat split. Qed.

(** Over 4000 days from the first of January of 1999, of 2020 and of 2099
    (so across 2000, a leap year, and 2100, which is none), every day number
    is read as a date of the calendar and built back from it. *)
Example calendar_round_trip :
  forallb
    (fun year =>
       everyDay (Z.to_nat 4000) (MakeDay year 0 1)
         (fun z =>
            let '(y, m, d) := civilFromDays z in
            (daysFromCivil y m d =? z) && (MakeDay y (m - 1) d =? z)
            && (1 <=? m) && (m <=? 12) && (1 <=? d) && (d <=? 31)))
    [1999; 2020; 2099] = true.
Proof. vm_compute. reflexivity. Qed.

(** ** The ordinal suffix *)

Lemma local_day (localTZA : Z) day ms :
  0 <= ms < msPerDay ->
  Day (LocalTime localTZA (UTC localTZA (MakeDate day ms))) = day.
Proof.
  intros H. unfold LocalTime, UTC, fixedZone, MakeDate, Day.
  replace (day * msPerDay + ms - localTZA + localTZA)
    with (ms + day * msPerDay) by lia.
  rewrite Z.div_add by (unfold msPerDay; lia).
  rewrite Z.div_small; auto.
Qed.

(** C8. The table of the specification, for any moment of the local day
    named. *)
Theorem ordinal_formatting_table (localTZA ms : Z)
  (Hms : 0 <= ms < msPerDay) :
  let on y m d := ValidDate (UTC localTZA (MakeDate (MakeDay y (m - 1) d) ms)) in
  formatDateWithOrdinal localTZA (on 2025 9 1) = Ok "1st Sep 2025" /\
  formatDateWithOrdinal localTZA (on 2025 8 2) = Ok "2nd Aug 2025" /\
  formatDateWithOrdinal localTZA (on 2026 1 3) = Ok "3rd Jan 2026" /\
  formatDateWithOrdinal localTZA (on 2024 6 4) = Ok "4th Jun 2024" /\
  formatDateWithOrdinal localTZA (on 2025 12 21) = Ok "21st Dec 2025" /\
  formatDateWithOrdinal localTZA (on 2024 11 22) = Ok "22nd Nov 2024" /\
  formatDateWithOrdinal localTZA (on 2026 3 23) = Ok "23rd Mar 2026".
Proof.
  intros on. unfold on, formatDateWithOrdinal, format, bindResult.
  unfold getDate, getMonth, getFullYear.
  rewrite !local_day by exact Hms.
  repeat split; vm_compute; reflexivity.
Qed.

(** C9. On the days of a month the rule of the program and the rule on
    [d % 100] give the same suffix, and from the 21st on it is the one of
    the last digit. *)
Theorem suffix_rules_agree (d : Z) (Hd : 1 <= d <= 31) :
  suffix (numberToString d) = ordinalSuffixMod100 d /\
  (21 <= d ->
   suffix (numberToString d) =
   match Z.rem d 10 with 1 => "st" | 2 => "nd" | 3 => "rd" | _ => "th" end) /\
  map (fun n => suffix (numberToString n)) [21; 22; 23; 24; 25; 26; 27; 28; 29; 30; 31]
  = ["st"; "nd"; "rd"; "th"; "th"; "th"; "th"; "th"; "th"; "th"; "st"].
Proof.
  assert (E : In d [1; 2; 3; 4; 5; 6; 7; 8; 9; 10; 11; 12; 13; 14; 15; 16;
                    17; 18; 19; 20; 21; 22; 23; 24; 25; 26; 27; 28; 29; 30; 31]).
  { simpl. lia. }
  split; [|split].
  - simpl in E. repeat (destruct E as [<-|E]; [vm_compute; reflexivity|]).
    contradiction.
  - intros H. simpl in E.
    repeat (destruct E as [<-|E]; [try lia; vm_compute; reflexivity|]).
    contradiction.
  - vm_compute. reflexivity.
Qed.

(** ** The selection *)





Lemma runSelection_In db q r :
  In r (runSelection db q) <-> In r (joined db) /\ whereClause q r = true.
Proof.
  unfold runSelection. rewrite <- filter_In.
  split; apply Permutation_in;
    [|symmetry]; apply sortBy_Permutation.
Qed.



Lemma startOfDay_next (localTZA : Z) t :
  Day (LocalTime localTZA (addDays t 1)) = Day (LocalTime localTZA t) + 1.
Proof.
  unfold Day, LocalTime, fixedZone, addDays.
  replace (t + 1 * msPerDay + localTZA) with (t + localTZA + 1 * msPerDay) by lia.
  apply Z.div_add. unfold msPerDay. lia.
Qed.



Lemma clocksInOrder_fixed (localTZA : Z) day : clocksInOrder localTZA day.
Proof. unfold clocksInOrder, fixedZone, msPerDay. cbv zeta. lia. Qed.



(** ** Reordering the rows *)

Lemma Permutation_filter {A} (f : A -> bool) (l l' : list A) :
  Permutation l l' -> Permutation (filter f l) (filter f l').
Proof.
  induction 1 as [|x l l' HP IH|x y l|l l' l'' H1 IH1 H2 IH2]; simpl; auto.
  - destruct (f x); auto.
  - destruct (f x), (f y); auto. apply perm_swap.
  - now rewrite IH1.
Qed.

Lemma workoutIds_Permutation rows rows' :
  Permutation rows rows' -> Permutation (workoutIds rows) (workoutIds rows').
Proof. apply Permutation_flat_map. Qed.

Lemma exerciseIds_Permutation wid rows rows' :
  Permutation rows rows' ->
  Permutation (exerciseIds wid rows) (exerciseIds wid rows').
Proof. intros H. apply Permutation_flat_map. now apply Permutation_filter. Qed.

Lemma setsOf_Permutation wid eid rows rows' :
  Permutation rows rows' ->
  Permutation (setsOf wid eid rows) (setsOf wid eid rows').
Proof. intros H. apply Permutation_flat_map. now apply Permutation_filter. Qed.

(** Two maps with the same keys, in any order, whose values agree under [f]
    key by key, have the same values under [f], up to order. *)
Lemma values_Permutation {V B} (m m' : JsMap.t V) (f : V -> B) :
  NoDup (JsMap.keys m) -> NoDup (JsMap.keys m') ->
  Permutation (JsMap.keys m) (JsMap.keys m') ->
  (forall k v v', JsMap.get m k = Some v -> JsMap.get m' k = Some v' ->
                  f v = f v') ->
  Permutation (map f (JsMap.values m)) (map f (JsMap.values m')).
Proof.
  intros Hnd Hnd' HP Hf.
  destruct m as [|[k0 v0] m0] eqn:Em.
  { apply Permutation_nil in HP. destruct m'; [constructor | discriminate]. }
  rewrite <- Em in *. clear Em m0 k0.
  rewrite (values_by_keys m f (f v0) Hnd), (values_by_keys m' f (f v0) Hnd').
  etransitivity; [apply Permutation_map; exact HP|].
  apply Permutation_refl'. apply map_ext_in. intros k Hk.
  destruct (get_of_key m' k Hk) as [v' G'].
  destruct (get_of_key m k) as [v G].
  { eapply Permutation_in; [symmetry; exact HP | exact Hk]. }
  rewrite G, G'. eauto.
Qed.

Lemma optionEqb_eq {A} (eqb : A -> A -> bool) (a b : option A) :
  (forall x y, eqb x y = true -> x = y) -> optionEqb eqb a b = true -> a = b.
Proof.
  intros H. destruct a, b; simpl; try discriminate; auto.
  intros E. f_equal. auto.
Qed.

Lemma sameSet_eq a b : sameSet a b = true -> a = b.
Proof.
  unfold sameSet. intros H.
  repeat (apply andb_true_iff in H; destruct H as [H ?]).
  destruct a, b; simpl in *. f_equal.
  - now apply Z.eqb_eq.
  - eapply optionEqb_eq; eauto. intros x y. apply String.eqb_eq.
  - eapply optionEqb_eq; eauto. intros x y. apply Z.eqb_eq.
  - eapply optionEqb_eq; eauto. intros x y. apply Z.eqb_eq.
Qed.

Lemma unambiguous_rowsAgree rows r1 r2 :
  unambiguous rows = true -> In r1 rows -> In r2 rows -> rowsAgree r1 r2 = true.
Proof.
  unfold unambiguous. intros H H1 H2.
  rewrite forallb_forall in H. specialize (H r1 H1).
  rewrite forallb_forall in H. auto.
Qed.

(** What agreement says, case by case. *)
Lemma rowsAgree_workout r1 r2 w1 w2 :
  rowsAgree r1 r2 = true ->
  workout r1 = Some w1 -> workout r2 = Some w2 -> w_id w1 = w_id w2 ->
  w_name w1 = w_name w2 /\ w_startedAt w1 = w_startedAt w2 /\
  w_completedAt w1 = w_completedAt w2 /\ exercisesAgree r1 r2 = true.
Proof.
  unfold rowsAgree. intros H E1 E2 E. rewrite E1, E2 in H.
  apply Z.eqb_eq in E. rewrite E in H.
  repeat (apply andb_true_iff in H; destruct H as [H ?]).
  repeat split; auto.
  - eapply optionEqb_eq; eauto. intros x y. apply String.eqb_eq.
  - now apply Z.eqb_eq.
  - eapply optionEqb_eq; eauto. intros x y. apply Z.eqb_eq.
Qed.

Lemma exercisesAgree_same r1 r2 e1 we1 e2 we2 :
  exercisesAgree r1 r2 = true ->
  rowExercise r1 = Some (e1, we1) -> rowExercise r2 = Some (e2, we2) ->
  e_id e1 = e_id e2 ->
  e_name e1 = e_name e2 /\ we_order we1 = we_order we2 /\
  setsAgree r1 r2 = true.
Proof.
  unfold exercisesAgree. intros H E1 E2 E. rewrite E1, E2 in H.
  apply Z.eqb_eq in E. rewrite E in H.
  repeat (apply andb_true_iff in H; destruct H as [H ?]).
  repeat split; auto.
  - now apply String.eqb_eq.
  - now apply Z.eqb_eq.
Qed.

Lemma exercisesAgree_order r1 r2 e1 we1 e2 we2 :
  exercisesAgree r1 r2 = true ->
  rowExercise r1 = Some (e1, we1) -> rowExercise r2 = Some (e2, we2) ->
  we_order we1 = we_order we2 -> e_id e1 = e_id e2.
Proof.
  unfold exercisesAgree. intros H E1 E2 E. rewrite E1, E2 in H.
  destruct (e_id e1 =? e_id e2) eqn:Eid; [now apply Z.eqb_eq|].
  apply Z.eqb_eq in E. rewrite E in H. discriminate.
Qed.

Lemma setsAgree_same r1 r2 s1 s2 :
  setsAgree r1 r2 = true ->
  set r1 = Some s1 -> set r2 = Some s2 ->
  s_setNumber s1 = s_setNumber s2 -> newSet s1 = newSet s2.
Proof.
  unfold setsAgree. intros H E1 E2 E. rewrite E1, E2 in H.
  apply Z.eqb_eq in E. rewrite E in H. now apply sameSet_eq.
Qed.

Lemma hd_error_In {A} (l : list A) (a : A) : hd_error l = Some a -> In a l.
Proof. destruct l; simpl; [discriminate | intros [= ->]; now left]. Qed.

Lemma inWorkout_workout wid r :
  inWorkout wid r = true -> exists w, workout r = Some w /\ w_id w = wid.
Proof.
  unfold inWorkout. destruct (workout r) as [w|]; [|discriminate].
  intros H. apply Z.eqb_eq in H. eauto.
Qed.

Lemma workoutRecords_In wid rows w :
  In w (workoutRecords wid rows) ->
  exists r, In r rows /\ workout r = Some w /\ w_id w = wid.
Proof.
  unfold workoutRecords. intros H. apply in_flat_map in H.
  destruct H as (r & Hr & H). exists r.
  destruct (workout r) as [w0|]; [|contradiction].
  destruct (w_id w0 =? wid) eqn:E; [|contradiction].
  destruct H as [<-|[]]. apply Z.eqb_eq in E. auto.
Qed.

Lemma exerciseRecords_In wid eid rows e we :
  In (e, we) (exerciseRecords wid eid rows) ->
  exists r, In r rows /\ inExercise wid eid r = true /\
            rowExercise r = Some (e, we).
Proof.
  unfold exerciseRecords. intros H. apply in_flat_map in H.
  destruct H as (r & Hr & H). apply filter_In in Hr. destruct Hr as [Hr Hi].
  exists r. destruct (rowExercise r) as [p|]; [|contradiction].
  destruct H as [<-|[]]. auto.
Qed.

Lemma setsOf_In wid eid rows s :
  In s (setsOf wid eid rows) ->
  exists r sr, In r rows /\ inExercise wid eid r = true /\
               set r = Some sr /\ s = newSet sr.
Proof.
  unfold setsOf, rowSets. intros H. apply in_flat_map in H.
  destruct H as (r & Hr & H). apply filter_In in Hr. destruct Hr as [Hr Hi].
  exists r. destruct (set r) as [sr|]; [|contradiction].
  destruct H as [<-|[]]. eauto.
Qed.

(** Two rows of one exercise of one workout that agree. *)
Lemma agree_within_exercise r1 r2 wid eid :
  rowsAgree r1 r2 = true ->
  inExercise wid eid r1 = true -> inExercise wid eid r2 = true ->
  exists e1 we1 e2 we2,
    rowExercise r1 = Some (e1, we1) /\ rowExercise r2 = Some (e2, we2) /\
    e_name e1 = e_name e2 /\ we_order we1 = we_order we2 /\
    setsAgree r1 r2 = true.
Proof.
  intros Ha H1 H2.
  apply inExercise_rowExercise in H1, H2.
  destruct H1 as [W1 (e1 & we1 & R1 & I1)], H2 as [W2 (e2 & we2 & R2 & I2)].
  apply inWorkout_workout in W1, W2.
  destruct W1 as (w1 & W1 & J1), W2 as (w2 & W2 & J2).
  destruct (rowsAgree_workout _ _ _ _ Ha W1 W2) as (_ & _ & _ & Hx);
    [congruence|].
  destruct (exercisesAgree_same _ _ _ _ _ _ Hx R1 R2) as (N & O & S);
    [congruence|].
  exists e1, we1, e2, we2. auto.
Qed.

Section Reorder.
Variables rows rows' : list Row.
Hypothesis rows_unambiguous : unambiguous rows = true.
Hypothesis rows_permuted : Permutation rows rows'.

Lemma agree_across r1 r2 :
  In r1 rows -> In r2 rows' -> rowsAgree r1 r2 = true.
Proof.
  intros H1 H2. apply (unambiguous_rowsAgree rows); auto.
  eapply Permutation_in; [symmetry; exact rows_permuted | exact H2].
Qed.

Lemma sets_distinguished wid eid a b :
  In a (setsOf wid eid rows) -> In b (setsOf wid eid rows) ->
  setNumber a = setNumber b -> a = b.
Proof.
  intros Ha Hb E.
  apply setsOf_In in Ha, Hb.
  destruct Ha as (r1 & s1 & I1 & X1 & S1 & ->).
  destruct Hb as (r2 & s2 & I2 & X2 & S2 & ->).
  pose proof (unambiguous_rowsAgree rows r1 r2 rows_unambiguous I1 I2) as Hag.
  destruct (agree_within_exercise _ _ _ _ Hag X1 X2)
    as (e1 & we1 & e2 & we2 & _ & _ & _ & _ & Hs).
  eapply setsAgree_same; eauto.
Qed.

Lemma sorted_sets_equal wid eid :
  sortBy compareSetNumber (setsOf wid eid rows) =
  sortBy compareSetNumber (setsOf wid eid rows').
Proof.
  apply (sortBy_Permutation_eq compareSetNumber setNumber).
  - reflexivity.
  - now apply setsOf_Permutation.
  - apply sets_distinguished.
Qed.

Lemma entries_equal wid xs xs' eid x x' :
  exercisesBuilt wid rows xs -> exercisesBuilt wid rows' xs' ->
  JsMap.get xs eid = Some x -> JsMap.get xs' eid = Some x' ->
  sortSets x = sortSets x'.
Proof.
  intros [_ Hg] [_ Hg'] G G'.
  destruct (Hg _ _ G) as (e & we & Hhd & Hn & Ho & Hs).
  destruct (Hg' _ _ G') as (e' & we' & Hhd' & Hn' & Ho' & Hs').
  apply hd_error_In, exerciseRecords_In in Hhd, Hhd'.
  destruct Hhd as (r & Ir & Xr & Rr), Hhd' as (r' & Ir' & Xr' & Rr').
  pose proof (agree_across r r' Ir Ir') as Hag.
  destruct (agree_within_exercise _ _ _ _ Hag Xr Xr')
    as (e1 & we1 & e2 & we2 & R1 & R2 & N & O & _).
  rewrite Rr in R1. rewrite Rr' in R2.
  injection R1 as <- <-. injection R2 as <- <-.
  unfold sortSets. rewrite Hs, Hs', sorted_sets_equal. f_equal; congruence.
Qed.

Lemma entries_distinguished wid xs a b :
  exercisesBuilt wid rows xs ->
  In a (map sortSets (JsMap.values xs)) ->
  In b (map sortSets (JsMap.values xs)) ->
  x_order a = x_order b -> a = b.
Proof.
  intros [Hk Hg] Ha Hb E.
  apply in_map_iff in Ha, Hb.
  destruct Ha as (xa & <- & Ha), Hb as (xb & <- & Hb).
  assert (Hnd : NoDup (JsMap.keys xs)) by (rewrite Hk; apply firstSeen_NoDup).
  destruct (values_get xs Hnd xa Ha) as (ka & _ & Ga).
  destruct (values_get xs Hnd xb Hb) as (kb & _ & Gb).
  destruct (Hg _ _ Ga) as (ea & wea & Hhda & _ & Hoa & _).
  destruct (Hg _ _ Gb) as (eb & web & Hhdb & _ & Hob & _).
  apply hd_error_In, exerciseRecords_In in Hhda, Hhdb.
  destruct Hhda as (ra & Ira & Xra & Rra), Hhdb as (rb & Irb & Xrb & Rrb).
  pose proof (unambiguous_rowsAgree rows ra rb rows_unambiguous Ira Irb) as Hag.
  apply inExercise_rowExercise in Xra, Xrb.
  destruct Xra as [Wa (ea' & wea' & Rra' & Ia)].
  destruct Xrb as [Wb (eb' & web' & Rrb' & Ib)].
  rewrite Rra in Rra'. rewrite Rrb in Rrb'.
  injection Rra' as <- <-. injection Rrb' as <- <-.
  apply inWorkout_workout in Wa, Wb.
  destruct Wa as (wa & Wa & Ja), Wb as (wb & Wb & Jb).
  destruct (rowsAgree_workout _ _ _ _ Hag Wa Wb) as (_ & _ & _ & Hx);
    [congruence|].
  simpl in E.
  assert (Hid : e_id ea = e_id eb).
  { eapply exercisesAgree_order; eauto. congruence. }
  assert (K : ka = kb) by congruence.
  rewrite K in Ga. rewrite Ga in Gb. now injection Gb as <-.
Qed.

Lemma dropOrder_steps x : dropOrder x = withoutOrder (sortSets x).
Proof. reflexivity. Qed.

Lemma exercises_equal wid xs xs' :
  exercisesBuilt wid rows xs -> exercisesBuilt wid rows' xs' ->
  map dropOrder (sortBy compareOrder (JsMap.values xs)) =
  map dropOrder (sortBy compareOrder (JsMap.values xs')).
Proof.
  intros HB HB'.
  assert (E : forall l, map dropOrder l = map withoutOrder (map sortSets l)).
  { intros l. now rewrite map_map. }
  rewrite (E (sortBy compareOrder (JsMap.values xs))).
  rewrite (E (sortBy compareOrder (JsMap.values xs'))).
  rewrite <- (sortBy_map compareOrder compareOrder sortSets (JsMap.values xs))
    by reflexivity.
  rewrite <- (sortBy_map compareOrder compareOrder sortSets (JsMap.values xs'))
    by reflexivity.
  f_equal.
  apply (sortBy_Permutation_eq compareOrder x_order).
  - reflexivity.
  - destruct HB as [Hk Hg], HB' as [Hk' Hg'].
    apply values_Permutation.
    + rewrite Hk. apply firstSeen_NoDup.
    + rewrite Hk'. apply firstSeen_NoDup.
    + rewrite Hk, Hk'.
      now apply firstSeen_Permutation, exerciseIds_Permutation.
    + intros k v v'. apply (entries_equal wid xs xs'); split; auto.
  - intros a b. now apply (entries_distinguished wid xs a b).
Qed.

Lemma outputs_equal wid wk wk' :
  JsMap.get (buildWorkoutsMap rows) wid = Some wk ->
  JsMap.get (buildWorkoutsMap rows') wid = Some wk' ->
  toOutput wk = toOutput wk'.
Proof.
  intros G G'.
  destruct (buildWorkoutsMap_built rows) as [_ Hg].
  destruct (buildWorkoutsMap_built rows') as [_ Hg'].
  destruct (Hg _ _ G) as [(w & Hhd & Hid & Hn & Hs & Hc) HB].
  destruct (Hg' _ _ G') as [(w' & Hhd' & Hid' & Hn' & Hs' & Hc') HB'].
  apply hd_error_In, workoutRecords_In in Hhd, Hhd'.
  destruct Hhd as (r & Ir & Wr & Jr), Hhd' as (r' & Ir' & Wr' & Jr').
  destruct (rowsAgree_workout _ _ _ _ (agree_across r r' Ir Ir') Wr Wr')
    as (N & S & C & _); [congruence|].
  unfold toOutput, sortedExercises.
  rewrite (exercises_equal wid _ _ HB HB'). f_equal; congruence.
Qed.

Lemma aggregate_Permutation : Permutation (aggregate rows) (aggregate rows').
Proof.
  unfold aggregate. apply values_Permutation.
  - apply buildWorkoutsMap_NoDup.
  - apply buildWorkoutsMap_NoDup.
  - rewrite !buildWorkoutsMap_keys.
    now apply firstSeen_Permutation, workoutIds_Permutation.
  - apply outputs_equal.
Qed.
End Reorder.

Lemma find_by_id (l : list WorkoutWithExercises) o :
  NoDup (map id l) -> In o l -> find (fun o' => id o' =? id o) l = Some o.
Proof.
  induction l as [|a l IH]; simpl; [tauto|].
  intros Hnd Hin. inversion Hnd as [|? ? Hni Hnd']; subst.
  destruct Hin as [->|Hin].
  - now rewrite Z.eqb_refl.
  - destruct (id a =? id o) eqn:E; auto.
    apply Z.eqb_eq in E. exfalso. apply Hni. rewrite E. now apply in_map.
Qed.

Lemma find_Permutation (l l' : list WorkoutWithExercises) wid :
  NoDup (map id l) -> NoDup (map id l') -> Permutation l l' ->
  find (fun o => id o =? wid) l = find (fun o => id o =? wid) l'.
Proof.
  intros Hnd Hnd' HP.
  destruct (find (fun o => id o =? wid) l) as [o|] eqn:F.
  - apply find_some in F. destruct F as [Hin E].
    apply Z.eqb_eq in E. subst wid. symmetry.
    apply find_by_id; auto. eapply Permutation_in; eauto.
  - destruct (find (fun o => id o =? wid) l') as [o'|] eqn:F'; auto.
    apply find_some in F'. destruct F' as [Hin' E'].
    rewrite (find_none _ _ F o') in E'; [discriminate|].
    eapply Permutation_in; [symmetry; exact HP | exact Hin'].
Qed.

(** *** What every rearrangement keeps *)

Section Rearranged.
Variables rows rows' : list Row.
Hypothesis rows_permuted : Permutation rows rows'.

Lemma ids_Permutation :
  Permutation (map id (aggregate rows)) (map id (aggregate rows')).
Proof.
  rewrite !aggregate_ids.
  now apply firstSeen_Permutation, workoutIds_Permutation.
Qed.

Lemma exercise_keys_Permutation wid wk wk' :
  JsMap.get (buildWorkoutsMap rows) wid = Some wk ->
  JsMap.get (buildWorkoutsMap rows') wid = Some wk' ->
  Permutation (JsMap.keys (wm_exercises wk)) (JsMap.keys (wm_exercises wk')).
Proof.
  intros G G'.
  destruct (buildWorkoutsMap_built rows) as [_ Hg].
  destruct (buildWorkoutsMap_built rows') as [_ Hg'].
  destruct (Hg _ _ G) as [_ [Hk _]].
  destruct (Hg' _ _ G') as [_ [Hk' _]].
  rewrite Hk, Hk'.
  now apply firstSeen_Permutation, exerciseIds_Permutation.
Qed.

Lemma exercise_sets_Permutation wid wk wk' eid x x' :
  JsMap.get (buildWorkoutsMap rows) wid = Some wk ->
  JsMap.get (buildWorkoutsMap rows') wid = Some wk' ->
  JsMap.get (wm_exercises wk) eid = Some x ->
  JsMap.get (wm_exercises wk') eid = Some x' ->
  Permutation (sets (dropOrder x)) (sets (dropOrder x')).
Proof.
  intros G G' Gx Gx'.
  destruct (buildWorkoutsMap_built rows) as [_ Hg].
  destruct (buildWorkoutsMap_built rows') as [_ Hg'].
  destruct (Hg _ _ G) as [_ [_ Hx]].
  destruct (Hg' _ _ G') as [_ [_ Hx']].
  destruct (Hx _ _ Gx) as (e & we & _ & _ & _ & Hs).
  destruct (Hx' _ _ Gx') as (e' & we' & _ & _ & _ & Hs').
  simpl. rewrite Hs, Hs', !sortBy_Permutation.
  now apply setsOf_Permutation.
Qed.
End Rearranged.

(** *** Consistent rows *)

Lemma upToOrder_Permutation {A} (R : A -> A -> Prop) l1 l2 l1' l2' :
  Permutation l1 l2 -> Permutation l1' l2' ->
  upToOrder R l2 l2' -> upToOrder R l1 l1'.
Proof.
  intros H H' (l0 & HP & HF).
  destruct (Permutation_Forall2 (Permutation_sym H) HF) as (l0' & HP' & HF').
  exists l0'. split; auto.
  now rewrite H', HP.
Qed.

Lemma Forall2_map_same {A B} (R : B -> B -> Prop) (g h : A -> B) l :
  (forall a, In a l -> R (g a) (h a)) -> Forall2 R (map g l) (map h l).
Proof.
  induction l as [|a l IH]; simpl; intros H; constructor; auto.
Qed.

(** Two maps with the same keys, in any order, whose values are related
    under [f] key by key, have related values under [f], up to order. *)
Lemma values_upToOrder {V B} (R : B -> B -> Prop) (f : V -> B)
  (m m' : JsMap.t V) :
  NoDup (JsMap.keys m) -> NoDup (JsMap.keys m') ->
  Permutation (JsMap.keys m) (JsMap.keys m') ->
  (forall k v v', JsMap.get m k = Some v -> JsMap.get m' k = Some v' ->
                  R (f v) (f v')) ->
  upToOrder R (map f (JsMap.values m)) (map f (JsMap.values m')).
Proof.
  intros Hnd Hnd' HP HR.
  destruct m as [|[k0 v0] m0] eqn:Em.
  { apply Permutation_nil in HP. destruct m'; [|discriminate].
    exists []. split; constructor. }
  rewrite <- Em in *. clear Em m0 k0.
  exists (map (fun k => match JsMap.get m' k with
                        | Some v => f v
                        | None => f v0
                        end) (JsMap.keys m)).
  split.
  - rewrite (values_by_keys m' f (f v0) Hnd').
    apply Permutation_map. now symmetry.
  - rewrite (values_by_keys m f (f v0) Hnd).
    apply Forall2_map_same. intros k Hk.
    destruct (get_of_key m k Hk) as [v G].
    destruct (get_of_key m' k) as [v' G'].
    { eapply Permutation_in; [exact HP | exact Hk]. }
    rewrite G, G'. eauto.
Qed.

Lemma consistent_rows rows r1 r2 :
  consistent rows = true -> In r1 rows -> In r2 rows ->
  rowsConsistent r1 r2 = true.
Proof.
  unfold consistent. intros H H1 H2.
  rewrite forallb_forall in H. specialize (H r1 H1).
  rewrite forallb_forall in H. auto.
Qed.

Lemma rowsConsistent_workout r1 r2 w1 w2 :
  rowsConsistent r1 r2 = true ->
  workout r1 = Some w1 -> workout r2 = Some w2 -> w_id w1 = w_id w2 ->
  w_name w1 = w_name w2 /\ w_startedAt w1 = w_startedAt w2 /\
  w_completedAt w1 = w_completedAt w2 /\ namesAgree r1 r2 = true.
Proof.
  unfold rowsConsistent. intros H E1 E2 E. rewrite E1, E2 in H.
  apply Z.eqb_eq in E. rewrite E in H.
  repeat (apply andb_true_iff in H; destruct H as [H ?]).
  repeat split; auto.
  - eapply optionEqb_eq; eauto. intros x y. apply String.eqb_eq.
  - now apply Z.eqb_eq.
  - eapply optionEqb_eq; eauto. intros x y. apply Z.eqb_eq.
Qed.

Lemma namesAgree_same r1 r2 e1 we1 e2 we2 :
  namesAgree r1 r2 = true ->
  rowExercise r1 = Some (e1, we1) -> rowExercise r2 = Some (e2, we2) ->
  e_id e1 = e_id e2 -> e_name e1 = e_name e2.
Proof.
  unfold namesAgree. intros H E1 E2 E. rewrite E1, E2 in H.
  apply Z.eqb_eq in E. rewrite E in H. now apply String.eqb_eq.
Qed.

(** Rows that leave nothing to the order of arrival are consistent. *)
Lemma unambiguous_consistent rows :
  unambiguous rows = true -> consistent rows = true.
Proof.
  unfold unambiguous, consistent. rewrite !forallb_forall.
  intros H r1 H1. specialize (H r1 H1).
  rewrite forallb_forall in *. intros r2 H2. specialize (H r2 H2).
  unfold rowsAgree in H. unfold rowsConsistent.
  destruct (workout r1) as [w1|]; auto.
  destruct (workout r2) as [w2|]; auto.
  destruct (w_id w1 =? w_id w2); auto.
  repeat (apply andb_true_iff in H; destruct H as [H ?]).
  repeat (apply andb_true_iff; split); auto.
  unfold exercisesAgree in *. unfold namesAgree.
  destruct (rowExercise r1) as [[e1 we1]|]; auto.
  destruct (rowExercise r2) as [[e2 we2]|]; auto.
  destruct (e_id e1 =? e_id e2); auto.
  repeat (apply andb_true_iff in H0; destruct H0 as [H0 ?]). auto.
Qed.

Section SameContent.
Variables rows rows' : list Row.
Hypothesis rows_consistent : consistent rows = true.
Hypothesis rows_permuted : Permutation rows rows'.

Lemma consistent_across r1 r2 :
  In r1 rows -> In r2 rows' -> rowsConsistent r1 r2 = true.
Proof.
  intros H1 H2. apply (consistent_rows rows); auto.
  eapply Permutation_in; [symmetry; exact rows_permuted | exact H2].
Qed.

Lemma exercises_sameContent wid xs xs' :
  exercisesBuilt wid rows xs -> exercisesBuilt wid rows' xs' ->
  upToOrder sameExercise
    (map dropOrder (sortBy compareOrder (JsMap.values xs)))
    (map dropOrder (sortBy compareOrder (JsMap.values xs'))).
Proof.
  intros [Hk Hg] [Hk' Hg'].
  apply (upToOrder_Permutation sameExercise _
           (map dropOrder (JsMap.values xs)) _
           (map dropOrder (JsMap.values xs')));
    try (apply Permutation_map, sortBy_Permutation).
  apply values_upToOrder.
  - rewrite Hk. apply firstSeen_NoDup.
  - rewrite Hk'. apply firstSeen_NoDup.
  - rewrite Hk, Hk'.
    now apply firstSeen_Permutation, exerciseIds_Permutation.
  - intros eid x x' G G'.
    destruct (Hg _ _ G) as (e & we & Hhd & Hn & _ & Hs).
    destruct (Hg' _ _ G') as (e' & we' & Hhd' & Hn' & _ & Hs').
    apply hd_error_In, exerciseRecords_In in Hhd, Hhd'.
    destruct Hhd as (r & Ir & Xr & Rr), Hhd' as (r' & Ir' & Xr' & Rr').
    pose proof (consistent_across r r' Ir Ir') as Hc.
    apply inExercise_rowExercise in Xr, Xr'.
    destruct Xr as [Wr (e1 & we1 & R1 & I1)].
    destruct Xr' as [Wr' (e2 & we2 & R2 & I2)].
    rewrite Rr in R1. rewrite Rr' in R2.
    injection R1 as <- <-. injection R2 as <- <-.
    apply inWorkout_workout in Wr, Wr'.
    destruct Wr as (w1 & W1 & J1), Wr' as (w2 & W2 & J2).
    destruct (rowsConsistent_workout _ _ _ _ Hc W1 W2) as (_ & _ & _ & Hna);
      [congruence|].
    split.
    + simpl. rewrite Hn, Hn'.
      eapply namesAgree_same; eauto. congruence.
    + simpl. rewrite Hs, Hs', !sortBy_Permutation.
      now apply setsOf_Permutation.
Qed.

Lemma outputs_sameContent wid wk wk' :
  JsMap.get (buildWorkoutsMap rows) wid = Some wk ->
  JsMap.get (buildWorkoutsMap rows') wid = Some wk' ->
  sameWorkout (toOutput wk) (toOutput wk').
Proof.
  intros G G'.
  destruct (buildWorkoutsMap_built rows) as [_ Hg].
  destruct (buildWorkoutsMap_built rows') as [_ Hg'].
  destruct (Hg _ _ G) as [(w & Hhd & Hid & Hn & Hs & Hc) HB].
  destruct (Hg' _ _ G') as [(w' & Hhd' & Hid' & Hn' & Hs' & Hc') HB'].
  apply hd_error_In, workoutRecords_In in Hhd, Hhd'.
  destruct Hhd as (r & Ir & Wr & Jr), Hhd' as (r' & Ir' & Wr' & Jr').
  destruct (rowsConsistent_workout _ _ _ _ (consistent_across r r' Ir Ir') Wr Wr')
    as (N & S & C & _); [congruence|].
  unfold sameWorkout, toOutput, sortedExercises. simpl.
  repeat split; try congruence.
  now apply (exercises_sameContent wid).
Qed.

Lemma aggregate_sameContent : sameContent (aggregate rows) (aggregate rows').
Proof.
  unfold sameContent, aggregate. apply values_upToOrder.
  - apply buildWorkoutsMap_NoDup.
  - apply buildWorkoutsMap_NoDup.
  - rewrite !buildWorkoutsMap_keys.
    now apply firstSeen_Permutation, workoutIds_Permutation.
  - apply outputs_sameContent.
Qed.
End SameContent.

(** C3, as the program has it.  Whatever the rows, a rearrangement of them
    gives the same workout ids, for each workout the same exercise ids, and
    for each exercise the same sets, up to order.  When the rows are
    consistent (one set of fields per workout id, one name per exercise of a
    workout), the two outputs have the same content up to order: the same
    workouts, each with the same fields, the same exercises by name, and in
    each the same sets.  When the rows moreover leave nothing to the order
    of arrival ([unambiguous]: also one order per exercise of a workout,
    different orders for different exercises of a workout, equal sets under
    equal set numbers of an exercise), the workout of a given id is the
    same record in both outputs, with its exercises and their sets in the
    same order.  The order of the workouts may follow the rows. *)
Theorem reordering_the_rows (rows rows' : list Row)
  (Hperm : Permutation rows rows') :
  (Permutation (map id (aggregate rows)) (map id (aggregate rows')) /\
   forall wid wk wk',
     JsMap.get (buildWorkoutsMap rows) wid = Some wk ->
     JsMap.get (buildWorkoutsMap rows') wid = Some wk' ->
     Permutation (JsMap.keys (wm_exercises wk))
                 (JsMap.keys (wm_exercises wk')) /\
     forall eid x x',
       JsMap.get (wm_exercises wk) eid = Some x ->
       JsMap.get (wm_exercises wk') eid = Some x' ->
       Permutation (sets (dropOrder x)) (sets (dropOrder x'))) /\
  (consistent rows = true ->
   sameContent (aggregate rows) (aggregate rows')) /\
  (unambiguous rows = true ->
   Permutation (aggregate rows) (aggregate rows') /\
   forall wid, outputOf wid (aggregate rows) = outputOf wid (aggregate rows')).
Proof.
  split; [split|split].
  - now apply ids_Permutation.
  - intros wid wk wk' G G'. split.
    + now apply (exercise_keys_Permutation rows rows' Hperm wid).
    + intros eid x x'.
      now apply (exercise_sets_Permutation rows rows' Hperm wid wk wk').
  - intros Hc. now apply aggregate_sameContent.
  - intros Hrows.
    assert (HP : Permutation (aggregate rows) (aggregate rows'))
      by now apply aggregate_Permutation.
    split; auto.
    intros wid. apply find_Permutation; auto;
      rewrite aggregate_ids; apply firstSeen_NoDup.
Qed.

(** ** Sample runs *)

Example end_to_end_scenario :
  aggregate Sample.squatRows =
  [{| id := 1; wx_name := Some "Leg Day"; startedAt := 1756684800000;
      completedAt := None;
      exercises :=
        [{| name := "Squat";
            sets := [{| setNumber := 1; weight := Some "225"; reps := Some 5;
                        durationSeconds := None |};
                     {| setNumber := 2; weight := Some "225"; reps := Some 5;
                        durationSeconds := None |}] |}] |}].
Proof. reflexivity. Qed.

(** Against C3 as stated.  With two exercises of a workout under one
    order, or one exercise linked twice under two orders, the order of the
    exercises of that workout follows the order of the rows; so does the
    order of two sets under one set number.  These rows are consistent, and
    the content is the same up to order.  With rows that name an exercise,
    or a workout, differently, the first row gives the name, and the
    content itself follows the order of the rows. *)
Lemma reordering_shows_in_the_output :
  (Permutation Sample.tiedRows (rev Sample.tiedRows) /\
   consistent Sample.tiedRows = true /\
   option_map (fun o => map name (exercises o))
     (outputOf 1 (aggregate Sample.tiedRows))
     = Some ["Squat"; "Bench Press"] /\
   option_map (fun o => map name (exercises o))
     (outputOf 1 (aggregate (rev Sample.tiedRows)))
     = Some ["Bench Press"; "Squat"]) /\
  (Permutation Sample.twiceRows (rev Sample.twiceRows) /\
   consistent Sample.twiceRows = true /\
   option_map (fun o => map name (exercises o))
     (outputOf 1 (aggregate Sample.twiceRows))
     = Some ["Squat"; "Bench Press"] /\
   option_map (fun o => map name (exercises o))
     (outputOf 1 (aggregate (rev Sample.twiceRows)))
     = Some ["Bench Press"; "Squat"]) /\
  (Permutation Sample.tiedSetRows (rev Sample.tiedSetRows) /\
   consistent Sample.tiedSetRows = true /\
   option_map (fun o => map (fun x => map reps (sets x)) (exercises o))
     (outputOf 1 (aggregate Sample.tiedSetRows)) = Some [[Some 5; Some 8]] /\
   option_map (fun o => map (fun x => map reps (sets x)) (exercises o))
     (outputOf 1 (aggregate (rev Sample.tiedSetRows)))
     = Some [[Some 8; Some 5]]) /\
  (Permutation Sample.renamedRows (rev Sample.renamedRows) /\
   consistent Sample.renamedRows = false /\
   option_map (fun o => map name (exercises o))
     (outputOf 1 (aggregate Sample.renamedRows)) = Some ["Squat"] /\
   option_map (fun o => map name (exercises o))
     (outputOf 1 (aggregate (rev Sample.renamedRows)))
     = Some ["Front Squat"] /\
   ~ sameContent (aggregate Sample.renamedRows)
       (aggregate (rev Sample.renamedRows))) /\
  (Permutation Sample.relabeledRows (rev Sample.relabeledRows) /\
   consistent Sample.relabeledRows = false /\
   option_map wx_name (outputOf 1 (aggregate Sample.relabeledRows))
     = Some (Some "Leg Day") /\
   option_map wx_name (outputOf 1 (aggregate (rev Sample.relabeledRows)))
     = Some (Some "Push Day")) /\
  ~ (forall rows rows' wid,
       Permutation rows rows' ->
       option_map exercises (outputOf wid (aggregate rows)) =
       option_map exercises (outputOf wid (aggregate rows'))).
Proof.
  repeat match goal with
         | |- _ /\ _ => split
         | |- Permutation _ (rev _) => apply Permutation_rev
         | |- _ = _ => reflexivity
         end.
  - intros (l0 & HP & HF).
    vm_compute in HP, HF.
    apply Permutation_length_1_inv in HP. subst l0.
    inversion HF as [|? ? ? ? Hw _]; subst.
    destruct Hw as (_ & _ & _ & _ & (l1 & HP1 & HF1)).
    apply Permutation_length_1_inv in HP1. subst l1.
    inversion HF1 as [|? ? ? ? Hx _]; subst.
    destruct Hx as [Hname _]. discriminate Hname.
  - intros H.
    specialize (H Sample.tiedRows (rev Sample.tiedRows) 1 (Permutation_rev _)).
    vm_compute in H. discriminate.
Qed.


Lemma reordering_the_rows_witness :
  sameContent (aggregate Sample.tiedRows) (aggregate (rev Sample.tiedRows)) /\
  Permutation (aggregate Sample.plainRows) (aggregate (rev Sample.plainRows)) /\
  forall wid,
    outputOf wid (aggregate Sample.plainRows) =
    outputOf wid (aggregate (rev Sample.plainRows)).
Proof.
  split.
  - apply (reordering_the_rows Sample.tiedRows (rev Sample.tiedRows)
             (Permutation_rev _)).
    reflexivity.
  - apply (reordering_the_rows Sample.plainRows (rev Sample.plainRows)
             (Permutation_rev _)).
    reflexivity.
Defined.

Lemma partial_rows_tolerated_witness :
  fst (getWorkoutsForDate 0 (ValidDate 1756700000000) Sample.signedIn) =
    Ok (aggregate
          (runSelection Sample.diary
             {| sel_userId := "user_1"; sel_startOfDay := 1756684800000;
                sel_endOfDay := 1756771199999 |})) /\
  aggregate Sample.partialRows = aggregate [Sample.restRow; Sample.bareRow] /\
  (In (toOutput (newWorkoutEntry Sample.restDay)) (aggregate Sample.partialRows) /\
   exercises (toOutput (newWorkoutEntry Sample.restDay)) = []) /\
  sets (dropOrder (newExerciseEntry Sample.squat (Sample.linkOf 10 100 0))) = [].
Proof.
  destruct (partial_rows_tolerated Sample.partialRows) as (_ & A & B & C & D).
  split; [|split; [|split]].
  - apply (A 0 1756700000000 Sample.signedIn "user_1");
      [reflexivity | discriminate | reflexivity | reflexivity | reflexivity].
  - apply (B [Sample.restRow] Sample.orphanRow [Sample.bareRow]); reflexivity.
  - apply (C 3); [reflexivity|].
    intros r [<-|[<-|[<-|[]]]] H; vm_compute in H; try discriminate; now left.
  - apply (D 1 (withExercises (newWorkoutEntry Sample.legDay)
                  [(100, newExerciseEntry Sample.squat (Sample.linkOf 10 100 0))])
               100);
      [reflexivity | reflexivity |].
    intros r [<-|[<-|[<-|[]]]] H; vm_compute in H; try discriminate;
      reflexivity.
Defined.

Lemma later_rows_only_append_sets_witness :
  (exists e we,
     hd_error (exerciseRecords 1 100 [Sample.firstRow]) = Some (e, we) /\
     x_name Sample.squatEntry = e_name e /\
     x_order Sample.squatEntry = we_order we) /\
  exists wk' x',
    JsMap.get (buildWorkoutsMap ([Sample.firstRow] ++ [Sample.renamedRow])) 1
      = Some wk' /\
    JsMap.get (wm_exercises wk') 100 = Some x' /\
    x_name x' = "Squat" /\
    x_order x' = 0 /\
    x_sets x' = [Sample.firstSet] ++ setsOf 1 100 [Sample.renamedRow].
Proof.
  apply (later_rows_only_append_sets [Sample.firstRow] [Sample.renamedRow]
           1 100 Sample.legDayEntry Sample.squatEntry); reflexivity.
Defined.



(** Where the clocks go forward from 23:00 straight to midnight, the last
    millisecond of the day is skipped and is read as 00:59:59.999 of the
    next day: the clocks are not in order around that day, and the workout
    at the start of the next day is in the result, before the one at the
    start of the day itself. *)
Example clocks_forward_onto_midnight :
  dayBounds SampleZone.northern (ValidDate SampleZone.thirtieth)
  = (ValidDate 1711764000000, ValidDate 1711850399999) /\
  fst (dayBounds SampleZone.northern (ValidDate SampleZone.thirtyFirst))
  = ValidDate 1711846800000 /\
  option_map (map id)
    (match fst (getWorkoutsForDate SampleZone.northern
                  (ValidDate SampleZone.thirtieth) SampleZone.northernWorld)
     with Ok out => Some out | Throw _ => None end)
  = Some [2; 1] /\
  ~ clocksInOrder SampleZone.northern
      (Day (LocalTime SampleZone.northern SampleZone.thirtieth)).
Proof.
  repeat split; try (vm_compute; reflexivity).
  unfold clocksInOrder. vm_compute. intros [_ H]. now apply H.
Qed.

Lemma ordinal_formatting_table_witness :
  formatDateWithOrdinal 0 (newDateYMD 0 2025 8 1) = Ok "1st Sep 2025".
Proof.
  exact (proj1 (ordinal_formatting_table 0 0 ltac:(unfold msPerDay; lia))).
Defined.

Lemma suffix_rules_agree_witness :
  suffix (numberToString 22) = ordinalSuffixMod100 22 /\
  suffix (numberToString 22) = "nd".
Proof.
  destruct (suffix_rules_agree 22 ltac:(lia)) as (A & B & _).
  split; [exact A | exact (B ltac:(lia))].
Defined.

Lemma unauthorized_before_any_query_witness :
  getWorkoutsForDate 0 (ValidDate 1756700000000) Sample.signedOut =
    (Throw {| errorName := "Error"; message := "Unauthorized" |},
     Sample.signedOut) /\
  issued (snd (getWorkoutsForDate 0 (ValidDate 1756700000000) Sample.signedOut))
    = [].
Proof.
  exact (unauthorized_before_any_query 0 (ValidDate 1756700000000)
           Sample.signedOut eq_refl).
Defined.

(** * The other queries, the actions and the forms *)

(** ** The guard *)

Lemma requireUser_signed_in st uid :
  st_session st = Some uid -> uid <> "" -> requireUser st = (Ok uid, st).
Proof.
  intros Hs Hne. unfold requireUser, bindA, authA. rewrite Hs. simpl.
  destruct (String.eqb_spec uid ""); [contradiction | reflexivity].
Qed.

Lemma requireUser_signed_out st :
  notUserId (st_session st) = true -> requireUser st = (Throw unauthorized, st).
Proof.
  intros H. unfold requireUser, bindA, authA. now rewrite H.
Qed.

Lemma requireUser_cases st :
  requireUser st =
  if notUserId (st_session st) then (Throw unauthorized, st)
  else (Ok (match st_session st with Some s => s | None => "" end), st).
Proof.
  unfold requireUser, bindA, authA. now destruct (notUserId (st_session st)).
Qed.

(** Without a user id (none, or an empty one) every query and mutation of
    [date-utils.ts] throws [Error("Unauthorized")] and leaves the store as it
    was. *)
Theorem data_access_requires_user
  (legacyTimestamp : Z -> Z) (st : Store) (workoutId now dbNow : Z)
  (create : CreateWorkoutData) (update : UpdateWorkoutData)
  (Hout : notUserId (st_session st) = true) :
  getAllWorkouts st = (Throw unauthorized, st) /\
  getWorkout workoutId st = (Throw unauthorized, st) /\
  createWorkout legacyTimestamp now dbNow create st = (Throw unauthorized, st) /\
  updateWorkout legacyTimestamp workoutId update st = (Throw unauthorized, st).
Proof.
  unfold getAllWorkouts, getWorkout, createWorkout, updateWorkout, bindA.
  rewrite (requireUser_signed_out st Hout). repeat split.
Qed.

Lemma getWorkout_run st uid workoutId :
  st_session st = Some uid -> uid <> "" ->
  getWorkout workoutId st =
  if int4 workoutId
  then (Ok (hd_error (filter (isWorkoutOf workoutId uid)
                        (tbl_workouts (st_tables st)))), st)
  else (Throw failedQuery, st).
Proof.
  intros Hs Hne. unfold getWorkout, bindA.
  rewrite (requireUser_signed_in st uid Hs Hne).
  now destruct (int4 workoutId).
Qed.

(** ** Reading the workouts of the user *)



Lemma hd_error_filter_None {A} (f : A -> bool) (l : list A) :
  hd_error (filter f l) = None <-> forall a, In a l -> f a = false.
Proof.
  split.
  - intros H a Ha. destruct (f a) eqn:E; auto.
    assert (Hin : In a (filter f l)) by (apply filter_In; auto).
    destruct (filter f l); [contradiction | discriminate].
  - intros H. now rewrite filter_nil_notin.
Qed.

Lemma filter_unique_id (ws : list WorkoutRow) (f : WorkoutRow -> bool) w :
  NoDup (map w_id ws) -> In w ws -> f w = true ->
  (forall w', f w' = true -> w_id w' = w_id w) ->
  filter f ws = [w].
Proof.
  induction ws as [|a ws IH]; simpl; [tauto|].
  intros Hnd Hin Hf Hid. inversion Hnd as [|? ? Hni Hnd']; subst.
  destruct Hin as [->|Hin].
  - rewrite Hf. f_equal. apply filter_nil_notin.
    intros w' Hw'. destruct (f w') eqn:E; auto.
    exfalso. apply Hni. rewrite <- (Hid w' E). now apply in_map.
  - destruct (f a) eqn:E.
    + exfalso. apply Hni. rewrite (Hid a E). now apply in_map.
    + now apply IH.
Qed.

Lemma isWorkoutOf_spec workoutId uid w :
  isWorkoutOf workoutId uid w = true <-> w_id w = workoutId /\ w_userId w = uid.
Proof.
  unfold isWorkoutOf, ownedBy.
  now rewrite andb_true_iff, Z.eqb_eq, String.eqb_eq.
Qed.

(** [getWorkout] changes nothing.  For an id in the range of the column it
    answers only with a workout of the signed-in user under the id asked
    for; it answers [undefined] exactly when the user has no such workout,
    be the id unknown or another user's; and with ids a key, it answers with
    the user's workout of that id.  An id out of the range of the column is
    refused by the database, and the call fails. *)
Theorem getWorkout_own_only
  (st : Store) (uid : string) (workoutId : Z)
  (Hin : st_session st = Some uid) (Hne : uid <> "") :
  (int4 workoutId = true ->
   exists found,
     getWorkout workoutId st = (Ok found, st) /\
     (forall w, found = Some w ->
        In w (tbl_workouts (st_tables st)) /\
        w_id w = workoutId /\ w_userId w = uid) /\
     (found = None <->
      forall w, In w (tbl_workouts (st_tables st)) ->
                w_id w = workoutId -> w_userId w <> uid) /\
     (NoDup (map w_id (tbl_workouts (st_tables st))) ->
      forall w, In w (tbl_workouts (st_tables st)) ->
                w_id w = workoutId -> w_userId w = uid -> found = Some w)) /\
  (int4 workoutId = false ->
   getWorkout workoutId st = (Throw failedQuery, st)).
Proof.
  rewrite (getWorkout_run st uid workoutId Hin Hne).
  split; intros Hid; rewrite Hid; [|reflexivity].
  eexists. split; [reflexivity|].
  split; [|split].
  - intros w H. apply hd_error_In, filter_In in H. destruct H as [Hw Hf].
    apply isWorkoutOf_spec in Hf. tauto.
  - rewrite hd_error_filter_None. split.
    + intros H w Hw Hi Hu.
      specialize (H w Hw). rewrite (proj2 (isWorkoutOf_spec _ _ _)) in H; auto.
      discriminate.
    + intros H w Hw. destruct (isWorkoutOf workoutId uid w) eqn:E; auto.
      apply isWorkoutOf_spec in E. destruct E as [E1 E2].
      exfalso. exact (H w Hw E1 E2).
  - intros Hnd w Hw Hi Hu.
    rewrite (filter_unique_id _ (isWorkoutOf workoutId uid) w); auto.
    + apply isWorkoutOf_spec. auto.
    + intros w' H'. apply isWorkoutOf_spec in H'. destruct H'. congruence.
Qed.

(** ** Creating a workout *)

Lemma existsb_id_false (ws : list WorkoutRow) k :
  (forall w, In w ws -> w_id w < k) -> existsb (fun w => w_id w =? k) ws = false.
Proof.
  intros H. destruct (existsb (fun w => w_id w =? k) ws) eqn:E; auto.
  apply existsb_exists in E. destruct E as (w & Hw & E).
  apply Z.eqb_eq in E. specialize (H w Hw). lia.
Qed.

Lemma readTimestamp_same legacyTimestamp t :
  100 <= getUTCFullYear t -> readTimestamp legacyTimestamp t = t.
Proof.
  intros H. unfold readTimestamp.
  destruct (Z.ltb_spec (getUTCFullYear t) 100); [lia | reflexivity].
Qed.

Lemma createWorkout_added
  (legacyTimestamp : Z -> Z)
  (st : Store) (uid : string) (now dbNow t : Z) (data : CreateWorkoutData)
  (Hin : st_session st = Some uid) (Hne : uid <> "")
  (Hseq : sequenceAhead st)
  (Hid : int4 (st_workoutsSeq st + 1) = true)
  (Hdate : match cw_startedAt data with Some d => d | None => ValidDate now end
           = ValidDate t)
  (Hyear : 1 <= getUTCFullYear t <= 9999) :
  let row := {| w_id := st_workoutsSeq st + 1; w_userId := uid;
                w_name := nameOrNull (cw_name data);
                w_startedAt := readTimestamp legacyTimestamp t;
                w_completedAt := None; w_createdAt := dbNow |} in
  exists st',
    createWorkout legacyTimestamp now dbNow data st = (Ok row, st') /\
    tbl_workouts (st_tables st') = tbl_workouts (st_tables st) ++ [row] /\
    st_session st' = st_session st /\
    st_revalidated st' = st_revalidated st /\
    getWorkout (w_id row) st' = (Ok (Some row), st') /\
    (100 <= getUTCFullYear t -> w_startedAt row = t).
Proof.
  intros row.
  assert (Hfresh : existsb (fun w => w_id w =? st_workoutsSeq st + 1)
                     (tbl_workouts (st_tables st)) = false).
  { apply existsb_id_false. intros w Hw. specialize (Hseq w Hw). lia. }
  apply timestampAccepted_year in Hyear.
  eexists. split.
  { unfold createWorkout, bindA. rewrite (requireUser_signed_in st uid Hin Hne).
    unfold insertWorkout. rewrite Hdate, (toISOTime_accepted _ Hyear), Hyear.
    cbv zeta. rewrite Hfresh. reflexivity. }
  split; [reflexivity|]. split; [reflexivity|]. split; [reflexivity|].
  split; [|intros H; now apply readTimestamp_same].
  erewrite getWorkout_run by (simpl; eauto).
  cbn [w_id row]. rewrite Hid.
  simpl. rewrite filter_app. simpl.
  rewrite filter_nil_notin.
  - unfold isWorkoutOf, ownedBy. simpl.
    now rewrite Z.eqb_refl, String.eqb_refl.
  - intros w Hw. unfold isWorkoutOf.
    specialize (Hseq w Hw).
    destruct (w_id w =? st_workoutsSeq st + 1) eqn:E; auto.
    apply Z.eqb_eq in E. lia.
Qed.

(** With the sequence ahead of the ids in the table, [createWorkout] for a
    signed-in user and a start in the years 1 to 9999 (UTC) adds one row at
    the end of the table: under the next id, owned by the user, with the
    name given ([null] for none or an empty one), not completed, and
    started at the date given or else now, as it is read back: the same
    time from the year 100 on.  It returns that row, and [getWorkout] on
    its id then finds it. *)
Theorem createWorkout_inserts_own_row
  (legacyTimestamp : Z -> Z)
  (st : Store) (uid : string) (now dbNow t : Z) (data : CreateWorkoutData)
  (Hin : st_session st = Some uid) (Hne : uid <> "")
  (Hseq : sequenceAhead st)
  (Hid : int4 (st_workoutsSeq st + 1) = true)
  (Hdate : match cw_startedAt data with Some d => d | None => ValidDate now end
           = ValidDate t)
  (Hyear : 1 <= getUTCFullYear t <= 9999) :
  let row := {| w_id := st_workoutsSeq st + 1; w_userId := uid;
                w_name := nameOrNull (cw_name data);
                w_startedAt := readTimestamp legacyTimestamp t;
                w_completedAt := None; w_createdAt := dbNow |} in
  exists st',
    createWorkout legacyTimestamp now dbNow data st = (Ok row, st') /\
    tbl_workouts (st_tables st') = tbl_workouts (st_tables st) ++ [row] /\
    st_session st' = st_session st /\
    st_revalidated st' = st_revalidated st /\
    getWorkout (w_id row) st' = (Ok (Some row), st') /\
    (100 <= getUTCFullYear t -> w_startedAt row = t).
Proof. eapply createWorkout_added; eassumption. Qed.

Lemma createWorkout_throw_keeps
  (legacyTimestamp : Z -> Z)
  (st st' : Store) (now dbNow : Z) (data : CreateWorkoutData) (e : Error)
  (Hthrow : createWorkout legacyTimestamp now dbNow data st = (Throw e, st')) :
  st_tables st' = st_tables st /\
  st_session st' = st_session st /\
  st_revalidated st' = st_revalidated st /\
  (cw_startedAt data = Some InvalidDate ->
   notUserId (st_session st) = false -> e = invalidTimeValue /\ st' = st).
Proof.
  unfold createWorkout, bindA in Hthrow. rewrite requireUser_cases in Hthrow.
  destruct (notUserId (st_session st)) eqn:Hu.
  { injection Hthrow as <- <-.
    split; [|split; [|split]]; auto. discriminate. }
  unfold insertWorkout in Hthrow.
  destruct (match cw_startedAt data with Some d => d | None => ValidDate now end)
    as [t|] eqn:Hd.
  - assert (Hnot : cw_startedAt data = Some InvalidDate -> False).
    { intros Hinv. rewrite Hinv in Hd. discriminate. }
    destruct (toISOTime (ValidDate t)) as [t'|e'].
    + destruct (timestampAccepted t').
      * cbv zeta in Hthrow.
        destruct (existsb _ _) in Hthrow; [|discriminate].
        injection Hthrow as <- <-. simpl.
        split; [|split; [|split]]; auto. intros Hinv. now destruct Hnot.
      * injection Hthrow as <- <-.
        split; [|split; [|split]]; auto. intros Hinv. now destruct Hnot.
    + injection Hthrow as <- <-.
      split; [|split; [|split]]; auto. intros Hinv. now destruct Hnot.
  - simpl in Hthrow. injection Hthrow as <- <-.
    split; [|split; [|split]]; auto.
Qed.

(** A [createWorkout] that throws has added nothing: the tables, the
    session and the revalidated paths are as before.  With a start date
    that is invalid it throws the [RangeError] of [toISOString]. *)
Theorem createWorkout_refused_adds_nothing
  (legacyTimestamp : Z -> Z)
  (st st' : Store) (now dbNow : Z) (data : CreateWorkoutData) (e : Error)
  (Hthrow : createWorkout legacyTimestamp now dbNow data st = (Throw e, st')) :
  st_tables st' = st_tables st /\
  st_session st' = st_session st /\
  st_revalidated st' = st_revalidated st /\
  (cw_startedAt data = Some InvalidDate ->
   notUserId (st_session st) = false -> e = invalidTimeValue /\ st' = st).
Proof. eapply createWorkout_throw_keeps; eassumption. Qed.

(** ** Updating a workout *)

Lemma withWorkouts_same st : withWorkouts st (tbl_workouts (st_tables st)) = st.
Proof. destruct st as [s [ws wes es ss] q r]. reflexivity. Qed.

Lemma map_if_none {A} (f : A -> bool) (g : A -> A) (l : list A) :
  filter f l = [] -> map (fun a => if f a then g a else a) l = l.
Proof.
  induction l as [|a l IH]; simpl; auto.
  destruct (f a); [discriminate|]. intros H. now rewrite IH.
Qed.

Lemma updateWorkout_run legacyTimestamp st uid workoutId data :
  st_session st = Some uid -> uid <> "" ->
  updateWorkout legacyTimestamp workoutId data st =
  match updateValues data with
  | Throw e => (Throw e, st)
  | Ok v =>
      if valuesAccepted v then
        let ws := tbl_workouts (st_tables st) in
        let st' :=
          withWorkouts st
            (map (fun w => if isWorkoutOf workoutId uid w
                           then applyUpdate legacyTimestamp v w else w) ws) in
        match map (applyUpdate legacyTimestamp v)
                (filter (isWorkoutOf workoutId uid) ws) with
        | updated :: _ => (Ok updated, st')
        | [] => (Throw workoutNotFound, st')
        end
      else (Throw failedQuery, st)
  end.
Proof.
  intros Hs Hne. unfold updateWorkout, bindA.
  now rewrite (requireUser_signed_in st uid Hs Hne).
Qed.

Lemma updateWorkout_throw_same
  (legacyTimestamp : Z -> Z)
  (st st' : Store) (workoutId : Z) (data : UpdateWorkoutData) (e : Error)
  (Hthrow : updateWorkout legacyTimestamp workoutId data st = (Throw e, st')) :
  st' = st.
Proof.
  unfold updateWorkout, bindA in Hthrow. rewrite requireUser_cases in Hthrow.
  destruct (notUserId (st_session st)); [congruence|].
  destruct (updateValues data) as [v|e']; [|congruence].
  destruct (valuesAccepted v); [|congruence].
  cbv zeta in Hthrow.
  match type of Hthrow with
  | context [filter ?f ?l] => destruct (filter f l) as [|w ws] eqn:F
  end; simpl in Hthrow; [|discriminate].
  injection Hthrow as _ <-.
  rewrite map_if_none by exact F. apply withWorkouts_same.
Qed.

(** An [updateWorkout] that throws (no user, nothing to set, an invalid
    date, no workout of the user under the id) leaves the store as it was. *)
Theorem updateWorkout_refused_changes_nothing
  (legacyTimestamp : Z -> Z)
  (st st' : Store) (workoutId : Z) (data : UpdateWorkoutData) (e : Error)
  (Hthrow : updateWorkout legacyTimestamp workoutId data st = (Throw e, st')) :
  st' = st.
Proof. eapply updateWorkout_throw_same; eassumption. Qed.

Lemma updateWorkout_keeps_rows
  (legacyTimestamp : Z -> Z)
  (st : Store) (workoutId : Z) (data : UpdateWorkoutData) :
  let st' := snd (updateWorkout legacyTimestamp workoutId data st) in
  Forall2
    (fun w w' =>
       w_id w' = w_id w /\ w_userId w' = w_userId w /\
       w_createdAt w' = w_createdAt w /\
       (w' <> w -> w_id w = workoutId /\ st_session st = Some (w_userId w)))
    (tbl_workouts (st_tables st)) (tbl_workouts (st_tables st')) /\
  tbl_workoutExercises (st_tables st') = tbl_workoutExercises (st_tables st) /\
  tbl_exercises (st_tables st') = tbl_exercises (st_tables st) /\
  tbl_sets (st_tables st') = tbl_sets (st_tables st) /\
  st_workoutsSeq st' = st_workoutsSeq st /\
  st_revalidated st' = st_revalidated st.
Proof.
  assert (Hsame : forall ws : list WorkoutRow,
             Forall2 (fun w w' =>
                        w_id w' = w_id w /\ w_userId w' = w_userId w /\
                        w_createdAt w' = w_createdAt w /\
                        (w' <> w ->
                         w_id w = workoutId /\
                         st_session st = Some (w_userId w))) ws ws).
  { induction ws; constructor; auto. repeat split; auto; congruence. }
  unfold updateWorkout, bindA. rewrite requireUser_cases.
  destruct (notUserId (st_session st)) eqn:Hu; simpl.
  { repeat split; auto. }
  destruct (updateValues data) as [v|e']; simpl; [|repeat split; auto].
  destruct (valuesAccepted v); simpl; [|repeat split; auto].
  assert (Hs : st_session st =
               Some (match st_session st with Some s => s | None => "" end)).
  { destruct (st_session st); [reflexivity | discriminate]. }
  set (uid := match st_session st with Some s => s | None => "" end) in *.
  assert (HF : Forall2
                 (fun w w' =>
                    w_id w' = w_id w /\ w_userId w' = w_userId w /\
                    w_createdAt w' = w_createdAt w /\
                    (w' <> w ->
                     w_id w = workoutId /\ st_session st = Some (w_userId w)))
                 (tbl_workouts (st_tables st))
                 (map (fun w => if isWorkoutOf workoutId uid w
                                then applyUpdate legacyTimestamp v w else w)
                      (tbl_workouts (st_tables st)))).
  { induction (tbl_workouts (st_tables st)) as [|w ws IH]; simpl; constructor; auto.
    destruct (isWorkoutOf workoutId uid w) eqn:E.
    - apply isWorkoutOf_spec in E. destruct E as [E1 E2].
      repeat split; auto; try (rewrite Hs; now rewrite E2).
    - repeat split; auto; congruence. }
  destruct (map (applyUpdate legacyTimestamp v) _); simpl; repeat split; auto.
Qed.

(** Whatever [updateWorkout] does, the table keeps its rows in place, each
    with its id, owner and creation time; a row that differs afterwards has
    the id asked for and belongs to the user of the session; the other
    tables, the sequence and the revalidated paths stay. *)
Theorem updateWorkout_touches_own_row_only
  (legacyTimestamp : Z -> Z)
  (st : Store) (workoutId : Z) (data : UpdateWorkoutData) :
  let st' := snd (updateWorkout legacyTimestamp workoutId data st) in
  Forall2
    (fun w w' =>
       w_id w' = w_id w /\ w_userId w' = w_userId w /\
       w_createdAt w' = w_createdAt w /\
       (w' <> w -> w_id w = workoutId /\ st_session st = Some (w_userId w)))
    (tbl_workouts (st_tables st)) (tbl_workouts (st_tables st')) /\
  tbl_workoutExercises (st_tables st') = tbl_workoutExercises (st_tables st) /\
  tbl_exercises (st_tables st') = tbl_exercises (st_tables st) /\
  tbl_sets (st_tables st') = tbl_sets (st_tables st) /\
  st_workoutsSeq st' = st_workoutsSeq st /\
  st_revalidated st' = st_revalidated st.
Proof. apply updateWorkout_keeps_rows. Qed.

Lemma toISOTime_Ok date t : toISOTime date = Ok t -> date = ValidDate t.
Proof.
  destruct date as [t0|]; simpl; [|discriminate].
  unfold TimeClip. destruct (Z.abs t0 <=? maxTime); [|discriminate].
  now intros [= ->].
Qed.

(** The values sent are those given. *)
Lemma updateValues_fields data v :
  updateValues data = Ok v ->
  uv_name v = uw_name data /\
  (uw_startedAt data = None -> uv_startedAt v = None) /\
  (forall t, uw_startedAt data = Some (ValidDate t) ->
             uv_startedAt v = Some t) /\
  (uw_completedAt data = None -> uv_completedAt v = None) /\
  (uw_completedAt data = Some None -> uv_completedAt v = Some None) /\
  (forall t, uw_completedAt data = Some (Some (ValidDate t)) ->
             uv_completedAt v = Some (Some t)).
Proof.
  unfold updateValues. intros Hv.
  assert (H : bindResult
                (match uw_startedAt data with
                 | Some d => bindResult (toISOTime d) (fun t => Ok (Some t))
                 | None => Ok None
                 end)
                (fun startedAt =>
                   bindResult
                     (match uw_completedAt data with
                      | Some (Some d) =>
                          bindResult (toISOTime d) (fun t => Ok (Some (Some t)))
                      | Some None => Ok (Some None)
                      | None => Ok None
                      end)
                     (fun completedAt =>
                        Ok {| uv_name := uw_name data;
                              uv_startedAt := startedAt;
                              uv_completedAt := completedAt |})) = Ok v).
  { destruct (uw_name data), (uw_startedAt data), (uw_completedAt data);
      try exact Hv; discriminate. }
  clear Hv.
  destruct (uw_startedAt data) as [d|]; simpl in H.
  - destruct (toISOTime d) as [t1|] eqn:E1; simpl in H; [|discriminate].
    apply toISOTime_Ok in E1. subst d.
    destruct (uw_completedAt data) as [[c|]|]; simpl in H.
    + destruct (toISOTime c) as [t2|] eqn:E2; simpl in H; [|discriminate].
      apply toISOTime_Ok in E2. subst c. injection H as <-. simpl.
      repeat split; try discriminate; intros; congruence.
    + injection H as <-. simpl.
      repeat split; try discriminate; intros; congruence.
    + injection H as <-. simpl.
      repeat split; try discriminate; intros; congruence.
  - destruct (uw_completedAt data) as [[c|]|]; simpl in H.
    + destruct (toISOTime c) as [t2|] eqn:E2; simpl in H; [|discriminate].
      apply toISOTime_Ok in E2. subst c. injection H as <-. simpl.
      repeat split; try discriminate; intros; congruence.
    + injection H as <-. simpl.
      repeat split; try discriminate; intros; congruence.
    + injection H as <-. simpl.
      repeat split; try discriminate; intros; congruence.
Qed.

Lemma updateWorkout_found
  (legacyTimestamp : Z -> Z)
  (st : Store) (uid : string) (data : UpdateWorkoutData) (v : UpdateValues)
  (w : WorkoutRow)
  (Hin : st_session st = Some uid) (Hne : uid <> "")
  (Hkey : NoDup (map w_id (tbl_workouts (st_tables st))))
  (Hw : In w (tbl_workouts (st_tables st)))
  (Hown : w_userId w = uid)
  (Hid : int4 (w_id w) = true)
  (Hv : updateValues data = Ok v)
  (Hacc : valuesAccepted v = true) :
  let updated := applyUpdate legacyTimestamp v w in
  exists st',
    updateWorkout legacyTimestamp (w_id w) data st = (Ok updated, st') /\
    getWorkout (w_id w) st' = (Ok (Some updated), st') /\
    w_name updated
      = match uw_name data with Some n => n | None => w_name w end /\
    (uw_startedAt data = None -> w_startedAt updated = w_startedAt w) /\
    (forall t, uw_startedAt data = Some (ValidDate t) ->
               100 <= getUTCFullYear t -> w_startedAt updated = t) /\
    (uw_completedAt data = None -> w_completedAt updated = w_completedAt w) /\
    (uw_completedAt data = Some None -> w_completedAt updated = None) /\
    (forall t, uw_completedAt data = Some (Some (ValidDate t)) ->
               100 <= getUTCFullYear t -> w_completedAt updated = Some t).
Proof.
  intros updated.
  assert (Hf : isWorkoutOf (w_id w) uid w = true)
    by (apply isWorkoutOf_spec; auto).
  assert (Hsame : forall w', isWorkoutOf (w_id w) uid w' = true -> w_id w' = w_id w).
  { intros w' H. apply isWorkoutOf_spec in H. tauto. }
  eexists. split.
  { rewrite (updateWorkout_run _ st uid _ _ Hin Hne), Hv, Hacc. cbv zeta.
    rewrite (filter_unique_id _ _ w Hkey Hw Hf Hsame). reflexivity. }
  split.
  { erewrite getWorkout_run by (simpl; eauto). rewrite Hid. simpl.
    rewrite (filter_unique_id _ _ (applyUpdate legacyTimestamp v w)); auto.
    - rewrite map_map.
      erewrite map_ext; [exact Hkey|].
      intros a. simpl. now destruct (isWorkoutOf (w_id w) uid a).
    - apply in_map_iff. exists w. now rewrite Hf. }
  destruct (updateValues_fields data v Hv) as (Fn & Fs0 & Fs1 & Fc0 & Fc1 & Fc2).
  unfold updated, applyUpdate. simpl.
  split; [now rewrite Fn|].
  split; [intros H; now rewrite (Fs0 H)|].
  split; [intros t H Hy; rewrite (Fs1 t H); now apply readTimestamp_same|].
  split; [intros H; now rewrite (Fc0 H)|].
  split; [intros H; now rewrite (Fc1 H)|].
  intros t H Hy. rewrite (Fc2 t H). simpl. f_equal.
  now apply readTimestamp_same.
Qed.

(** With ids a key, [updateWorkout] on a workout of the signed-in user,
    with timestamps that the database reads (years 1 to 9999), returns the
    row with the values given put in and the others kept, and [getWorkout]
    then answers with that row; a timestamp given comes back as the same
    time from the year 100 on. *)
Theorem updateWorkout_then_getWorkout
  (legacyTimestamp : Z -> Z)
  (st : Store) (uid : string) (data : UpdateWorkoutData) (v : UpdateValues)
  (w : WorkoutRow)
  (Hin : st_session st = Some uid) (Hne : uid <> "")
  (Hkey : NoDup (map w_id (tbl_workouts (st_tables st))))
  (Hw : In w (tbl_workouts (st_tables st)))
  (Hown : w_userId w = uid)
  (Hid : int4 (w_id w) = true)
  (Hv : updateValues data = Ok v)
  (Hacc : valuesAccepted v = true) :
  let updated := applyUpdate legacyTimestamp v w in
  exists st',
    updateWorkout legacyTimestamp (w_id w) data st = (Ok updated, st') /\
    getWorkout (w_id w) st' = (Ok (Some updated), st') /\
    w_name updated
      = match uw_name data with Some n => n | None => w_name w end /\
    (uw_startedAt data = None -> w_startedAt updated = w_startedAt w) /\
    (forall t, uw_startedAt data = Some (ValidDate t) ->
               100 <= getUTCFullYear t -> w_startedAt updated = t) /\
    (uw_completedAt data = None -> w_completedAt updated = w_completedAt w) /\
    (uw_completedAt data = Some None -> w_completedAt updated = None) /\
    (forall t, uw_completedAt data = Some (Some (ValidDate t)) ->
               100 <= getUTCFullYear t -> w_completedAt updated = Some t).
Proof. eapply updateWorkout_found; eassumption. Qed.

(** ** The key of the workouts *)

Lemma NoDup_snoc {A} (l : list A) (a : A) :
  NoDup l -> ~ In a l -> NoDup (l ++ [a]).
Proof.
  intros Hnd Hni. apply NoDup_app; auto.
  - repeat constructor. simpl. tauto.
  - intros x Hx [->|[]]. contradiction.
Qed.

Lemma Forall2_same_ids (l l' : list WorkoutRow) :
  Forall2 (fun w w' => w_id w' = w_id w) l l' -> map w_id l' = map w_id l.
Proof. induction 1; simpl; congruence. Qed.

(** [createWorkout] and [updateWorkout] keep the workout ids distinct, and
    keep the sequence ahead of them when it was. *)
Theorem workout_ids_stay_a_key
  (legacyTimestamp : Z -> Z) (st : Store) (now dbNow workoutId : Z)
  (create : CreateWorkoutData) (update : UpdateWorkoutData)
  (Hkey : NoDup (map w_id (tbl_workouts (st_tables st)))) :
  let created := snd (createWorkout legacyTimestamp now dbNow create st) in
  let updated := snd (updateWorkout legacyTimestamp workoutId update st) in
  NoDup (map w_id (tbl_workouts (st_tables created))) /\
  NoDup (map w_id (tbl_workouts (st_tables updated))) /\
  (sequenceAhead st -> sequenceAhead created /\ sequenceAhead updated).
Proof.
  intros created updated.
  assert (Hupd : map w_id (tbl_workouts (st_tables updated))
                 = map w_id (tbl_workouts (st_tables st))
                 /\ st_workoutsSeq updated = st_workoutsSeq st).
  { destruct (updateWorkout_keeps_rows legacyTimestamp st workoutId update)
      as (HF & _ & _ & _ & Hq & _).
    split; [|exact Hq]. unfold updated.
    eapply Forall2_same_ids, Forall2_impl; [|exact HF].
    simpl. tauto. }
  destruct Hupd as [Hids Hq].
  assert (Hcre :
    (tbl_workouts (st_tables created) = tbl_workouts (st_tables st)
     /\ st_workoutsSeq st <= st_workoutsSeq created)
    \/ (exists row,
          tbl_workouts (st_tables created) = tbl_workouts (st_tables st) ++ [row]
          /\ w_id row = st_workoutsSeq created
          /\ st_workoutsSeq created = st_workoutsSeq st + 1
          /\ ~ In (w_id row) (map w_id (tbl_workouts (st_tables st))))).
  { unfold created, createWorkout, bindA. rewrite requireUser_cases.
    destruct (notUserId (st_session st)); simpl; [left; split; auto; lia|].
    unfold insertWorkout.
    destruct (toISOTime _) as [t|]; simpl; [|left; split; auto; lia].
    destruct (timestampAccepted t); simpl; [|left; split; auto; lia].
    destruct (existsb _ _) eqn:E; simpl; [left; split; auto; lia|].
    right. eexists. repeat split.
    intros Hi. apply in_map_iff in Hi. destruct Hi as (w & Hid & Hw).
    assert (existsb (fun w => w_id w =? st_workoutsSeq st + 1)
              (tbl_workouts (st_tables st)) = true).
    { apply existsb_exists. exists w. split; auto. now apply Z.eqb_eq. }
    congruence. }
  split; [|split].
  - destruct Hcre as [[-> _]|(row & -> & _ & _ & Hni)]; auto.
    rewrite map_app. simpl. now apply NoDup_snoc.
  - now rewrite Hids.
  - intros Hseq. split.
    + intros w Hw.
      destruct Hcre as [[E Hle]|(row & E & Hr & Hq' & _)]; rewrite E in Hw.
      * specialize (Hseq w Hw). lia.
      * apply in_app_iff in Hw. destruct Hw as [Hw|[<-|[]]]; [|lia].
        specialize (Hseq w Hw). lia.
    + intros w Hw. rewrite Hq.
      assert (Hi : In (w_id w) (map w_id (tbl_workouts (st_tables st)))).
      { rewrite <- Hids. now apply in_map. }
      apply in_map_iff in Hi. destruct Hi as (w0 & E0 & Hw0).
      rewrite <- E0. now apply Hseq.
Qed.

(** ** The server actions *)

Section ActionFacts.
Variable legacyTimestamp : Z -> Z.
Variable otherForms : string -> JsDate.
Variable localTZA : Z.

(** The actions never throw: what goes wrong below them comes back as a
    failure with the message of the error, and then the tables are as
    before and no path has been revalidated.  A success has revalidated the
    dashboard, and for an update also the page of the workout. *)
Theorem actions_report_instead_of_throwing
  (now dbNow : Z) (create : CreateWorkoutInput) (update : UpdateWorkoutInput)
  (st : Store) :
  (exists r st',
     createWorkoutAction legacyTimestamp otherForms localTZA now dbNow create st = (Ok r, st') /\
     match r with
     | ActionFailure _ =>
         st_tables st' = st_tables st /\
         st_revalidated st' = st_revalidated st
     | ActionSuccess _ =>
         st_revalidated st' = st_revalidated st ++ ["/dashboard"]
     end) /\
  (exists r st',
     updateWorkoutAction legacyTimestamp otherForms localTZA update st = (Ok r, st') /\
     match r with
     | ActionFailure _ => st' = st
     | ActionSuccess _ =>
         st_revalidated st' =
         st_revalidated st
         ++ ["/dashboard";
             ("/dashboard/workout/" ++ numberToString (ui_id update))%string]
     end).
Proof.
  split.
  - unfold createWorkoutAction, catchA, bindA.
    match goal with
    | |- context [createWorkout ?l ?n ?d ?x st] =>
        destruct (createWorkout l n d x st) as [[w|e] st1] eqn:E
    end.
    + do 2 eexists. split; [reflexivity|]. simpl.
      unfold createWorkout, bindA in E. rewrite requireUser_cases in E.
      destruct (notUserId (st_session st)); [discriminate|].
      unfold insertWorkout in E.
      destruct (toISOTime _) in E; [|discriminate].
      destruct (timestampAccepted _) in E; [|discriminate].
      cbv zeta in E.
      destruct (existsb _ _) in E; [discriminate|].
      injection E as _ <-. reflexivity.
    + do 2 eexists. split; [reflexivity|]. simpl.
      destruct (createWorkout_throw_keeps _ _ _ _ _ _ _ E) as (H1 & _ & H3 & _).
      auto.
  - unfold updateWorkoutAction, catchA, bindA.
    match goal with
    | |- context [updateWorkout ?l ?i ?x st] =>
        destruct (updateWorkout l i x st) as [[w|e] st1] eqn:E
    end.
    + do 2 eexists. split; [reflexivity|]. simpl.
      pose proof (updateWorkout_keeps_rows legacyTimestamp st (ui_id update)) as K.
      match type of E with
      | updateWorkout _ _ ?x _ = _ => specialize (K x)
      end.
      rewrite E in K. simpl in K. destruct K as (_ & _ & _ & _ & _ & ->).
      now rewrite <- app_assoc.
    + do 2 eexists. split; [reflexivity|]. simpl.
      eapply updateWorkout_throw_same; eauto.
Qed.

(** Without a user id both actions fail with the message [Unauthorized]
    and change nothing. *)
Theorem actions_refuse_without_user
  (now dbNow : Z) (create : CreateWorkoutInput) (update : UpdateWorkoutInput)
  (st : Store)
  (Hout : notUserId (st_session st) = true) :
  createWorkoutAction legacyTimestamp otherForms localTZA now dbNow create st
    = (Ok (ActionFailure "Unauthorized"), st) /\
  updateWorkoutAction legacyTimestamp otherForms localTZA update st
    = (Ok (ActionFailure "Unauthorized"), st).
Proof.
  unfold createWorkoutAction, updateWorkoutAction, catchA, bindA,
    createWorkout, updateWorkout, bindA.
  rewrite (requireUser_signed_out st Hout). split; reflexivity.
Qed.
End ActionFacts.

(** ** The calendar, in general *)

Lemma everyDay_spec n z check :
  everyDay n z check = true ->
  forall k, z <= k < z + Z.of_nat n -> check k = true.
Proof.
  revert z. induction n as [|n IH]; intros z H k Hk.
  - simpl in Hk. lia.
  - simpl in H. apply andb_true_iff in H. destruct H as [H0 H1].
    destruct (Z.eq_dec k z) as [->|Hne]; auto.
    apply (IH (z + 1)); auto. lia.
Qed.

Lemma daysFromCivil_shift y m d k :
  daysFromCivil (y + 400 * k) m d = daysFromCivil y m d + 146097 * k.
Proof.
  unfold daysFromCivil. cbv zeta.
  destruct (m <=? 2).
  - replace (y + 400 * k - 1) with (y - 1 + k * 400) by lia.
    rewrite Z.div_add by lia.
    replace (y - 1 + k * 400 - ((y - 1) / 400 + k) * 400)
      with (y - 1 - (y - 1) / 400 * 400) by lia.
    lia.
  - replace (y + 400 * k) with (y + k * 400) by lia.
    rewrite Z.div_add by lia.
    replace (y + k * 400 - (y / 400 + k) * 400)
      with (y - y / 400 * 400) by lia.
    lia.
Qed.

Lemma civilFromDays_shift z k :
  civilFromDays (z + 146097 * k) =
  let '(y, m, d) := civilFromDays z in (y + 400 * k, m, d).
Proof.
  unfold civilFromDays. cbv zeta.
  replace (z + 146097 * k + 719468) with (z + 719468 + k * 146097) by lia.
  rewrite Z.div_add by lia.
  replace (z + 719468 + k * 146097 - ((z + 719468) / 146097 + k) * 146097)
    with (z + 719468 - (z + 719468) / 146097 * 146097) by lia.
  f_equal. f_equal. lia.
Qed.

Lemma MakeDay_in_year y m d :
  1 <= m <= 12 -> MakeDay y (m - 1) d = daysFromCivil y m d.
Proof.
  intros Hm. unfold MakeDay.
  rewrite Z.div_small, Z.mod_small by lia.
  replace (y + 0) with y by lia. replace (m - 1 + 1) with m by lia.
  unfold daysFromCivil. lia.
Qed.

Lemma MakeDay_shift y m d k :
  MakeDay (y + 400 * k) m d = MakeDay y m d + 146097 * k.
Proof.
  unfold MakeDay.
  replace (y + 400 * k + m / 12) with (y + m / 12 + 400 * k) by lia.
  rewrite daysFromCivil_shift. lia.
Qed.

Lemma daysInMonth_shift y m k : daysInMonth (y + 400 * k) m = daysInMonth y m.
Proof. unfold daysInMonth. rewrite !MakeDay_shift. lia. Qed.

(** One cycle of 400 years, day by day. *)
Lemma calendar_cycle :
  everyDay (Z.to_nat 146097) (-719468)
    (fun z =>
       let '(y, m, d) := civilFromDays z in
       (daysFromCivil y m d =? z)
       && (1 <=? m) && (m <=? 12) && (1 <=? d)
       && (d <=? daysInMonth y m) && (daysInMonth y m <=? 31)) = true.
Proof. vm_compute. reflexivity. Qed.

(** Every day number is read as a date of the calendar, whose fields build
    the day number back. *)
Lemma civil_round_trip z :
  let '(y, m, d) := civilFromDays z in
  MakeDay y (m - 1) d = z /\
  1 <= m <= 12 /\ 1 <= d <= daysInMonth y m /\ daysInMonth y m <= 31.
Proof.
  pose (k := (z + 719468) / 146097).
  pose (z0 := z - 146097 * k).
  assert (Hr : -719468 <= z0 < -719468 + Z.of_nat (Z.to_nat 146097)).
  { rewrite Z2Nat.id by lia. unfold z0, k.
    pose proof (Z.div_mod (z + 719468) 146097 ltac:(lia)) as D.
    pose proof (Z.mod_pos_bound (z + 719468) 146097 ltac:(lia)) as B.
    lia. }
  pose proof (everyDay_spec _ _ _ calendar_cycle z0 Hr) as C.
  cbv beta in C.
  replace z with (z0 + 146097 * k) by (unfold z0; lia).
  rewrite civilFromDays_shift.
  destruct (civilFromDays z0) as [[y m] d].
  repeat (apply andb_true_iff in C; destruct C as [C ?]).
  apply Z.eqb_eq in C.
  repeat match goal with
         | H : (_ <=? _) = true |- _ => apply Z.leb_le in H
         end.
  rewrite daysInMonth_shift, MakeDay_in_year, daysFromCivil_shift by lia.
  lia.
Qed.

(** ** Hours and minutes of a day *)

Lemma time_fields_bounds t :
  0 <= HourFromTime t <= 23 /\ 0 <= MinFromTime t <= 59.
Proof.
  unfold HourFromTime, MinFromTime.
  pose proof (Z.mod_pos_bound (t / msPerHour) 24 ltac:(lia)).
  pose proof (Z.mod_pos_bound (t / msPerMinute) 60 ltac:(lia)).
  lia.
Qed.

Lemma time_fields_rebuild t :
  MakeDate (Day t) (MakeTime (HourFromTime t) (MinFromTime t) 0 0) =
  t - t mod msPerMinute.
Proof.
  unfold MakeDate, Day, MakeTime, HourFromTime, MinFromTime,
    msPerDay, msPerHour, msPerMinute.
  rewrite (Z.mod_eq t 60000) by lia.
  replace 86400000 with (3600000 * 24) by reflexivity.
  rewrite <- (Z.div_div t 3600000 24) by lia.
  replace 3600000 with (60000 * 60) by reflexivity.
  rewrite <- (Z.div_div t 60000 60) by lia.
  generalize (t / 60000). intros q.
  pose proof (Z.div_mod q 60 ltac:(lia)).
  pose proof (Z.div_mod (q / 60) 24 ltac:(lia)).
  lia.
Qed.

(** ** Numerals of fixed width *)

Lemma twoDigitShape_spec render n :
  twoDigitShape render n = true ->
  exists a b, render n = String a (String b EmptyString) /\
              twoDigits a b = Some n.
Proof.
  unfold twoDigitShape.
  destruct (render n) as [|a [|b [|c s]]]; try discriminate.
  destruct (twoDigits a b) as [v|] eqn:E; [|discriminate].
  intros H. apply Z.eqb_eq in H. subst v. eauto.
Qed.

Lemma fourDigitShape_spec render n :
  fourDigitShape render n = true ->
  exists a b c d,
    render n = String a (String b (String c (String d EmptyString))) /\
    fourDigits a b c d = Some n.
Proof.
  unfold fourDigitShape.
  destruct (render n) as [|a [|b [|c [|d [|e s]]]]]; try discriminate.
  destruct (fourDigits a b c d) as [v|] eqn:E; [|discriminate].
  intros H. apply Z.eqb_eq in H. subst v. do 4 eexists. eauto.
Qed.

Lemma addLeadingZeros_two n :
  0 <= n <= 99 ->
  exists a b, addLeadingZeros n 2 = String a (String b EmptyString) /\
              twoDigits a b = Some n.
Proof.
  intros H. apply (twoDigitShape_spec (fun k => addLeadingZeros k 2)).
  apply (everyDay_spec (Z.to_nat 100) 0); [vm_compute; reflexivity|].
  rewrite Z2Nat.id; lia.
Qed.

Lemma padStart2_two n :
  0 <= n <= 99 ->
  exists a b, padStart2 n = String a (String b EmptyString) /\
              twoDigits a b = Some n.
Proof.
  intros H. apply (twoDigitShape_spec padStart2).
  apply (everyDay_spec (Z.to_nat 100) 0); [vm_compute; reflexivity|].
  rewrite Z2Nat.id; lia.
Qed.

Lemma addLeadingZeros_four n :
  0 <= n <= 9999 ->
  exists a b c d,
    addLeadingZeros n 4 = String a (String b (String c (String d EmptyString))) /\
    fourDigits a b c d = Some n.
Proof.
  intros H. apply (fourDigitShape_spec (fun k => addLeadingZeros k 4)).
  apply (everyDay_spec (Z.to_nat 10000) 0); [vm_compute; reflexivity|].
  rewrite Z2Nat.id; lia.
Qed.

Lemma numberToString_four n :
  1000 <= n <= 9999 ->
  exists a b c d,
    numberToString n = String a (String b (String c (String d EmptyString))) /\
    fourDigits a b c d = Some n.
Proof.
  intros H. apply (fourDigitShape_spec numberToString).
  apply (everyDay_spec (Z.to_nat 9000) 1000); [vm_compute; reflexivity|].
  rewrite Z2Nat.id; lia.
Qed.

(** ** A time through a [datetime-local] field *)

Lemma local_fields (localTZA : Z) t :
  let lt := LocalTime localTZA t in
  let '(y, m, d) := civilFromDays (Day lt) in
  getFullYear localTZA t = y /\ getMonth localTZA t + 1 = m /\
  getDate localTZA t = d /\
  MakeDay y (m - 1) d = Day lt /\
  1 <= m <= 12 /\ 1 <= d <= daysInMonth y m /\ daysInMonth y m <= 31.
Proof.
  intros lt. unfold getFullYear, getMonth, getDate. fold lt.
  pose proof (civil_round_trip (Day lt)) as R.
  destruct (civilFromDays (Day lt)) as [[y m] d].
  repeat split; try tauto; lia.
Qed.

Lemma datetime_local_reads_back otherForms (localTZA serverTZA : Z) t :
  1 <= getFullYear localTZA t <= 9999 ->
  newDateFromString otherForms serverTZA (formatDateTimeLocal localTZA t)
  = ValidDate (rereadMinute localTZA serverTZA t).
Proof.
  intros Hy.
  pose proof (local_fields localTZA t) as F. cbv zeta in F.
  destruct (civilFromDays (Day (LocalTime localTZA t))) as [[y m] d] eqn:Ec.
  destruct F as (Fy & Fm & Fd & Fday & Hm & Hd & H31).
  pose proof (time_fields_bounds (LocalTime localTZA t)) as [Hh Hn].
  unfold formatDateTimeLocal.
  rewrite Fy in *. rewrite Fm, Fd.
  destruct (y >? 0) eqn:Epos; [|rewrite Z.gtb_ltb, Z.ltb_ge in Epos; lia].
  destruct (addLeadingZeros_four y) as (y1 & y2 & y3 & y4 & -> & Ey); [lia|].
  destruct (addLeadingZeros_two m) as (m1 & m2 & -> & Em); [lia|].
  destruct (addLeadingZeros_two d) as (d1 & d2 & -> & Ed); [lia|].
  destruct (addLeadingZeros_two (getHours localTZA t))
    as (h1 & h2 & -> & Eh); [unfold getHours; lia|].
  destruct (addLeadingZeros_two (getMinutes localTZA t))
    as (n1 & n2 & -> & En); [unfold getMinutes; lia|].
  unfold newDateFromString. simpl readDateTimeLocal.
  rewrite Ey, Em, Ed, Eh, En.
  assert (Hok : (1 <=? m) && (m <=? 12) && (1 <=? d) && (d <=? daysInMonth y m)
                && (getHours localTZA t <=? 23)
                && (getMinutes localTZA t <=? 59) = true).
  { unfold getHours, getMinutes.
    repeat (apply andb_true_iff; split); apply Z.leb_le; lia. }
  rewrite Hok, Fday. unfold getHours, getMinutes.
  rewrite time_fields_rebuild.
  unfold rereadMinute, startOfMinute, UTC, LocalTime, fixedZone.
  f_equal. lia.
Qed.

Lemma rereadMinute_same (localTZA : Z) t :
  rereadMinute localTZA localTZA t = startOfMinute localTZA t.
Proof. unfold rereadMinute. lia. Qed.

Lemma startOfMinute_local (localTZA : Z) t :
  LocalTime localTZA (startOfMinute localTZA t) =
  msPerMinute * (LocalTime localTZA t / msPerMinute).
Proof.
  unfold startOfMinute, LocalTime, fixedZone, msPerMinute.
  rewrite (Z.mod_eq (t + localTZA) 60000) by lia. lia.
Qed.

Lemma startOfMinute_fields (localTZA : Z) t :
  Day (LocalTime localTZA (startOfMinute localTZA t)) = Day (LocalTime localTZA t) /\
  getHours localTZA (startOfMinute localTZA t) = getHours localTZA t /\
  getMinutes localTZA (startOfMinute localTZA t) = getMinutes localTZA t.
Proof.
  unfold getHours, getMinutes. rewrite startOfMinute_local.
  generalize (LocalTime localTZA t). intros lt.
  unfold Day, HourFromTime, MinFromTime, msPerDay, msPerHour, msPerMinute.
  replace 86400000 with (60000 * 1440) by reflexivity.
  replace 3600000 with (60000 * 60) by reflexivity.
  rewrite <- !(Z.div_div _ 60000) by lia.
  replace (60000 * (lt / 60000)) with (lt / 60000 * 60000) by lia.
  rewrite !Z.div_mul by lia. auto.
Qed.

Lemma formatDateTimeLocal_startOfMinute (localTZA : Z) t :
  formatDateTimeLocal localTZA (startOfMinute localTZA t) =
  formatDateTimeLocal localTZA t.
Proof.
  destruct (startOfMinute_fields localTZA t) as (Hd & Hh & Hn).
  unfold formatDateTimeLocal, getFullYear, getMonth, getDate.
  now rewrite Hd, Hh, Hn.
Qed.

Lemma formatDateTimeLocal_not_empty (localTZA : Z) t :
  1 <= getFullYear localTZA t <= 9999 ->
  formatDateTimeLocal localTZA t <> EmptyString.
Proof.
  intros Hy. unfold formatDateTimeLocal.
  destruct (getFullYear localTZA t >? 0) eqn:Epos;
    [|rewrite Z.gtb_ltb, Z.ltb_ge in Epos; lia].
  destruct (addLeadingZeros_four (getFullYear localTZA t))
    as (y1 & y2 & y3 & y4 & -> & _); [lia|].
  discriminate.
Qed.

(** The value of a [datetime-local] field, as the forms make it from a time
    in the years 1 to 9999, is read back by [new Date] as the start of the
    minute of that time (in a zone at a fixed offset): at most a minute
    earlier, and shown as the same value again. *)
Theorem datetime_local_round_trip
  (otherForms : string -> JsDate) (localTZA t : Z)
  (Hyear : 1 <= getFullYear localTZA t <= 9999) :
  newDateFromString otherForms localTZA (formatDateTimeLocal localTZA t)
    = ValidDate (startOfMinute localTZA t) /\
  startOfMinute localTZA t <= t < startOfMinute localTZA t + msPerMinute /\
  formatDateTimeLocal localTZA (startOfMinute localTZA t)
    = formatDateTimeLocal localTZA t.
Proof.
  split.
  { rewrite (datetime_local_reads_back otherForms localTZA localTZA t Hyear).
    now rewrite rereadMinute_same. }
  split; [|apply formatDateTimeLocal_startOfMinute].
  unfold startOfMinute, msPerMinute.
  pose proof (Z.mod_pos_bound (t + localTZA) 60000 ltac:(lia)). lia.
Qed.

(** ** The forms *)

Lemma getWorkout_same_tables workoutId st st2 found :
  getWorkout workoutId st = (Ok found, st) ->
  st_session st2 = st_session st -> st_tables st2 = st_tables st ->
  getWorkout workoutId st2 = (Ok found, st2).
Proof.
  unfold getWorkout, bindA. rewrite !requireUser_cases.
  intros H Hs Ht. rewrite Hs.
  destruct (notUserId (st_session st)); [discriminate|].
  destruct (int4 workoutId); [|discriminate].
  rewrite Ht. injection H as H. now rewrite H.
Qed.

Lemma stringOrNull_name (n : option string) :
  stringOrNull match n with
               | Some EmptyString => ""
               | Some s => s
               | None => ""
               end = nameOrNull n.
Proof. destruct n as [[|c s]|]; reflexivity. Qed.

Lemma nameOrNull_stringOrNull s : nameOrNull (stringOrNull s) = stringOrNull s.
Proof. now destruct s. Qed.

Lemma accepted_from_100 t :
  100 <= getUTCFullYear t <= 9999 -> timestampAccepted t = true.
Proof. intros H. apply timestampAccepted_year. lia. Qed.

Section FormFacts.
Variable legacyTimestamp : Z -> Z.
Variable otherForms : string -> JsDate.
Variables browserTZA serverTZA : Z.

Local Abbreviation reread := (rereadMinute browserTZA serverTZA).

(** What the server reads from a field that the browser filled. *)
Lemma read_field t :
  1 <= getFullYear browserTZA t <= 9999 ->
  match formatDateTimeLocal browserTZA t with
  | EmptyString => None
  | s => Some (newDateFromString otherForms serverTZA s)
  end = Some (ValidDate (reread t)).
Proof.
  intros Hy.
  pose proof (formatDateTimeLocal_not_empty browserTZA t Hy) as Hne.
  pose proof (datetime_local_reads_back otherForms browserTZA serverTZA t Hy) as Hr.
  destruct (formatDateTimeLocal browserTZA t); [contradiction|].
  now rewrite Hr.
Qed.

(** Saving the edit form as it opened in the browser, by the owner of the
    workout (ids a key; start and completion in the years 1 to 9999 as the
    browser shows them, and in the years 100 to 9999 of UTC as the server
    reads them): the action succeeds, and the workout then has its start
    and its completion at the start of their minute, moved by the
    difference between the offset of the browser and that of the server,
    and an empty name replaced by [null]; the rest is kept.  With the two
    at one offset, nothing but the seconds is lost. *)
Theorem edit_form_saved_untouched
  (st : Store) (uid : string) (w : WorkoutRow)
  (Hin : st_session st = Some uid) (Hne : uid <> "")
  (Hkey : NoDup (map w_id (tbl_workouts (st_tables st))))
  (Hw : In w (tbl_workouts (st_tables st)))
  (Hown : w_userId w = uid)
  (Hid : int4 (w_id w) = true)
  (Hstart : 1 <= getFullYear browserTZA (w_startedAt w) <= 9999)
  (Hsent : 100 <= getUTCFullYear (reread (w_startedAt w)) <= 9999)
  (Hdone : forall c, w_completedAt w = Some c ->
                     1 <= getFullYear browserTZA c <= 9999 /\
                     100 <= getUTCFullYear (reread c) <= 9999) :
  let saved :=
    {| w_id := w_id w; w_userId := w_userId w;
       w_name := nameOrNull (w_name w);
       w_startedAt := reread (w_startedAt w);
       w_completedAt := option_map reread (w_completedAt w);
       w_createdAt := w_createdAt w |} in
  exists st',
    submitEditForm legacyTimestamp otherForms serverTZA w
      (editFormInitial browserTZA w) st
      = (Ok (ActionSuccess saved), st') /\
    getWorkout (w_id w) st' = (Ok (Some saved), st') /\
    (browserTZA = serverTZA ->
     w_startedAt saved = startOfMinute browserTZA (w_startedAt w) /\
     w_completedAt saved
     = option_map (startOfMinute browserTZA) (w_completedAt w)).
Proof.
  intros saved.
  unfold submitEditForm, editFormInitial, updateWorkoutAction.
  cbn [ui_id ui_name ui_startedAt ui_completedAt
       ef_name ef_startedAt ef_completedAt].
  rewrite stringOrNull_name.
  set (data :=
         {| uw_name := Some (nameOrNull (w_name w));
            uw_startedAt := Some (ValidDate (reread (w_startedAt w)));
            uw_completedAt :=
              Some (option_map (fun c => ValidDate (reread c))
                      (w_completedAt w)) |}).
  set (v := {| uv_name := Some (nameOrNull (w_name w));
               uv_startedAt := Some (reread (w_startedAt w));
               uv_completedAt :=
                 Some (option_map reread (w_completedAt w)) |}).
  assert (Hv : updateValues data = Ok v).
  { unfold updateValues, data, v.
    cbn [uw_name uw_startedAt uw_completedAt].
    rewrite (toISOTime_accepted _ (accepted_from_100 _ Hsent)).
    destruct (w_completedAt w) as [c|]; cbn [option_map bindResult];
      [|reflexivity].
    destruct (Hdone c eq_refl) as [_ Hc].
    now rewrite (toISOTime_accepted _ (accepted_from_100 _ Hc)). }
  assert (Hacc : valuesAccepted v = true).
  { unfold valuesAccepted, v. cbn [uv_startedAt uv_completedAt].
    rewrite (accepted_from_100 _ Hsent).
    destruct (w_completedAt w) as [c|]; cbn [option_map]; [|reflexivity].
    destruct (Hdone c eq_refl) as [_ Hc].
    now rewrite (accepted_from_100 _ Hc). }
  destruct (updateWorkout_found legacyTimestamp st uid data v w
              Hin Hne Hkey Hw Hown Hid Hv Hacc)
    as (st1 & Hup & Hget & _).
  assert (Hsaved : applyUpdate legacyTimestamp v w = saved).
  { unfold applyUpdate, saved, v.
    cbn [uv_name uv_startedAt uv_completedAt].
    rewrite readTimestamp_same by lia. f_equal.
    destruct (w_completedAt w) as [c|]; cbn [option_map]; [|reflexivity].
    destruct (Hdone c eq_refl) as [_ Hc].
    now rewrite readTimestamp_same by lia. }
  rewrite Hsaved in Hup, Hget.
  unfold catchA, bindA.
  match goal with
  | |- context [updateWorkout _ _ ?x st] => assert (Hdata : x = data)
  end.
  { unfold data. f_equal.
    - pose proof (formatDateTimeLocal_not_empty browserTZA _ Hstart) as Hn.
      pose proof (datetime_local_reads_back otherForms browserTZA serverTZA
                    _ Hstart) as Hr.
      destruct (formatDateTimeLocal browserTZA (w_startedAt w)) eqn:E;
        [contradiction|].
      now rewrite <- Hr.
    - destruct (w_completedAt w) as [c|] eqn:Ec; [|reflexivity].
      destruct (Hdone c eq_refl) as [Hc _].
      pose proof (formatDateTimeLocal_not_empty browserTZA c Hc) as Hn.
      pose proof (datetime_local_reads_back otherForms browserTZA serverTZA
                    c Hc) as Hr.
      destruct (formatDateTimeLocal browserTZA c) eqn:E; [contradiction|].
      simpl. now rewrite <- Hr. }
  rewrite Hdata, Hup. simpl.
  eexists. split; [reflexivity|]. split.
  - now apply (getWorkout_same_tables (w_id w) st1).
  - intros <-. split; [apply rereadMinute_same|].
    destruct (w_completedAt w); simpl; [|reflexivity].
    now rewrite rereadMinute_same.
Qed.

(** Submitting the create form with the start time it opened with in the
    browser (in the years 1 to 9999 as the browser shows it, and in the
    years 100 to 9999 of UTC as the server reads it), by a signed-in user
    and with the sequence ahead of the ids: the action succeeds with a new
    workout of that user under the next id, named as typed ([null] for an
    empty name), not completed, and started at the start of the minute the
    form opened in, moved by the difference between the offset of the
    browser and that of the server; the table has it as its last row and
    the dashboard is revalidated. *)
Theorem create_form_submitted
  (st : Store) (uid name : string) (opened now dbNow : Z)
  (Hin : st_session st = Some uid) (Hne : uid <> "")
  (Hseq : sequenceAhead st)
  (Hid : int4 (st_workoutsSeq st + 1) = true)
  (Hyear : 1 <= getFullYear browserTZA opened <= 9999)
  (Hsent : 100 <= getUTCFullYear (reread opened) <= 9999) :
  let created :=
    {| w_id := st_workoutsSeq st + 1; w_userId := uid;
       w_name := stringOrNull name;
       w_startedAt := reread opened;
       w_completedAt := None; w_createdAt := dbNow |} in
  exists st',
    submitCreateForm legacyTimestamp otherForms serverTZA now dbNow
      {| cf_name := name;
         cf_startedAt := cf_startedAt (createFormInitial browserTZA opened) |} st
      = (Ok (ActionSuccess created), st') /\
    tbl_workouts (st_tables st') = tbl_workouts (st_tables st) ++ [created] /\
    st_revalidated st' = st_revalidated st ++ ["/dashboard"] /\
    (browserTZA = serverTZA ->
     w_startedAt created = startOfMinute browserTZA opened).
Proof.
  intros created.
  unfold submitCreateForm, createFormInitial, createWorkoutAction.
  cbn [cf_name cf_startedAt ci_name ci_startedAt].
  unfold catchA, bindA.
  match goal with
  | |- context [createWorkout legacyTimestamp now dbNow ?x st] =>
      assert (Hdata : x = {| cw_name := stringOrNull name;
                             cw_startedAt :=
                               Some (ValidDate (reread opened)) |})
  end.
  { f_equal.
    pose proof (formatDateTimeLocal_not_empty browserTZA _ Hyear) as Hn.
    pose proof (datetime_local_reads_back otherForms browserTZA serverTZA
                  _ Hyear) as Hr.
    destruct (formatDateTimeLocal browserTZA opened) eqn:E; [contradiction|].
    now rewrite <- Hr. }
  rewrite Hdata.
  destruct (createWorkout_added legacyTimestamp st uid now dbNow (reread opened)
              {| cw_name := stringOrNull name;
                 cw_startedAt := Some (ValidDate (reread opened)) |}
              Hin Hne Hseq Hid eq_refl ltac:(lia))
    as (st1 & Hc & Ht & _ & Hr & _ & Hsame).
  cbn [cw_name] in Hc, Ht. rewrite nameOrNull_stringOrNull in Hc, Ht.
  cbn [w_startedAt] in Hsame. rewrite Hsame in Hc, Ht by lia.
  rewrite Hc. simpl. eexists. split; [reflexivity|].
  simpl. rewrite Ht, Hr. repeat split; auto.
  intros <-. apply rereadMinute_same.
Qed.
End FormFacts.

(** ** From the calendar to the page *)

Lemma dateString_reads_back (localTZA : Z) t :
  1000 <= getFullYear localTZA t <= 9999 ->
  readDateParam (dateString localTZA t) =
  Some (getFullYear localTZA t, getMonth localTZA t + 1, getDate localTZA t).
Proof.
  intros Hy.
  pose proof (local_fields localTZA t) as F. cbv zeta in F.
  destruct (civilFromDays (Day (LocalTime localTZA t))) as [[y m] d].
  destruct F as (Fy & Fm & Fd & _ & Hm & Hd & H31).
  unfold dateString. rewrite Fy in *. rewrite Fm, Fd.
  destruct (numberToString_four y) as (y1 & y2 & y3 & y4 & -> & Ey); [lia|].
  destruct (padStart2_two m) as (m1 & m2 & -> & Em); [lia|].
  destruct (padStart2_two d) as (d1 & d2 & -> & Ed); [lia|].
  simpl. now rewrite Ey, Em, Ed.
Qed.

(** A day picked in the calendar of the browser (years 1000 to 9999)
    travels through the URL to the page on the server as the start of the
    local day of the server that has the same date of the calendar: the
    page asks for the bounds of that day and shows the date that the
    selector shows.  With browser and server at one offset, these are the
    bounds of the day of the moment picked. *)
Theorem calendar_day_reaches_page
  (browserTZA serverTZA now t : Z)
  (Hyear : 1000 <= getFullYear browserTZA t <= 9999) :
  let day := Day (LocalTime browserTZA t) in
  let date := pageDate serverTZA now (Some (dateString browserTZA t)) in
  date = ValidDate (UTC serverTZA (MakeDate day 0)) /\
  dayBounds serverTZA date
  = (ValidDate (UTC serverTZA (MakeDate day (MakeTime 0 0 0 0))),
     ValidDate (UTC serverTZA (MakeDate day (MakeTime 23 59 59 999)))) /\
  formatDateWithOrdinal serverTZA date
    = formatDateWithOrdinal browserTZA (ValidDate t) /\
  (browserTZA = serverTZA ->
   dayBounds serverTZA date = dayBounds serverTZA (ValidDate t)).
Proof.
  pose proof (local_fields browserTZA t) as F. cbv zeta in F.
  pose proof (dateString_reads_back browserTZA t Hyear) as R.
  destruct (civilFromDays (Day (LocalTime browserTZA t))) as [[y m] d] eqn:Ec.
  destruct F as (Fy & Fm & Fd & Fday & Hm & Hd & H31).
  assert (Hdate : pageDate serverTZA now (Some (dateString browserTZA t))
                  = ValidDate (UTC serverTZA
                                 (MakeDate (Day (LocalTime browserTZA t)) 0))).
  { unfold pageDate. rewrite R, Fy, Fm, Fd. unfold newDateYMD.
    rewrite Fy in Hyear.
    replace ((0 <=? y) && (y <=? 99)) with false
      by (symmetry; apply andb_false_iff; right; apply Z.leb_gt; lia).
    now rewrite Fday. }
  cbv zeta. rewrite Hdate.
  assert (Hday : Day (LocalTime serverTZA
                        (UTC serverTZA (MakeDate (Day (LocalTime browserTZA t)) 0)))
                 = Day (LocalTime browserTZA t)).
  { apply local_day. unfold msPerDay. lia. }
  split; [reflexivity|]. split; [|split].
  - unfold dayBounds, setHours. now rewrite Hday.
  - unfold formatDateWithOrdinal, format, getDate, getMonth, getFullYear.
    now rewrite Hday.
  - intros <-. unfold dayBounds, setHours. now rewrite Hday.
Qed.

(** Whatever has the shape [dddd-dd-dd] is taken by the page, months and
    days out of range carrying over, and gives the start of a local day;
    anything else gives the current moment. *)
Theorem page_date_is_a_day_start
  (localTZA now : Z) (s : string) :
  match readDateParam s with
  | Some _ =>
      exists t,
        pageDate localTZA now (Some s) = ValidDate t /\
        fst (dayBounds localTZA (ValidDate t)) = ValidDate t
  | None => pageDate localTZA now (Some s) = ValidDate now
  end.
Proof.
  unfold pageDate.
  destruct (readDateParam s) as [[[y m] d]|]; [|reflexivity].
  unfold newDateYMD. eexists. split; [reflexivity|].
  unfold dayBounds, setHours. simpl fst.
  rewrite local_day by (unfold msPerDay; lia). reflexivity.
Qed.

(** * More on the aggregation *)

(** ** Order of the workouts, contents of the sets *)

(** The workouts come out in the order in which their ids first occur in
    the rows. *)
Theorem workouts_in_order_of_first_row (rows : list Row) :
  map id (aggregate rows) = firstSeen (workoutIds rows).
Proof. apply aggregate_ids. Qed.

(** The sets of an exercise in the output are the sets of the rows of that
    exercise in that workout, each row's set once: none is lost, none is
    added, none moves to another exercise. *)
Theorem sets_are_the_rows_sets
  (rows : list Row) (wid eid : Z)
  (wk : WorkoutWithExerciseMap) (x : ExerciseEntry)
  (Hwk : JsMap.get (buildWorkoutsMap rows) wid = Some wk)
  (Hx : JsMap.get (wm_exercises wk) eid = Some x) :
  In (toOutput wk) (aggregate rows) /\
  In (dropOrder x) (exercises (toOutput wk)) /\
  Permutation (sets (dropOrder x)) (setsOf wid eid rows).
Proof.
  destruct (buildWorkoutsMap_built rows) as [_ Hg].
  destruct (Hg _ _ Hwk) as [_ [_ Hxg]].
  destruct (Hxg _ _ Hx) as (e & we & _ & _ & _ & Hs).
  split; [|split].
  - unfold aggregate. apply in_map. eapply get_Some_values; eauto.
  - simpl. apply in_map. unfold sortedExercises.
    eapply Permutation_in; [symmetry; apply sortBy_Permutation|].
    eapply get_Some_values; eauto.
  - simpl. rewrite Hs. apply sortBy_Permutation.
Qed.

(** ** Stability of the sorts *)

Lemma insertSorted_stable {A} (c : A -> A -> Z) (key : A -> Z) k x l :
  (forall a b, c a b = key a - key b) ->
  filter (fun a => key a =? k) (insertSorted c x l) =
  filter (fun a => key a =? k) (x :: l).
Proof.
  intros Hc. induction l as [|y l IH]; [reflexivity|].
  simpl insertSorted. rewrite Hc.
  destruct (key x - key y <=? 0) eqn:E; [reflexivity|].
  apply Z.leb_gt in E.
  simpl in *. rewrite IH.
  destruct (key x =? k) eqn:Ex, (key y =? k) eqn:Ey; auto.
  apply Z.eqb_eq in Ex, Ey. lia.
Qed.

Lemma sortBy_stable {A} (c : A -> A -> Z) (key : A -> Z) k l :
  (forall a b, c a b = key a - key b) ->
  filter (fun a => key a =? k) (sortBy c l) = filter (fun a => key a =? k) l.
Proof.
  intros Hc. induction l as [|x l IH]; [reflexivity|].
  simpl sortBy. rewrite (insertSorted_stable c key k x _ Hc).
  simpl. now rewrite IH.
Qed.

(** Exercises under one order value come out in the order in which their
    ids first occurred in the rows of the workout, and sets under one set
    number in the order of their rows. *)
Theorem ties_keep_the_order_of_the_rows
  (rows : list Row) (wid eid k : Z)
  (wk : WorkoutWithExerciseMap) (x : ExerciseEntry)
  (Hwk : JsMap.get (buildWorkoutsMap rows) wid = Some wk)
  (Hx : JsMap.get (wm_exercises wk) eid = Some x) :
  filter (fun a => x_order a =? k) (sortedExercises wk) =
    filter (fun a => x_order a =? k) (JsMap.values (wm_exercises wk)) /\
  JsMap.keys (wm_exercises wk) = firstSeen (exerciseIds wid rows) /\
  filter (fun s => setNumber s =? k) (sets (dropOrder x)) =
    filter (fun s => setNumber s =? k) (setsOf wid eid rows).
Proof.
  destruct (buildWorkoutsMap_built rows) as [_ Hg].
  destruct (Hg _ _ Hwk) as [_ [Hk Hxg]].
  destruct (Hxg _ _ Hx) as (e & we & _ & _ & _ & Hs).
  split; [|split; [exact Hk|]].
  - unfold sortedExercises. now apply sortBy_stable.
  - simpl. rewrite Hs. now apply sortBy_stable.
Qed.

(** ** The workouts of a day *)














(** ** What the join puts side by side *)

Lemma leftJoin_matched {B} left (table : list B) on withRight r :
  In r (leftJoin left table on withRight) ->
  exists r0 b,
    In r0 left /\ r = withRight r0 b /\
    forall x, b = Some x -> In x table /\ on r0 x = true.
Proof.
  unfold leftJoin. intros H. apply in_flat_map in H.
  destruct H as (r0 & Hr0 & H). exists r0.
  destruct (filter (on r0) table) as [|b bs] eqn:E.
  - destruct H as [<-|[]]. exists None. repeat split; auto; discriminate.
  - apply in_map_iff in H. destruct H as (b' & <- & Hb').
    exists (Some b'). split; auto. split; auto.
    intros x [= <-]. apply filter_In. now rewrite E.
Qed.

(** In a joined row the link is a link of the workout, the exercise is the
    exercise of the link, and the set is a set of the link. *)
Lemma joined_linked db r :
  In r (joined db) ->
  (forall we, workoutExercise r = Some we ->
     In we (tbl_workoutExercises db) /\
     exists w, workout r = Some w /\ we_workoutId we = w_id w) /\
  (forall e, exercise r = Some e ->
     In e (tbl_exercises db) /\
     exists we, workoutExercise r = Some we /\ e_id e = we_exerciseId we) /\
  (forall s, set r = Some s ->
     In s (tbl_sets db) /\
     exists we, workoutExercise r = Some we /\ s_workoutExerciseId s = we_id we).
Proof.
  unfold joined. intros H.
  apply leftJoin_matched in H. destruct H as (r2 & s & H & -> & Hs).
  apply leftJoin_matched in H. destruct H as (r1 & e & H & -> & He).
  apply leftJoin_matched in H. destruct H as (r0 & we & H & -> & Hwe).
  unfold fromWorkouts in H. apply in_map_iff in H.
  destruct H as (w & <- & Hw). simpl in *.
  split; [|split].
  - intros we' ->. destruct (Hwe we' eq_refl) as [Hin Hon]. split; auto.
    exists w. split; auto. unfold onWorkoutExercise in Hon. simpl in Hon.
    now apply Z.eqb_eq.
  - intros e' ->. destruct (He e' eq_refl) as [Hin Hon]. split; auto.
    unfold onExercise in Hon. simpl in Hon.
    destruct we as [we'|]; [|discriminate].
    exists we'. split; auto. now apply Z.eqb_eq.
  - intros s' ->. destruct (Hs s' eq_refl) as [Hin Hon]. split; auto.
    unfold onSet in Hon. simpl in Hon.
    destruct we as [we'|]; [|discriminate].
    exists we'. split; auto. now apply Z.eqb_eq.
Qed.

(** Every set that the aggregation of a selection puts under exercise
    [eid] of workout [wid] is a set of the table that hangs on a link of
    that workout to that exercise. *)
Theorem selected_sets_hang_on_their_link
  (db : Database) (q : Selection) (wid eid : Z)
  (wk : WorkoutWithExerciseMap) (x : ExerciseEntry) (s : WorkoutSet)
  (Hwk : JsMap.get (buildWorkoutsMap (runSelection db q)) wid = Some wk)
  (Hx : JsMap.get (wm_exercises wk) eid = Some x)
  (Hs : In s (sets (dropOrder x))) :
  exists row we,
    In row (tbl_sets db) /\ s = newSet row /\
    In we (tbl_workoutExercises db) /\
    s_workoutExerciseId row = we_id we /\
    we_workoutId we = wid /\ we_exerciseId we = eid.
Proof.
  destruct (buildWorkoutsMap_built (runSelection db q)) as [_ Hg].
  destruct (Hg _ _ Hwk) as [_ [_ Hxg]].
  destruct (Hxg _ _ Hx) as (e0 & we0 & _ & _ & _ & Hsets).
  simpl in Hs. rewrite Hsets in Hs.
  apply (Permutation_in _ (sortBy_Permutation compareSetNumber _)) in Hs.
  apply setsOf_In in Hs. destruct Hs as (r & row & Hr & Hie & Hset & ->).
  apply runSelection_In in Hr. destruct Hr as [Hj _].
  destruct (joined_linked db r Hj) as (Lwe & Le & Ls).
  apply inExercise_rowExercise in Hie.
  destruct Hie as [Hw (e & we & Hre & Heid)].
  apply inWorkout_workout in Hw. destruct Hw as (w & Ew & Ewid).
  unfold rowExercise in Hre.
  destruct (exercise r) as [e'|] eqn:Ee; [|discriminate].
  destruct (workoutExercise r) as [we'|] eqn:Ewe; [|discriminate].
  injection Hre as -> ->.
  destruct (Lwe we eq_refl) as [Hwein (w' & Ew' & Hlink)].
  destruct (Le e eq_refl) as [_ (we1 & E1 & Hex)].
  destruct (Ls row Hset) as [Hrow (we2 & E2 & Hsl)].
  injection E1 as <-. injection E2 as <-.
  rewrite Ew in Ew'. injection Ew' as <-.
  exists row, we. repeat split; auto; congruence.
Qed.

(** ** Sample runs of the store, the actions and the forms *)

Lemma data_access_requires_user_witness :
  getAllWorkouts SampleStore.signedOut
    = (Throw unauthorized, SampleStore.signedOut) /\
  getWorkout 1 SampleStore.signedOut
    = (Throw unauthorized, SampleStore.signedOut) /\
  createWorkout SampleStore.legacy 5 6 {| cw_name := Some "Legs"; cw_startedAt := None |}
    SampleStore.signedOut = (Throw unauthorized, SampleStore.signedOut) /\
  updateWorkout SampleStore.legacy 1 SampleStore.rename SampleStore.signedOut
    = (Throw unauthorized, SampleStore.signedOut).
Proof.
  apply (data_access_requires_user SampleStore.legacy SampleStore.signedOut
           1 5 6).
  reflexivity.
Defined.


Lemma sample_key :
  NoDup (map w_id (tbl_workouts (st_tables SampleStore.signedIn))).
Proof. repeat constructor; simpl; intuition discriminate. Defined.

Lemma getWorkout_own_only_witness :
  fst (getWorkout 3 SampleStore.signedIn) = Ok None /\
  fst (getWorkout 4 SampleStore.signedIn) = Ok (Some SampleStore.morning) /\
  getWorkout 2147483648 SampleStore.signedIn
  = (Throw failedQuery, SampleStore.signedIn).
Proof.
  split; [|split].
  - destruct (getWorkout_own_only SampleStore.signedIn "user_1" 3 eq_refl)
      as [Hin _]; [discriminate|].
    destruct (Hin eq_refl) as (found & E & _ & Hnone & _).
    rewrite E. simpl. f_equal. apply Hnone.
    intros w [<-|[<-|[<-|[<-|[]]]]] Hid; simpl in Hid;
      try discriminate Hid. discriminate.
  - destruct (getWorkout_own_only SampleStore.signedIn "user_1" 4 eq_refl)
      as [Hin _]; [discriminate|].
    destruct (Hin eq_refl) as (found & E & _ & _ & Hsome).
    rewrite E. simpl. f_equal.
    apply (Hsome sample_key); simpl; auto.
  - destruct (getWorkout_own_only SampleStore.signedIn "user_1" 2147483648
                eq_refl) as [_ Hout]; [discriminate|].
    exact (Hout eq_refl).
Defined.

Lemma sample_sequence : sequenceAhead SampleStore.signedIn.
Proof.
  intros w [<-|[<-|[<-|[<-|[]]]]]; simpl; lia.
Defined.

Lemma createWorkout_inserts_own_row_witness :
  (exists st',
     createWorkout SampleStore.legacy 5 6
       {| cw_name := Some ""; cw_startedAt := None |} SampleStore.signedIn
     = (Ok {| w_id := 5; w_userId := "user_1"; w_name := None;
              w_startedAt := 5; w_completedAt := None; w_createdAt := 6 |},
        st') /\
     tbl_workouts (st_tables st')
     = tbl_workouts SampleStore.tables
       ++ [{| w_id := 5; w_userId := "user_1"; w_name := None;
              w_startedAt := 5; w_completedAt := None; w_createdAt := 6 |}] /\
     getWorkout 5 st'
     = (Ok (Some {| w_id := 5; w_userId := "user_1"; w_name := None;
                    w_startedAt := 5; w_completedAt := None;
                    w_createdAt := 6 |}), st')) /\
  (exists st',
     createWorkout SampleStore.legacy 5 6
       {| cw_name := None;
          cw_startedAt := Some (ValidDate SampleStore.yearFifty) |}
       SampleStore.signedIn
     = (Ok {| w_id := 5; w_userId := "user_1"; w_name := None;
              w_startedAt := SampleStore.legacy SampleStore.yearFifty;
              w_completedAt := None; w_createdAt := 6 |},
        st')).
Proof.
  split.
  - destruct (createWorkout_inserts_own_row SampleStore.legacy
                SampleStore.signedIn "user_1" 5 6 5
                {| cw_name := Some ""; cw_startedAt := None |}
                eq_refl ltac:(discriminate) sample_sequence eq_refl eq_refl
                ltac:(vm_compute; split; discriminate))
      as (st' & H1 & H2 & _ & _ & H5 & _).
    exists st'. split; [exact H1|]. split; [exact H2 | exact H5].
  - destruct (createWorkout_inserts_own_row SampleStore.legacy
                SampleStore.signedIn "user_1" 5 6 SampleStore.yearFifty
                {| cw_name := None;
                   cw_startedAt := Some (ValidDate SampleStore.yearFifty) |}
                eq_refl ltac:(discriminate) sample_sequence eq_refl eq_refl
                ltac:(vm_compute; split; discriminate))
      as (st' & H1 & _).
    exists st'. exact H1.
Defined.

Lemma createWorkout_refused_adds_nothing_witness :
  fst (createWorkout SampleStore.legacy 5 6 {| cw_name := None; cw_startedAt := None |}
         SampleStore.behind) = Throw duplicateKey /\
  st_tables (snd (createWorkout SampleStore.legacy 5 6 {| cw_name := None; cw_startedAt := None |}
                    SampleStore.behind)) = SampleStore.tables /\
  createWorkout SampleStore.legacy 5 6 {| cw_name := None; cw_startedAt := Some InvalidDate |}
    SampleStore.signedIn = (Throw invalidTimeValue, SampleStore.signedIn).
Proof.
  split; [reflexivity|]. split; [|reflexivity].
  apply (createWorkout_refused_adds_nothing SampleStore.legacy
           SampleStore.behind _ 5 6
           {| cw_name := None; cw_startedAt := None |} duplicateKey).
  reflexivity.
Defined.

Lemma updateWorkout_refused_changes_nothing_witness :
  fst (updateWorkout SampleStore.legacy 3 SampleStore.rename SampleStore.signedIn)
    = Throw workoutNotFound /\
  snd (updateWorkout SampleStore.legacy 3 SampleStore.rename SampleStore.signedIn)
    = SampleStore.signedIn.
Proof.
  split; [reflexivity|].
  apply (updateWorkout_refused_changes_nothing SampleStore.legacy
           SampleStore.signedIn _ 3 SampleStore.rename workoutNotFound).
  reflexivity.
Defined.

Lemma updateWorkout_then_getWorkout_witness :
  (exists st',
     updateWorkout SampleStore.legacy 1 SampleStore.rename SampleStore.signedIn
     = (Ok {| w_id := 1; w_userId := "user_1"; w_name := Some "Legs";
              w_startedAt := 1756684800000; w_completedAt := None;
              w_createdAt := 1756684800000 |}, st') /\
     getWorkout 1 st'
     = (Ok (Some {| w_id := 1; w_userId := "user_1"; w_name := Some "Legs";
                    w_startedAt := 1756684800000; w_completedAt := None;
                    w_createdAt := 1756684800000 |}), st')) /\
  (exists st',
     updateWorkout SampleStore.legacy 1 SampleStore.restart SampleStore.signedIn
     = (Ok {| w_id := 1; w_userId := "user_1"; w_name := Some "Leg Day";
              w_startedAt := 1756720830500;
              w_completedAt := Some (SampleStore.legacy SampleStore.yearFifty);
              w_createdAt := 1756684800000 |}, st')).
Proof.
  split.
  - destruct (updateWorkout_then_getWorkout SampleStore.legacy
                SampleStore.signedIn "user_1" SampleStore.rename
                {| uv_name := Some (Some "Legs"); uv_startedAt := None;
                   uv_completedAt := Some None |}
                Sample.legDay eq_refl)
      as (st' & H1 & H2 & _);
      [discriminate | exact sample_key | simpl; auto | reflexivity
      | reflexivity | reflexivity | reflexivity |].
    exists st'. split; [exact H1 | exact H2].
  - destruct (updateWorkout_then_getWorkout SampleStore.legacy
                SampleStore.signedIn "user_1" SampleStore.restart
                {| uv_name := None; uv_startedAt := Some 1756720830500;
                   uv_completedAt := Some (Some SampleStore.yearFifty) |}
                Sample.legDay eq_refl)
      as (st' & H1 & _);
      [discriminate | exact sample_key | simpl; auto | reflexivity
      | reflexivity | reflexivity | reflexivity |].
    exists st'. exact H1.
Defined.

Lemma workout_ids_stay_a_key_witness :
  NoDup (map w_id (tbl_workouts (st_tables
    (snd (createWorkout SampleStore.legacy 5 6 {| cw_name := None; cw_startedAt := None |}
            SampleStore.signedIn))))) /\
  NoDup (map w_id (tbl_workouts (st_tables
    (snd (updateWorkout SampleStore.legacy 1 SampleStore.rename SampleStore.signedIn))))) /\
  (sequenceAhead SampleStore.signedIn ->
   sequenceAhead
     (snd (createWorkout SampleStore.legacy 5 6 {| cw_name := None; cw_startedAt := None |}
             SampleStore.signedIn)) /\
   sequenceAhead
     (snd (updateWorkout SampleStore.legacy 1 SampleStore.rename SampleStore.signedIn))).
Proof.
  apply (workout_ids_stay_a_key SampleStore.legacy SampleStore.signedIn 5 6 1).
  exact sample_key.
Defined.

Lemma actions_refuse_without_user_witness :
  createWorkoutAction SampleStore.legacy SampleStore.noForms 0 5 6
    {| ci_name := Some "Legs"; ci_startedAt := None |} SampleStore.signedOut
    = (Ok (ActionFailure "Unauthorized"), SampleStore.signedOut) /\
  updateWorkoutAction SampleStore.legacy SampleStore.noForms 0
    {| ui_id := 1; ui_name := None; ui_startedAt := None;
       ui_completedAt := None |} SampleStore.signedOut
    = (Ok (ActionFailure "Unauthorized"), SampleStore.signedOut).
Proof.
  apply (actions_refuse_without_user SampleStore.legacy SampleStore.noForms
           0 5 6).
  reflexivity.
Defined.

Lemma morning_year : 1 <= getFullYear 3600000 1756720830500 <= 9999.
Proof. change (1 <= 2025 <= 9999). lia. Defined.

Lemma datetime_local_round_trip_witness :
  formatDateTimeLocal 3600000 1756720830500 = "2025-09-01T11:00" /\
  newDateFromString SampleStore.noForms 3600000 "2025-09-01T11:00"
    = ValidDate 1756720800000.
Proof.
  split; [reflexivity|].
  exact (proj1 (datetime_local_round_trip SampleStore.noForms 3600000
                  1756720830500 morning_year)).
Defined.

Lemma edit_form_saved_untouched_witness :
  (exists st',
     submitEditForm SampleStore.legacy SampleStore.noForms 0 SampleStore.morning
       (editFormInitial 0 SampleStore.morning) SampleStore.signedIn
     = (Ok (ActionSuccess
              {| w_id := 4; w_userId := "user_1"; w_name := None;
                 w_startedAt := 1756720800000;
                 w_completedAt := Some 1756724460000;
                 w_createdAt := 1756720830500 |}), st')) /\
  (exists st',
     submitEditForm SampleStore.legacy SampleStore.noForms 0 SampleStore.morning
       (editFormInitial (-18000000) SampleStore.morning) SampleStore.signedIn
     = (Ok (ActionSuccess
              {| w_id := 4; w_userId := "user_1"; w_name := None;
                 w_startedAt := 1756702800000;
                 w_completedAt := Some 1756706460000;
                 w_createdAt := 1756720830500 |}), st') /\
     getWorkout 4 st'
     = (Ok (Some {| w_id := 4; w_userId := "user_1"; w_name := None;
                    w_startedAt := 1756702800000;
                    w_completedAt := Some 1756706460000;
                    w_createdAt := 1756720830500 |}), st')).
Proof.
  split.
  - destruct (edit_form_saved_untouched SampleStore.legacy SampleStore.noForms
                0 0 SampleStore.signedIn "user_1" SampleStore.morning)
      as (st' & H1 & _).
    + reflexivity.
    + discriminate.
    + exact sample_key.
    + simpl. auto.
    + reflexivity.
    + reflexivity.
    + vm_compute. split; discriminate.
    + vm_compute. split; discriminate.
    + intros c [= <-]. vm_compute. repeat split; discriminate.
    + exists st'. exact H1.
  - destruct (edit_form_saved_untouched SampleStore.legacy SampleStore.noForms
                (-18000000) 0 SampleStore.signedIn "user_1" SampleStore.morning)
      as (st' & H1 & H2 & _).
    + reflexivity.
    + discriminate.
    + exact sample_key.
    + simpl. auto.
    + reflexivity.
    + reflexivity.
    + vm_compute. split; discriminate.
    + vm_compute. split; discriminate.
    + intros c [= <-]. vm_compute. repeat split; discriminate.
    + exists st'. split; [exact H1 | exact H2].
Defined.

Lemma create_form_submitted_witness :
  exists st',
    submitCreateForm SampleStore.legacy SampleStore.noForms 0 7 8
      {| cf_name := "";
         cf_startedAt :=
           cf_startedAt (createFormInitial (-18000000) 1756720830500) |}
      SampleStore.signedIn
    = (Ok (ActionSuccess
             {| w_id := 5; w_userId := "user_1"; w_name := None;
                w_startedAt := 1756702800000; w_completedAt := None;
                w_createdAt := 8 |}), st') /\
    tbl_workouts (st_tables st')
    = tbl_workouts SampleStore.tables
      ++ [{| w_id := 5; w_userId := "user_1"; w_name := None;
             w_startedAt := 1756702800000; w_completedAt := None;
             w_createdAt := 8 |}] /\
    st_revalidated st' = ["/dashboard"].
Proof.
  destruct (create_form_submitted SampleStore.legacy SampleStore.noForms
              (-18000000) 0 SampleStore.signedIn "user_1" "" 1756720830500 7 8)
    as (st' & H1 & H2 & H3 & _).
  - reflexivity.
  - discriminate.
  - exact sample_sequence.
  - reflexivity.
  - vm_compute. split; discriminate.
  - vm_compute. split; discriminate.
  - exists st'. split; [exact H1|]. split; [exact H2 | exact H3].
Defined.

Lemma calendar_day_reaches_page_witness :
  dateString 7200000 1756769400000 = "2025-09-02" /\
  pageDate 0 5 (Some (dateString 7200000 1756769400000))
    = ValidDate 1756771200000 /\
  dayBounds 0 (pageDate 0 5 (Some (dateString 7200000 1756769400000)))
    = (ValidDate 1756771200000, ValidDate 1756857599999) /\
  dayBounds 0 (ValidDate 1756769400000)
    = (ValidDate 1756684800000, ValidDate 1756771199999) /\
  formatDateWithOrdinal 0
    (pageDate 0 5 (Some (dateString 7200000 1756769400000)))
    = formatDateWithOrdinal 7200000 (ValidDate 1756769400000).
Proof.
  destruct (calendar_day_reaches_page 7200000 0 5 1756769400000)
    as (H1 & H2 & H3 & _).
  - vm_compute. split; discriminate.
  - split; [reflexivity|]. split; [exact H1|]. split; [exact H2|].
    split; [reflexivity | exact H3].
Defined.

Lemma sets_are_the_rows_sets_witness :
  In (toOutput Sample.legDayEntry) (aggregate [Sample.firstRow]) /\
  In (dropOrder Sample.squatEntry) (exercises (toOutput Sample.legDayEntry)) /\
  Permutation (sets (dropOrder Sample.squatEntry))
    (setsOf 1 100 [Sample.firstRow]).
Proof.
  apply (sets_are_the_rows_sets [Sample.firstRow] 1 100); reflexivity.
Defined.

Lemma ties_keep_the_order_of_the_rows_witness :
  map x_name
    (filter (fun a => x_order a =? 0)
       (sortedExercises
          (withExercises (newWorkoutEntry Sample.legDay)
             [(100, newExerciseEntry Sample.squat (Sample.linkOf 10 100 0));
              (200, newExerciseEntry Sample.bench (Sample.linkOf 11 200 0))])))
  = ["Squat"; "Bench Press"].
Proof.
  rewrite (proj1 (ties_keep_the_order_of_the_rows Sample.tiedRows 1 100 0
                    (withExercises (newWorkoutEntry Sample.legDay)
                       [(100, newExerciseEntry Sample.squat (Sample.linkOf 10 100 0));
                        (200, newExerciseEntry Sample.bench (Sample.linkOf 11 200 0))])
                    (newExerciseEntry Sample.squat (Sample.linkOf 10 100 0))
                    eq_refl eq_refl)).
  reflexivity.
Defined.



Lemma selected_sets_hang_on_their_link_witness :
  exists row we,
    In row (tbl_sets SampleStore.tables) /\
    Sample.firstSet = newSet row /\
    In we (tbl_workoutExercises SampleStore.tables) /\
    s_workoutExerciseId row = we_id we /\
    we_workoutId we = 1 /\ we_exerciseId we = 100.
Proof.
  apply (selected_sets_hang_on_their_link SampleStore.tables SampleStore.thatDay
           1 100
           {| wm_id := 1; wm_name := Some "Leg Day";
              wm_startedAt := 1756684800000; wm_completedAt := None;
              wm_exercises :=
                [(100, {| x_name := "Squat"; x_order := 0;
                          x_sets := [Sample.firstSet;
                                     newSet (Sample.setOf 2 10 2)] |})] |}
           {| x_name := "Squat"; x_order := 0;
              x_sets := [Sample.firstSet; newSet (Sample.setOf 2 10 2)] |}
           Sample.firstSet);
    [reflexivity | reflexivity | simpl; auto].
Defined.

(** ** The URL read by the selector *)

Lemma dateString_shape (localTZA : Z) t :
  1000 <= getFullYear localTZA t <= 9999 ->
  exists y1 y2 y3 y4 m1 m2 d1 d2,
    dateString localTZA t =
    String y1 (String y2 (String y3 (String y4 (String "-"
      (String m1 (String m2 (String "-"
      (String d1 (String d2 EmptyString))))))))).
Proof.
  intros Hy.
  pose proof (local_fields localTZA t) as F. cbv zeta in F.
  destruct (civilFromDays (Day (LocalTime localTZA t))) as [[y m] d].
  destruct F as (Fy & Fm & Fd & _ & Hm & Hd & H31).
  unfold dateString. rewrite Fy in *. rewrite Fm, Fd.
  destruct (numberToString_four y) as (y1 & y2 & y3 & y4 & -> & Ey); [lia|].
  destruct (padStart2_two m) as (m1 & m2 & -> & Em); [lia|].
  destruct (padStart2_two d) as (d1 & d2 & -> & Ed); [lia|].
  do 8 eexists. reflexivity.
Qed.

Lemma formatDateWithOrdinal_same_day (localTZA : Z) a b :
  Day (LocalTime localTZA a) = Day (LocalTime localTZA b) ->
  formatDateWithOrdinal localTZA (ValidDate a)
  = formatDateWithOrdinal localTZA (ValidDate b).
Proof.
  intros H. unfold formatDateWithOrdinal, format, getDate, getMonth, getFullYear.
  now rewrite H.
Qed.

(** When the page is loaded again with the [date] the selector wrote (years
    1000 to 9999), the selector reads that date as midnight UTC, while the
    page reads it as local midnight: at an offset from UTC of zero or east
    of it the selector shows the day picked, and at an offset west of it
    the day before. *)
Theorem selector_reads_its_date_as_utc
  (otherForms : string -> JsDate) (localTZA now t : Z)
  (Hyear : 1000 <= getFullYear localTZA t <= 9999) :
  let selected :=
    initialSelectedDate (newDateFromString otherForms localTZA) now
      (Some (dateString localTZA t)) in
  selected = ValidDate (MakeDate (Day (LocalTime localTZA t)) 0) /\
  (0 <= localTZA < msPerDay ->
   formatDateWithOrdinal localTZA selected
   = formatDateWithOrdinal localTZA (ValidDate t)) /\
  (- msPerDay <= localTZA < 0 ->
   formatDateWithOrdinal localTZA selected
   = formatDateWithOrdinal localTZA (ValidDate (addDays t (-1)))).
Proof.
  pose proof (local_fields localTZA t) as F. cbv zeta in F.
  pose proof (dateString_reads_back localTZA t Hyear) as R.
  destruct (dateString_shape localTZA t Hyear)
    as (y1 & y2 & y3 & y4 & m1 & m2 & d1 & d2 & Es).
  destruct (civilFromDays (Day (LocalTime localTZA t))) as [[y m] d] eqn:Ec.
  destruct F as (Fy & Fm & Fd & Fday & Hm & Hd & H31).
  assert (Hsel : initialSelectedDate (newDateFromString otherForms localTZA) now
                   (Some (dateString localTZA t))
                 = ValidDate (MakeDate (Day (LocalTime localTZA t)) 0)).
  { unfold initialSelectedDate, newDateFromString.
    rewrite R. rewrite Es. simpl String.eqb. simpl readDateTimeLocal.
    rewrite Fy, Fm, Fd.
    replace ((1 <=? m) && (m <=? 12) && (1 <=? d) && (d <=? daysInMonth y m))
      with true
      by (symmetry; repeat (apply andb_true_iff; split); apply Z.leb_le; lia).
    simpl. now rewrite Fday. }
  cbv zeta. rewrite Hsel. split; [reflexivity|].
  assert (Hday : Day (LocalTime localTZA (MakeDate (Day (LocalTime localTZA t)) 0))
                 = Day (LocalTime localTZA t) + localTZA / msPerDay).
  { generalize (Day (LocalTime localTZA t)). intros day.
    unfold MakeDate, LocalTime, Day, fixedZone.
    replace (day * msPerDay + 0 + localTZA)
      with (localTZA + day * msPerDay) by lia.
    rewrite Z.div_add by (unfold msPerDay; lia). lia. }
  split; intros Hz; apply formatDateWithOrdinal_same_day; rewrite Hday.
  - rewrite Z.div_small by lia. lia.
  - replace (localTZA / msPerDay) with (-1).
    + unfold addDays, LocalTime, fixedZone, Day.
      replace (t + -1 * msPerDay + localTZA)
        with (t + localTZA + -1 * msPerDay) by lia.
      rewrite Z.div_add by (unfold msPerDay; lia). lia.
    + apply Z.div_unique with (r := localTZA + msPerDay);
        unfold msPerDay in *; lia.
Qed.

Lemma selector_reads_its_date_as_utc_witness :
  initialSelectedDate (newDateFromString SampleStore.noForms (-18000000)) 5
    (Some (dateString (-18000000) 1756720830500))
    = ValidDate 1756684800000 /\
  formatDateWithOrdinal (-18000000)
    (initialSelectedDate (newDateFromString SampleStore.noForms (-18000000)) 5
       (Some (dateString (-18000000) 1756720830500)))
    = Ok "31st Aug 2025" /\
  formatDateWithOrdinal (-18000000)
    (pageDate (-18000000) 5 (Some (dateString (-18000000) 1756720830500)))
    = Ok "1st Sep 2025".
Proof.
  assert (Hy : 1000 <= getFullYear (-18000000) 1756720830500 <= 9999)
    by (change (1000 <= 2025 <= 9999); lia).
  destruct (selector_reads_its_date_as_utc SampleStore.noForms (-18000000) 5
              1756720830500 Hy) as (H1 & _ & H3).
  split; [exact H1|]. split; [|reflexivity].
  rewrite H3 by (unfold msPerDay; lia). reflexivity.
Defined.

(** ** Blank fields of an update *)

Lemma updateWorkout_returns
  (legacyTimestamp : Z -> Z)
  (st : Store) (uid : string) (data : UpdateWorkoutData) (v : UpdateValues)
  (w : WorkoutRow)
  (Hin : st_session st = Some uid) (Hne : uid <> "")
  (Hkey : NoDup (map w_id (tbl_workouts (st_tables st))))
  (Hw : In w (tbl_workouts (st_tables st)))
  (Hown : w_userId w = uid)
  (Hv : updateValues data = Ok v)
  (Hacc : valuesAccepted v = true) :
  exists st',
    updateWorkout legacyTimestamp (w_id w) data st
    = (Ok (applyUpdate legacyTimestamp v w), st').
Proof.
  assert (Hf : isWorkoutOf (w_id w) uid w = true)
    by (apply isWorkoutOf_spec; auto).
  assert (Hsame : forall w', isWorkoutOf (w_id w) uid w' = true -> w_id w' = w_id w).
  { intros w' H. apply isWorkoutOf_spec in H. tauto. }
  eexists.
  rewrite (updateWorkout_run _ st uid _ _ Hin Hne), Hv, Hacc. cbv zeta.
  rewrite (filter_unique_id _ _ w Hkey Hw Hf Hsame). reflexivity.
Qed.

Section UpdateActionFacts.
Variable legacyTimestamp : Z -> Z.
Variable otherForms : string -> JsDate.
Variable localTZA : Z.

(** In [updateWorkoutAction], by the owner of the workout and with ids a
    key: an empty start string leaves the start as it is; an empty
    completion string, like [null], clears the completion; and an input
    with an empty start and nothing else fails with [No values to set]. *)
Theorem update_action_blank_fields
  (st : Store) (uid : string) (w : WorkoutRow) (name : option string)
  (Hin : st_session st = Some uid) (Hne : uid <> "")
  (Hkey : NoDup (map w_id (tbl_workouts (st_tables st))))
  (Hw : In w (tbl_workouts (st_tables st)))
  (Hown : w_userId w = uid) :
  let kept :=
    {| w_id := w_id w; w_userId := w_userId w; w_name := name;
       w_startedAt := w_startedAt w; w_completedAt := None;
       w_createdAt := w_createdAt w |} in
  fst (updateWorkoutAction legacyTimestamp otherForms localTZA
         {| ui_id := w_id w; ui_name := Some name; ui_startedAt := Some "";
            ui_completedAt := Some (Some "") |} st)
    = Ok (ActionSuccess kept) /\
  fst (updateWorkoutAction legacyTimestamp otherForms localTZA
         {| ui_id := w_id w; ui_name := Some name; ui_startedAt := None;
            ui_completedAt := Some None |} st)
    = Ok (ActionSuccess kept) /\
  updateWorkoutAction legacyTimestamp otherForms localTZA
    {| ui_id := w_id w; ui_name := None; ui_startedAt := Some "";
       ui_completedAt := None |} st
    = (Ok (ActionFailure "No values to set"), st).
Proof.
  intros kept.
  destruct (updateWorkout_returns legacyTimestamp st uid
              {| uw_name := Some name; uw_startedAt := None;
                 uw_completedAt := Some None |}
              {| uv_name := Some name; uv_startedAt := None;
                 uv_completedAt := Some None |}
              w Hin Hne Hkey Hw Hown eq_refl eq_refl) as (st1 & Hup).
  change (applyUpdate _ _ w) with kept in Hup.
  split; [|split].
  - unfold updateWorkoutAction, catchA, bindA. simpl.
    simpl in Hup. now rewrite Hup.
  - unfold updateWorkoutAction, catchA, bindA. simpl.
    simpl in Hup. now rewrite Hup.
  - unfold updateWorkoutAction, catchA, bindA. simpl.
    rewrite (updateWorkout_run _ st uid _ _ Hin Hne). reflexivity.
Qed.
End UpdateActionFacts.

Lemma update_action_blank_fields_witness :
  fst (updateWorkoutAction SampleStore.legacy SampleStore.noForms 0
         {| ui_id := 4; ui_name := Some (Some "Legs"); ui_startedAt := Some "";
            ui_completedAt := Some (Some "") |} SampleStore.signedIn)
    = Ok (ActionSuccess
            {| w_id := 4; w_userId := "user_1"; w_name := Some "Legs";
               w_startedAt := 1756720830500; w_completedAt := None;
               w_createdAt := 1756720830500 |}).
Proof.
  apply (update_action_blank_fields SampleStore.legacy SampleStore.noForms 0
           SampleStore.signedIn "user_1" SampleStore.morning (Some "Legs"));
    [reflexivity | discriminate | exact sample_key | simpl; auto | reflexivity].
Defined.
